(** * i915: buffer migration (i915_gem_ttm_move.c) and VMA binding (i915_vma.c)

    A shallow embedding of the TTM move callback with its fail-safe
    CPU fallback, and of the VMA registry, pin and unbind paths.

    Conventions of the embedding.
    - C integers are [Z]; error codes are the negative errno values.
    - A pointer that may carry an error (ERR_PTR) is a value of [ptr].
    - Functions of the kernel that live outside the two files (TTM, the
      migrate context, drm_mm, dma-fence, allocators) are collaborators:
      their outcome at each call is supplied by an environment record, so a
      statement quantified over the environment covers every behaviour of
      the collaborator.
    - Locks are not modelled: every function is embedded as it runs once
      its locks are held; an atomic_t is a plain integer. *)

From Stdlib Require Import ZArith List Bool Lia Sorted.
From Stdlib.Strings Require Import Byte.
Import ListNotations.
Open Scope Z_scope.

(** ** errno values used by the two files *)
Module Errno.
Definition ENOENT : Z := 2.
Definition EINTR : Z := 4.
Definition E2BIG : Z := 7.
Definition EAGAIN : Z := 11.
Definition ENOMEM : Z := 12.
Definition EBUSY : Z := 16.
Definition ENODEV : Z := 19.
Definition EINVAL : Z := 22.
Definition ENOSPC : Z := 28.
Definition ERESTARTSYS : Z := 512.
End Errno.
Import Errno.

(** ** Pointers carrying an error: ERR_PTR, IS_ERR, PTR_ERR *)
Inductive ptr (A : Type) : Type :=
| NULL : ptr A
| ERR (e : Z) : ptr A
| PTR (a : A) : ptr A.
Arguments NULL {A}.
Arguments ERR {A} e.
Arguments PTR {A} a.

(** ERR_PTR(0) is the null pointer, which IS_ERR does not take for an error. *)
Definition ERR_PTR {A : Type} (e : Z) : ptr A :=
  if e =? 0 then NULL else ERR e.

Definition IS_ERR {A : Type} (p : ptr A) : bool :=
  match p with ERR _ => true | _ => false end.

Definition PTR_ERR {A : Type} (p : ptr A) : Z :=
  match p with ERR e => e | _ => 0 end.

Definition PAGE_SHIFT : Z := 12.
Definition PAGE_SIZE : Z := 4096.

(* ================================================================== *)
(** * Part 1: i915_gem_ttm_move.c *)
(* ================================================================== *)
Module Migrate.

(** *** Memory contents *)

Definition page : Type := list byte.
Definition zero_page : page := repeat x00 (Z.to_nat PAGE_SIZE).

(** What a ttm_kmap_iter walks: the pages of a ttm_tt, or the io-mapping
    of a region through a scatter-gather table. *)
Definition INTEL_MEMORY_SYSTEM : Z := 0.
Definition INTEL_MEMORY_LOCAL : Z := 1.

Record intel_memory_region : Type := {
  mr_type : Z;
  mr_instance : Z
}.

Definition region_eqb (a b : intel_memory_region) : bool :=
  (mr_type a =? mr_type b) && (mr_instance a =? mr_instance b).

Inductive ttm_kmap_iter : Type :=
| ttm_kmap_iter_tt (tt : Z)
| ttm_kmap_iter_iomap (region : intel_memory_region) (st : Z).

Definition kmap_iter_eqb (a b : ttm_kmap_iter) : bool :=
  match a, b with
  | ttm_kmap_iter_tt x, ttm_kmap_iter_tt y => x =? y
  | ttm_kmap_iter_iomap r s, ttm_kmap_iter_iomap r' s' => region_eqb r r' && (s =? s')
  | _, _ => false
  end.

Definition memory : Type := ttm_kmap_iter -> list page.

Definition mem_write (m : memory) (k : ttm_kmap_iter) (d : list page) : memory :=
  fun k' => if kmap_iter_eqb k k' then d else m k'.

(** *** TTM objects *)

Definition I915_PL_SYSTEM : Z := 0.
Definition I915_PL_LMEM0 : Z := 3.

Record ttm_resource : Type := { mem_type : Z }.

Inductive ttm_caching : Type := ttm_uncached | ttm_write_combined | ttm_cached.

Definition ttm_caching_eqb (a b : ttm_caching) : bool :=
  match a, b with
  | ttm_uncached, ttm_uncached => true
  | ttm_write_combined, ttm_write_combined => true
  | ttm_cached, ttm_cached => true
  | _, _ => false
  end.

Definition TTM_TT_FLAG_SWAPPED : Z := 1.
Definition TTM_TT_FLAG_ZERO_ALLOC : Z := 2.
Definition TTM_TT_FLAG_PRIV_POPULATED : Z := Z.shiftl 1 31.

Record ttm_tt : Type := {
  tt_addr : Z;
  caching : ttm_caching;
  page_flags : Z
}.

Inductive ttm_bo_type : Type := ttm_bo_type_device | ttm_bo_type_kernel | ttm_bo_type_sg.

Record ttm_buffer_object : Type := {
  resource : ttm_resource;
  ttm : option ttm_tt;
  base_size : Z;
  type : ttm_bo_type
}.

(** *** GEM object: the placement bookkeeping *)

Definition I915_MADV_WILLNEED : Z := 0.
Definition I915_MADV_DONTNEED : Z := 1.
Definition __I915_MADV_PURGED : Z := 2.

Definition I915_GEM_DOMAIN_CPU : Z := 1.
Definition I915_GEM_DOMAIN_WC : Z := 128.

Definition I915_BO_FLAG_STRUCT_PAGE : Z := 1.
Definition I915_BO_FLAG_IOMEM : Z := 2.

Definition I915_CACHE_NONE : Z := 0.
Definition I915_CACHE_LLC : Z := 1.

Record drm_i915_gem_object : Type := {
  mm_region : intel_memory_region;
  mm_placements : list intel_memory_region;
  mm_madv : Z;
  mem_flags : Z;
  cache_level : Z;
  read_domains : Z;
  write_domain : Z;
  cached_io_rsgt : option Z;
  get_io_page_sg_idx : Z
}.

(** *** The selftest switches (file-scope statics) *)
Record failure_modes : Type := {
  fail_gpu_migration : bool;
  fail_work_allocation : bool
}.

Definition i915_ttm_migrate_set_failure_modes
    (gpu_migration work_allocation : bool) : failure_modes :=
  {| fail_gpu_migration := gpu_migration;
     fail_work_allocation := work_allocation |}.

(** *** The asynchronous machinery *)

Record i915_ttm_memcpy_arg : Type := {
  dst_iter : ttm_kmap_iter;
  src_iter : ttm_kmap_iter;
  num_pages : Z;
  clear : bool
}.

Record i915_ttm_memcpy_work : Type := {
  arg : i915_ttm_memcpy_arg
}.

(** The two fences a move can hand out: the request fence of the blit and
    the fence embedded in the memcpy work. *)
Inductive dma_fence : Type := rq_fence | work_fence.

(** A blit accepted by the migrate context and not yet completed. *)
Record blit_cmd : Type := {
  blit_clear : bool;
  blit_src : ttm_kmap_iter;
  blit_dst : ttm_kmap_iter;
  blit_pages : Z
}.

Inductive exec_context : Type := in_caller | in_worker | in_irq.

(** Log of the calls made into collaborators, oldest first. *)
Inductive event : Type :=
| ev_blit (clear : bool)
| ev_deps_sync
| ev_kzalloc_work
| ev_fence_wait
| ev_memcpy (c : exec_context) (clear : bool)
| ev_queue_work
| ev_irq_work_queue
| ev_work_fence_signal (c : exec_context)
| ev_purge
| ev_resource_free
| ev_accel_cleanup
| ev_sync_cleanup.

Record mstate : Type := {
  modes : failure_modes;
  mem : memory;
  obj : drm_i915_gem_object;
  bo : ttm_buffer_object;
  blit : option blit_cmd;
  rq_cb : option i915_ttm_memcpy_work;
  system_unbound_wq : list i915_ttm_memcpy_work;
  irq_work_list : list i915_ttm_memcpy_work;
  trace : list event
}.

Definition set_mem (st : mstate) (m : memory) : mstate :=
  {| modes := modes st; mem := m; obj := obj st; bo := bo st; blit := blit st;
     rq_cb := rq_cb st; system_unbound_wq := system_unbound_wq st;
     irq_work_list := irq_work_list st; trace := trace st |}.

Definition set_obj (st : mstate) (o : drm_i915_gem_object) : mstate :=
  {| modes := modes st; mem := mem st; obj := o; bo := bo st; blit := blit st;
     rq_cb := rq_cb st; system_unbound_wq := system_unbound_wq st;
     irq_work_list := irq_work_list st; trace := trace st |}.

Definition set_bo (st : mstate) (b : ttm_buffer_object) : mstate :=
  {| modes := modes st; mem := mem st; obj := obj st; bo := b; blit := blit st;
     rq_cb := rq_cb st; system_unbound_wq := system_unbound_wq st;
     irq_work_list := irq_work_list st; trace := trace st |}.

Definition set_blit (st : mstate) (b : option blit_cmd) : mstate :=
  {| modes := modes st; mem := mem st; obj := obj st; bo := bo st; blit := b;
     rq_cb := rq_cb st; system_unbound_wq := system_unbound_wq st;
     irq_work_list := irq_work_list st; trace := trace st |}.

Definition set_rq_cb (st : mstate) (c : option i915_ttm_memcpy_work) : mstate :=
  {| modes := modes st; mem := mem st; obj := obj st; bo := bo st; blit := blit st;
     rq_cb := c; system_unbound_wq := system_unbound_wq st;
     irq_work_list := irq_work_list st; trace := trace st |}.

Definition set_wq (st : mstate) (q : list i915_ttm_memcpy_work) : mstate :=
  {| modes := modes st; mem := mem st; obj := obj st; bo := bo st; blit := blit st;
     rq_cb := rq_cb st; system_unbound_wq := q;
     irq_work_list := irq_work_list st; trace := trace st |}.

Definition set_irq (st : mstate) (q : list i915_ttm_memcpy_work) : mstate :=
  {| modes := modes st; mem := mem st; obj := obj st; bo := bo st; blit := blit st;
     rq_cb := rq_cb st; system_unbound_wq := system_unbound_wq st;
     irq_work_list := q; trace := trace st |}.

Definition log (ev : event) (st : mstate) : mstate :=
  {| modes := modes st; mem := mem st; obj := obj st; bo := bo st; blit := blit st;
     rq_cb := rq_cb st; system_unbound_wq := system_unbound_wq st;
     irq_work_list := irq_work_list st; trace := trace st ++ [ev] |}.

(** *** Outcomes of the collaborators during one move *)
Record env : Type := {
  (* device *)
  HAS_LLC : bool;
  HAS_SNOOP : bool;
  migrate_context : bool;        (* to_gt(i915)->migrate.context != NULL *)
  intel_gt_is_wedged : bool;
  (* i915_ttm_move *)
  gem_obj_present : bool;        (* i915_ttm_to_gem(bo) != NULL *)
  i915_gem_object_unbind : Z;
  __i915_gem_object_put_pages : Z;
  dst_man_use_tt : bool;
  ttm_tt_populate : Z;
  dst_get_st : ptr Z;            (* i915_ttm_resource_get_st(obj, dst_mem) *)
  i915_deps_add_dependency : Z;
  i915_deps_add_resv : Z;
  ttm_bo_move_accel_cleanup : Z;
  (* __i915_ttm_move and below *)
  src_get_st : ptr Z;            (* i915_ttm_resource_get_st(obj, bo->resource) *)
  intel_context_migrate : Z;     (* return of intel_context_migrate_clear/_copy *)
  kzalloc_copy_work : bool;      (* kzalloc of copy_work returned non-NULL *)
  dma_fence_add_callback : Z;    (* 0, or -ENOENT once the fence has signaled *)
  rq_fence_error : Z;            (* fence->error of the blit once it has signaled *)
  blit_failed_data : list page;  (* what a failed blit leaves in the destination *)
  i915_deps_sync : Z
}.

(** *** Helpers of headers that are not among the sources *)

(** Modelled from the spec: i915_ttm_gtt_binds_lmem and
    i915_ttm_cpu_maps_iomem of gem/i915_gem_ttm.h, which is missing: every
    placement other than system memory is device-local ("io") memory. *)
Definition i915_ttm_gtt_binds_lmem (res : ttm_resource) : bool :=
  negb (mem_type res =? I915_PL_SYSTEM).

Definition i915_ttm_cpu_maps_iomem (res : ttm_resource) : bool :=
  negb (mem_type res =? I915_PL_SYSTEM).

(** Modelled from the spec: ttm_tt_is_populated of ttm_tt.h, which is
    missing: the populated bit of the page flags. *)
Definition ttm_tt_is_populated (t : ttm_tt) : bool :=
  negb (Z.land (page_flags t) TTM_TT_FLAG_PRIV_POPULATED =? 0).

(** Modelled from the spec: intel_region_to_ttm_type of intel_region_ttm.c,
    which is missing: the system region is the system placement, local
    region number n is placement LMEM0 + n. *)
Definition intel_region_to_ttm_type (mr : intel_memory_region) : Z :=
  if mr_type mr =? INTEL_MEMORY_SYSTEM then I915_PL_SYSTEM
  else mr_instance mr + I915_PL_LMEM0.

Definition tt_ptr (t : option ttm_tt) : Z :=
  match t with Some t => tt_addr t | None => 0 end.

Definition rsgt_ptr (r : option Z) : Z :=
  match r with Some r => r | None => 0 end.

(** *** i915_ttm_cache_level *)
Definition i915_ttm_cache_level (e : env) (res : ttm_resource) (t : option ttm_tt) : Z :=
  if (HAS_LLC e || HAS_SNOOP e)
     && negb (i915_ttm_gtt_binds_lmem res)
     && match t with Some t => ttm_caching_eqb (caching t) ttm_cached | None => false end
  then I915_CACHE_LLC else I915_CACHE_NONE.

(** *** i915_ttm_region *)
Definition i915_ttm_region (ttm_mem_type : Z) : intel_memory_region :=
  if ttm_mem_type =? I915_PL_SYSTEM
  then {| mr_type := INTEL_MEMORY_SYSTEM; mr_instance := 0 |}
  else {| mr_type := INTEL_MEMORY_LOCAL; mr_instance := ttm_mem_type - I915_PL_LMEM0 |}.

(** *** i915_ttm_adjust_domains_after_move *)
Definition i915_ttm_adjust_domains_after_move (st : mstate) : mstate :=
  let o := obj st in
  let wc := i915_ttm_cpu_maps_iomem (resource (bo st))
            || negb match ttm (bo st) with
                    | Some t => ttm_caching_eqb (caching t) ttm_cached
                    | None => false
                    end in
  let d := if wc then I915_GEM_DOMAIN_WC else I915_GEM_DOMAIN_CPU in
  set_obj st
    {| mm_region := mm_region o; mm_placements := mm_placements o;
       mm_madv := mm_madv o; mem_flags := mem_flags o;
       cache_level := cache_level o;
       read_domains := d; write_domain := d;
       cached_io_rsgt := cached_io_rsgt o;
       get_io_page_sg_idx := get_io_page_sg_idx o |}.

(** *** i915_ttm_adjust_gem_after_move *)

(** The loop over obj->mm.placements: the first placement of the resource's
    memory type that is not the current region. *)
Definition placement_for (o : drm_i915_gem_object) (mem_type : Z)
  : option intel_memory_region :=
  find (fun mr => (intel_region_to_ttm_type mr =? mem_type)
                  && negb (region_eqb mr (mm_region o)))
       (mm_placements o).

Definition i915_ttm_adjust_gem_after_move (e : env) (st : mstate) : mstate :=
  let o := obj st in
  let res := resource (bo st) in
  let region :=
    if negb (intel_region_to_ttm_type (mm_region o) =? mem_type res) then
      match placement_for o (mem_type res) with
      | Some mr => mr
      | None => mm_region o
      end
    else mm_region o in
  let flags0 := Z.land (mem_flags o)
                  (Z.lnot (Z.lor I915_BO_FLAG_STRUCT_PAGE I915_BO_FLAG_IOMEM)) in
  let flags1 := Z.lor flags0
                  (if i915_ttm_cpu_maps_iomem res then I915_BO_FLAG_IOMEM
                   else I915_BO_FLAG_STRUCT_PAGE) in
  let level := i915_ttm_cache_level e res (ttm (bo st)) in
  set_obj st
    {| mm_region := region; mm_placements := mm_placements o;
       mm_madv := mm_madv o; mem_flags := flags1;
       cache_level := level;
       read_domains := read_domains o; write_domain := write_domain o;
       cached_io_rsgt := cached_io_rsgt o;
       get_io_page_sg_idx := get_io_page_sg_idx o |}.

(** *** i915_ttm_move_notify *)
Definition i915_ttm_move_notify (e : env) : Z :=
  let ret := i915_gem_object_unbind e in
  if negb (ret =? 0) then ret
  else
    let ret := __i915_gem_object_put_pages e in
    if negb (ret =? 0) then ret else 0.

(** *** The GPU and the fences *)

(** Modelled from the spec: completion of the blit accepted by the migrate
    context (gt/intel_migrate.c is missing). A blit that completes without
    error has cleared its destination or copied the source into it; one
    that fails leaves whatever the environment says in the pages it was
    given. *)
Definition gpu_complete (e : env) (st : mstate) : mstate :=
  match blit st with
  | None => st
  | Some b =>
      let n := Z.to_nat (blit_pages b) in
      let old := mem st (blit_dst b) in
      let data :=
        (if rq_fence_error e =? 0 then
           (if blit_clear b then repeat zero_page n
            else firstn n (mem st (blit_src b)))
         else firstn n (blit_failed_data e)) ++ skipn n old in
      set_blit (set_mem st (mem_write (mem st) (blit_dst b) data)) None
  end.

(** dma_fence_wait on the request fence: returns once the blit is complete. *)
Definition dma_fence_wait_rq (e : env) (st : mstate) : mstate :=
  gpu_complete e (log ev_fence_wait st).

(** *** i915_ttm_accel_move *)
Definition submit_blit (e : env) (b : blit_cmd) (st : mstate)
  : ptr dma_fence * mstate :=
  let ret := intel_context_migrate e in
  if negb (ret =? 0) then (ERR_PTR ret, st)
  else (PTR rq_fence, set_blit (log (ev_blit (blit_clear b)) st) (Some b)).

Definition backing (res : ttm_resource) (t : option ttm_tt) (rsgt : Z) : ttm_kmap_iter :=
  if negb (i915_ttm_cpu_maps_iomem res) then ttm_kmap_iter_tt (tt_ptr t)
  else ttm_kmap_iter_iomap (i915_ttm_region (mem_type res)) rsgt.

Definition i915_ttm_accel_move (e : env) (clear : bool)
    (dst_mem : ttm_resource) (dst_ttm : option ttm_tt) (dst_st : Z)
    (st : mstate) : ptr dma_fence * mstate :=
  let b := bo st in
  let n := Z.shiftr (base_size b) PAGE_SHIFT in
  if negb (migrate_context e) || intel_gt_is_wedged e then (ERR_PTR (- EINVAL), st)
  else
    (* With fail_gpu_migration, we always perform a GPU clear. *)
    let clear := if fail_gpu_migration (modes st) then true else clear in
    let dst := backing dst_mem dst_ttm dst_st in
    if clear then
      if match type b with ttm_bo_type_kernel => true | _ => false end
         && negb (fail_gpu_migration (modes st))
      then (ERR_PTR (- EINVAL), st)
      else submit_blit e {| blit_clear := true; blit_src := dst; blit_dst := dst;
                            blit_pages := n |} st
    else
      match src_get_st e with
      | ERR err => (ERR err, st)
      | PTR src_rsgt =>
          submit_blit e {| blit_clear := false;
                           blit_src := backing (resource b) (ttm b) src_rsgt;
                           blit_dst := dst; blit_pages := n |} st
      | NULL =>
          submit_blit e {| blit_clear := false;
                           blit_src := backing (resource b) (ttm b) 0;
                           blit_dst := dst; blit_pages := n |} st
      end.

(** *** The CPU copy *)

(** Modelled from the spec: ttm_move_memcpy of ttm_bo_util.c, which is
    missing: a CPU-side clear or copy of num_pages pages from the source
    mapping to the destination mapping. *)
Definition ttm_move_memcpy (clear : bool) (num_pages : Z)
    (dst src : ttm_kmap_iter) (m : memory) : memory :=
  let n := Z.to_nat num_pages in
  mem_write m dst
    ((if clear then repeat zero_page n else firstn n (m src)) ++ skipn n (m dst)).

Definition i915_ttm_move_memcpy (c : exec_context) (a : i915_ttm_memcpy_arg)
    (st : mstate) : mstate :=
  log (ev_memcpy c (clear a))
      (set_mem st (ttm_move_memcpy (clear a) (num_pages a) (dst_iter a) (src_iter a) (mem st))).

Definition i915_ttm_memcpy_init (st : mstate) (clear : bool)
    (dst_mem : ttm_resource) (dst_ttm : option ttm_tt) (dst_rsgt : Z)
  : i915_ttm_memcpy_arg :=
  let b := bo st in
  let dst_reg := i915_ttm_region (mem_type dst_mem) in
  let src_reg := i915_ttm_region (mem_type (resource b)) in
  {| dst_iter := if negb (i915_ttm_cpu_maps_iomem dst_mem)
                 then ttm_kmap_iter_tt (tt_ptr dst_ttm)
                 else ttm_kmap_iter_iomap dst_reg dst_rsgt;
     src_iter := if negb (i915_ttm_cpu_maps_iomem (resource b))
                 then ttm_kmap_iter_tt (tt_ptr (ttm b))
                 else ttm_kmap_iter_iomap src_reg (rsgt_ptr (cached_io_rsgt (obj st)));
     num_pages := Z.shiftr (base_size b) PAGE_SHIFT;
     clear := clear |}.

(** *** __memcpy_work, __memcpy_irq_work, __memcpy_cb *)
Definition __memcpy_work (copy_work : i915_ttm_memcpy_work) (st : mstate) : mstate :=
  log (ev_work_fence_signal in_worker)
      (i915_ttm_move_memcpy in_worker (arg copy_work) st).

Definition __memcpy_irq_work (copy_work : i915_ttm_memcpy_work) (st : mstate) : mstate :=
  log (ev_work_fence_signal in_irq) st.

Definition __memcpy_cb (fence_error : Z) (copy_work : i915_ttm_memcpy_work)
    (st : mstate) : mstate :=
  if negb (fence_error =? 0) || fail_gpu_migration (modes st) then
    log ev_queue_work (set_wq st (system_unbound_wq st ++ [copy_work]))
  else
    log ev_irq_work_queue (set_irq st (irq_work_list st ++ [copy_work])).

(** *** i915_ttm_memcpy_work_arm *)
Definition i915_ttm_memcpy_work_arm (e : env) (work : i915_ttm_memcpy_work)
    (st : mstate) : ptr dma_fence * mstate :=
  let ret := dma_fence_add_callback e in
  if negb (ret =? 0) then
    (* a fence that refuses the callback with -ENOENT has already signaled *)
    let st := if negb (ret =? - ENOENT) then dma_fence_wait_rq e st
              else gpu_complete e st in
    (ERR_PTR (if fail_gpu_migration (modes st) then - EINVAL else rq_fence_error e), st)
  else
    (PTR work_fence, set_rq_cb st (Some work)).

(** *** __i915_ttm_move *)

(** The tail of the function, "Error intercept failed or no accelerated
    migration to start with". *)
Definition cpu_copy_now (copy_work : option i915_ttm_memcpy_work) (clear : bool)
    (dst_mem : ttm_resource) (dst_ttm : option ttm_tt) (dst_rsgt : Z)
    (st : mstate) : ptr dma_fence * mstate :=
  let a := match copy_work with
           | Some w => arg w
           | None => i915_ttm_memcpy_init st clear dst_mem dst_ttm dst_rsgt
           end in
  (NULL, i915_ttm_move_memcpy in_caller a st).

Definition __i915_ttm_move (e : env) (clear : bool)
    (dst_mem : ttm_resource) (dst_ttm : option ttm_tt) (dst_rsgt : Z)
    (allow_accel : bool) (move_deps : bool) (st : mstate)
  : ptr dma_fence * mstate :=
  let '(fence, st) :=
    if allow_accel then i915_ttm_accel_move e clear dst_mem dst_ttm dst_rsgt st
    else (ERR_PTR (- EINVAL), st) in
  (* We only need to intercept the error when moving to lmem. *)
  if allow_accel && negb (IS_ERR fence) && negb (i915_ttm_gtt_binds_lmem dst_mem)
     && negb (fail_gpu_migration (modes st) || fail_work_allocation (modes st))
  then (fence, st)
  else if negb (IS_ERR fence) then
    (* If we've scheduled gpu migration. Try to arm error intercept. *)
    if negb (fail_work_allocation (modes st)) && kzalloc_copy_work e then
      let st := log ev_kzalloc_work st in
      let copy_work := {| arg := i915_ttm_memcpy_init st clear dst_mem dst_ttm dst_rsgt |} in
      let '(fence, st) := i915_ttm_memcpy_work_arm e copy_work st in
      if negb (IS_ERR fence) then (fence, st)
      else cpu_copy_now (Some copy_work) clear dst_mem dst_ttm dst_rsgt st
    else
      let st := dma_fence_wait_rq e st in
      let fence : ptr dma_fence :=
        ERR_PTR (if fail_gpu_migration (modes st) then - EINVAL else rq_fence_error e) in
      if negb (IS_ERR fence) then (fence, st)
      else cpu_copy_now None clear dst_mem dst_ttm dst_rsgt st
  else if move_deps then
    let err := i915_deps_sync e in
    let st := log ev_deps_sync st in
    if negb (err =? 0) then (ERR_PTR err, st)
    else cpu_copy_now None clear dst_mem dst_ttm dst_rsgt st
  else cpu_copy_now None clear dst_mem dst_ttm dst_rsgt st.

(** *** prev_deps *)
Definition prev_deps (e : env) : Z :=
  let ret := i915_deps_add_dependency e in
  if ret =? 0 then i915_deps_add_resv e else ret.

(** *** What happens after the move has returned *)

(** Modelled from the spec: the blit completes and its fence signals, which
    runs the callback registered on it, if any (dma-fence.c is missing). *)
Definition dma_fence_signal_rq (e : env) (st : mstate) : mstate :=
  let st := gpu_complete e st in
  match rq_cb st with
  | Some w => __memcpy_cb (rq_fence_error e) w (set_rq_cb st None)
  | None => st
  end.

(** Modelled from the spec: the irq_work list and the unbound workqueue run
    each queued item once (irq_work.c and workqueue.c are missing). *)
Definition run_irq_work (st : mstate) : mstate :=
  fold_left (fun s w => __memcpy_irq_work w s) (irq_work_list st) (set_irq st []).

Definition run_workqueue (st : mstate) : mstate :=
  fold_left (fun s w => __memcpy_work w s) (system_unbound_wq st) (set_wq st []).

Definition run_to_idle (e : env) (st : mstate) : mstate :=
  run_workqueue (run_irq_work (dma_fence_signal_rq e st)).

(** *** Collaborators of i915_ttm_move *)

(** Modelled from the spec: ttm_bo_move_null, ttm_bo_move_sync_cleanup and
    ttm_bo_move_accel_cleanup of TTM, which is missing: each ends with the
    buffer object placed in the destination resource. *)
Definition ttm_bo_assign_mem (dst_mem : ttm_resource) (st : mstate) : mstate :=
  let b := bo st in
  set_bo st {| resource := dst_mem; ttm := ttm b; base_size := base_size b;
               type := type b |}.

Definition ttm_bo_move_null (dst_mem : ttm_resource) (st : mstate) : mstate :=
  ttm_bo_assign_mem dst_mem st.

Definition ttm_bo_move_sync_cleanup (dst_mem : ttm_resource) (st : mstate) : mstate :=
  ttm_bo_assign_mem dst_mem (log ev_sync_cleanup st).

(** Modelled from the spec: i915_ttm_purge of gem/i915_gem_ttm.c, which is
    missing: the backing store is dropped and the object is marked purged. *)
Definition i915_ttm_purge (st : mstate) : mstate :=
  let o := obj st in
  log ev_purge
    (set_obj st
       {| mm_region := mm_region o; mm_placements := mm_placements o;
          mm_madv := __I915_MADV_PURGED; mem_flags := mem_flags o;
          cache_level := cache_level o;
          read_domains := read_domains o; write_domain := write_domain o;
          cached_io_rsgt := cached_io_rsgt o;
          get_io_page_sg_idx := get_io_page_sg_idx o |}).

(** Modelled from the spec: ttm_resource_free releases the destination
    placement. *)
Definition ttm_resource_free (st : mstate) : mstate := log ev_resource_free st.

(** Modelled from the spec: a successful ttm_tt_populate leaves the ttm_tt
    populated. *)
Definition ttm_tt_populated (t : ttm_tt) : ttm_tt :=
  {| tt_addr := tt_addr t; caching := caching t;
     page_flags := Z.lor (page_flags t) TTM_TT_FLAG_PRIV_POPULATED |}.

Definition set_ttm (st : mstate) (t : option ttm_tt) : mstate :=
  let b := bo st in
  set_bo st {| resource := resource b; ttm := t; base_size := base_size b;
               type := type b |}.

Definition set_cached_io_rsgt (st : mstate) (r : option Z) (idx : Z) : mstate :=
  let o := obj st in
  set_obj st
    {| mm_region := mm_region o; mm_placements := mm_placements o;
       mm_madv := mm_madv o; mem_flags := mem_flags o;
       cache_level := cache_level o;
       read_domains := read_domains o; write_domain := write_domain o;
       cached_io_rsgt := r;
       get_io_page_sg_idx := idx |}.

(** Modelled from the spec: i915_ttm_free_cached_io_rsgt of
    gem/i915_gem_ttm.c, which is missing, drops the cached io
    scatter-gather table of the object. *)
Definition i915_ttm_free_cached_io_rsgt (st : mstate) : mstate :=
  set_cached_io_rsgt st None (get_io_page_sg_idx (obj st)).

(** *** i915_ttm_move, from the scatter-gather table of the destination on *)
Definition i915_ttm_move_copy (e : env) (evict : bool) (dst_mem : ttm_resource)
    (dst_rsgt : Z) (st : mstate) : Z * mstate :=
  let t := ttm (bo st) in
  let clear := negb (i915_ttm_cpu_maps_iomem (resource (bo st)))
               && match t with Some t => negb (ttm_tt_is_populated t) | None => true end in
  let skip := clear
              && match t with
                 | Some t => Z.land (page_flags t) TTM_TT_FLAG_ZERO_ALLOC =? 0
                 | None => false
                 end in
  let move :=
    if negb skip then
      let ret := prev_deps e in
      if negb (ret =? 0) then inl ret
      else inr (__i915_ttm_move e clear dst_mem t dst_rsgt true true st)
    else inr (NULL, st) in
  match move with
  | inl ret => (ret, st)
  | inr (migration_fence, st) =>
      (* We can possibly get an -ERESTARTSYS here *)
      if IS_ERR migration_fence then (PTR_ERR migration_fence, st)
      else
        let st :=
          match migration_fence with
          | PTR _ =>
              let ret := ttm_bo_move_accel_cleanup e in
              let st := log ev_accel_cleanup st in
              if negb (ret =? 0) then
                ttm_bo_move_sync_cleanup dst_mem (run_to_idle e st)
              else ttm_bo_assign_mem dst_mem st
          | _ => ttm_bo_move_sync_cleanup dst_mem st
          end in
        let st := i915_ttm_adjust_domains_after_move st in
        let st := i915_ttm_free_cached_io_rsgt st in
        let st :=
          if i915_ttm_gtt_binds_lmem dst_mem || i915_ttm_cpu_maps_iomem dst_mem
          then set_cached_io_rsgt st (Some dst_rsgt) 0
          else st in
        (* i915_ttm_adjust_lru touches nothing that is modelled *)
        let st := i915_ttm_adjust_gem_after_move e st in
        (0, st)
  end.

(** *** i915_ttm_move *)
Definition i915_ttm_move (e : env) (evict : bool) (dst_mem : ttm_resource)
    (st : mstate) : Z * mstate :=
  if negb (gem_obj_present e) then (0, ttm_bo_move_null dst_mem st)
  else
    let ret := i915_ttm_move_notify e in
    if negb (ret =? 0) then (ret, st)
    else if negb (mm_madv (obj st) =? I915_MADV_WILLNEED) then
      (0, ttm_resource_free (i915_ttm_purge st))
    else
      (* Populate ttm with pages if needed. Typically system memory. *)
      let populate :=
        match ttm (bo st) with
        | Some t =>
            if dst_man_use_tt e
               || negb (Z.land (page_flags t) TTM_TT_FLAG_SWAPPED =? 0)
            then
              let ret := ttm_tt_populate e in
              if negb (ret =? 0) then inl ret
              else inr (set_ttm st (Some (ttm_tt_populated t)))
            else inr st
        | None => inr st
        end in
      match populate with
      | inl ret => (ret, st)
      | inr st =>
          match dst_get_st e with
          | ERR err => (err, st)
          | PTR dst_rsgt => i915_ttm_move_copy e evict dst_mem dst_rsgt st
          | NULL => i915_ttm_move_copy e evict dst_mem 0 st
          end
      end.

(** *** Observations on a move *)

(** The events a call has appended to the log. *)
Definition new_events (st st' : mstate) : list event :=
  skipn (length (trace st)) (trace st').

(** The bookkeeping of a buffer: its GEM object, its TTM object and the
    failure switches. *)
Definition same_books (st st' : mstate) : Prop :=
  obj st' = obj st /\ bo st' = bo st /\ modes st' = modes st.

End Migrate.

(* ================================================================== *)
(** * Part 2: i915_vma.c *)
(* ================================================================== *)
Module Vma.

(** *** Assertions

    GEM_BUG_ON is a fatal assertion: a call that trips one does not return.
    A function that contains one yields an [outcome]. *)
Inductive outcome (A : Type) : Type :=
| Ret (a : A)
| BUG.
Arguments Ret {A} a.
Arguments BUG {A}.

Definition bind {A B : Type} (m : outcome A) (k : A -> outcome B) : outcome B :=
  match m with Ret a => k a | BUG => BUG end.

Definition GEM_BUG_ON (c : bool) : outcome unit := if c then BUG else Ret tt.

Notation "x <- m ;; k" := (bind m (fun x => k))
  (at level 61, m at next level, right associativity).
Notation "m ;;; k" := (bind m (fun _ => k))
  (at level 61, right associativity).

(** *** Integer helpers of the kernel headers *)

Definition u64 (x : Z) : Z := x mod 2 ^ 64.
Definition u32 (x : Z) : Z := x mod 2 ^ 32.
Definition U32_MAX : Z := 2 ^ 32 - 1.

Definition IS_ALIGNED (x a : Z) : bool := Z.land x (a - 1) =? 0.
Definition is_power_of_2 (n : Z) : bool := negb (n =? 0) && (Z.land n (n - 1) =? 0).
Definition rounddown_pow_of_two (n : Z) : Z := 2 ^ Z.log2 n.
Definition round_up (x y : Z) : Z := u64 (Z.lor (u64 (x - 1)) (y - 1) + 1).
Definition upper_32_bits (x : Z) : Z := Z.shiftr x 32.
Definition range_overflows (start size max : Z) : bool :=
  (max <=? start) || (max - start <? size).
Definition test_bits (x mask : Z) : bool := negb (Z.land x mask =? 0).

Definition I915_GTT_PAGE_SIZE : Z := 4096.
Definition I915_GTT_PAGE_SIZE_64K : Z := 65536.
Definition I915_GTT_PAGE_SIZE_2M : Z := 2097152.
Definition I915_GTT_MIN_ALIGNMENT : Z := 4096.

(** Modelled from the spec: the PIN_ and I915_VMA_ flag values of
    i915_gem_gtt.h and i915_vma_types.h, which are missing. The pin count
    is the low ten bits of vma->flags, the bind bits sit above it, and
    PIN_GLOBAL and PIN_USER are the two bind bits, as the BUILD_BUG_ON of
    i915_vma_pin_ww requires. *)
Definition PIN_MAPPABLE : Z := 8.
Definition PIN_ZONE_4G : Z := 16.
Definition PIN_OFFSET_BIAS : Z := 64.
Definition PIN_OFFSET_FIXED : Z := 128.
Definition PIN_VALIDATE : Z := 256.
Definition PIN_GLOBAL : Z := 1024.
Definition PIN_USER : Z := 2048.
Definition PIN_OFFSET_MASK : Z := 2 ^ 64 - 4096.

Definition I915_VMA_PIN_MASK : Z := 1023.
Definition I915_VMA_OVERFLOW : Z := 512.
Definition I915_VMA_GLOBAL_BIND : Z := 1024.
Definition I915_VMA_LOCAL_BIND : Z := 2048.
Definition I915_VMA_BIND_MASK : Z := 3072.
Definition I915_VMA_ERROR : Z := 4096.
Definition I915_VMA_GGTT : Z := 8192.
Definition I915_VMA_CAN_FENCE : Z := 16384.
Definition I915_VMA_USERFAULT : Z := 32768.
Definition I915_VMA_GGTT_WRITE : Z := 65536.

Definition I915_VMA_PAGES_BIAS : Z := 24.
Definition I915_VMA_PAGES_ACTIVE : Z := Z.lor (Z.shiftl 1 24) 1.

(** *** Views *)

(** The tagged union i915_ggtt_view; the parameters of a rotated or
    remapped view are kept as the words memcmp would see. *)
Inductive i915_ggtt_view : Type :=
| I915_GGTT_VIEW_NORMAL
| I915_GGTT_VIEW_ROTATED (rotated : list Z)
| I915_GGTT_VIEW_PARTIAL (offset size : Z)
| I915_GGTT_VIEW_REMAPPED (remapped : list Z).

(** Modelled from the spec: the numeric tag of a view type. The header
    that fixes the values is missing; NORMAL is 0 and the tags differ. *)
Definition view_type (v : i915_ggtt_view) : Z :=
  match v with
  | I915_GGTT_VIEW_NORMAL => 0
  | I915_GGTT_VIEW_ROTATED _ => 1
  | I915_GGTT_VIEW_PARTIAL _ _ => 2
  | I915_GGTT_VIEW_REMAPPED _ => 3
  end.

Definition view_words (v : i915_ggtt_view) : list Z :=
  match v with
  | I915_GGTT_VIEW_NORMAL => []
  | I915_GGTT_VIEW_ROTATED r => r
  | I915_GGTT_VIEW_PARTIAL o s => [o; s]
  | I915_GGTT_VIEW_REMAPPED r => r
  end.

Fixpoint memcmp (a b : list Z) : Z :=
  match a, b with
  | [], [] => 0
  | [], _ :: _ => -1
  | _ :: _, [] => 1
  | x :: a', y :: b' => if x =? y then memcmp a' b' else x - y
  end.

(** *** The address space, as far as the registry reads it *)
Record i915_address_space : Type := {
  vm_addr : Z;                 (* identity of the address space *)
  total : Z;
  is_ggtt : bool;
  is_dpt : bool;
  is_alias : bool;             (* vm == &vm->gt->ggtt->alias->vm *)
  vm_open : Z;
  mappable_end : Z;
  color_adjust : bool;         (* vm->mm.color_adjust != NULL *)
  bind_async_flags : Z;
  allocate_va_range : bool
}.

(** *** The VMA *)

(** struct i915_vma_resource, as far as the file reads it back. *)
Record i915_vma_resource : Type := {
  bi_pages : option Z;         (* vma_res->bi.pages *)
  bi_pages_rsgt : option Z     (* vma_res->bi.pages_rsgt *)
}.

Record i915_vma : Type := {
  vma_addr : Z;                (* identity of the allocation *)
  vm : Z;
  ggtt_view : i915_ggtt_view;
  size : Z;
  fence_size : Z;
  fence_alignment : Z;
  display_alignment : Z;
  flags : Z;
  pages_count : Z;
  pages : option Z;
  page_sizes_sg : Z;
  resource : option i915_vma_resource;
  iomap : option Z;
  fence : option Z;
  closed : bool                (* !list_empty(&vma->closed_link) *)
}.

Definition set_flags (v : i915_vma) (f : Z) : i915_vma :=
  {| vma_addr := vma_addr v; vm := vm v; ggtt_view := ggtt_view v; size := size v;
     fence_size := fence_size v; fence_alignment := fence_alignment v;
     display_alignment := display_alignment v; flags := f;
     pages_count := pages_count v; pages := pages v;
     page_sizes_sg := page_sizes_sg v; resource := resource v;
     iomap := iomap v; fence := fence v; closed := closed v |}.

Definition set_size (v : i915_vma) (s : Z) : i915_vma :=
  {| vma_addr := vma_addr v; vm := vm v; ggtt_view := ggtt_view v; size := s;
     fence_size := fence_size v; fence_alignment := fence_alignment v;
     display_alignment := display_alignment v; flags := flags v;
     pages_count := pages_count v; pages := pages v;
     page_sizes_sg := page_sizes_sg v; resource := resource v;
     iomap := iomap v; fence := fence v; closed := closed v |}.

Definition set_view (v : i915_vma) (w : i915_ggtt_view) : i915_vma :=
  {| vma_addr := vma_addr v; vm := vm v; ggtt_view := w; size := size v;
     fence_size := fence_size v; fence_alignment := fence_alignment v;
     display_alignment := display_alignment v; flags := flags v;
     pages_count := pages_count v; pages := pages v;
     page_sizes_sg := page_sizes_sg v; resource := resource v;
     iomap := iomap v; fence := fence v; closed := closed v |}.

Definition set_fence_geometry (v : i915_vma) (fs fa : Z) : i915_vma :=
  {| vma_addr := vma_addr v; vm := vm v; ggtt_view := ggtt_view v; size := size v;
     fence_size := fs; fence_alignment := fa;
     display_alignment := display_alignment v; flags := flags v;
     pages_count := pages_count v; pages := pages v;
     page_sizes_sg := page_sizes_sg v; resource := resource v;
     iomap := iomap v; fence := fence v; closed := closed v |}.

Definition set_pages (v : i915_vma) (c : Z) (p : option Z) (sg : Z) : i915_vma :=
  {| vma_addr := vma_addr v; vm := vm v; ggtt_view := ggtt_view v; size := size v;
     fence_size := fence_size v; fence_alignment := fence_alignment v;
     display_alignment := display_alignment v; flags := flags v;
     pages_count := c; pages := p;
     page_sizes_sg := sg; resource := resource v;
     iomap := iomap v; fence := fence v; closed := closed v |}.

Definition set_resource (v : i915_vma) (r : option i915_vma_resource) : i915_vma :=
  {| vma_addr := vma_addr v; vm := vm v; ggtt_view := ggtt_view v; size := size v;
     fence_size := fence_size v; fence_alignment := fence_alignment v;
     display_alignment := display_alignment v; flags := flags v;
     pages_count := pages_count v; pages := pages v;
     page_sizes_sg := page_sizes_sg v; resource := r;
     iomap := iomap v; fence := fence v; closed := closed v |}.

Definition set_iomap_fence (v : i915_vma) (io fe : option Z) : i915_vma :=
  {| vma_addr := vma_addr v; vm := vm v; ggtt_view := ggtt_view v; size := size v;
     fence_size := fence_size v; fence_alignment := fence_alignment v;
     display_alignment := display_alignment v; flags := flags v;
     pages_count := pages_count v; pages := pages v;
     page_sizes_sg := page_sizes_sg v; resource := resource v;
     iomap := io; fence := fe; closed := closed v |}.

(** Modelled from the spec: the flag accessors of i915_vma.h, which is
    missing. *)
Definition i915_vma_is_pinned (v : i915_vma) : bool := test_bits (flags v) I915_VMA_PIN_MASK.
Definition i915_vma_is_bound (v : i915_vma) (where_ : Z) : bool := test_bits (flags v) where_.
Definition i915_vma_is_ggtt (v : i915_vma) : bool := test_bits (flags v) I915_VMA_GGTT.
Definition i915_vma_is_map_and_fenceable (v : i915_vma) : bool :=
  test_bits (flags v) I915_VMA_CAN_FENCE.
Definition i915_vma_has_userfault (v : i915_vma) : bool := test_bits (flags v) I915_VMA_USERFAULT.
Definition i915_vma_is_closed (v : i915_vma) : bool := closed v.
Definition __i915_vma_pin (v : i915_vma) : outcome i915_vma :=
  let v := set_flags v (u32 (flags v + 1)) in
  GEM_BUG_ON (negb (i915_vma_is_pinned v)) ;;; Ret v.

(** Modelled from the spec: i915_vma_compare of i915_vma.h, which is
    missing: address-space identity first, then the view type, then the
    view's parameters; a null view stands for the normal view. *)
Definition i915_vma_compare (v : i915_vma) (vm_ : Z) (view : option i915_ggtt_view) : Z :=
  let cmp := vm v - vm_ in
  if negb (cmp =? 0) then cmp
  else
    let cmp := view_type (ggtt_view v) in
    match view with
    | None => cmp
    | Some w =>
        let cmp := cmp - view_type w in
        if negb (cmp =? 0) then cmp
        else memcmp (view_words (ggtt_view v)) (view_words w)
    end.

(** *** The per-object registry *)

(** obj->vma.tree, an rbtree of VMAs linked through obj_node. *)
Inductive rb_node : Type :=
| rb_nil
| rb_link (rb_left : rb_node) (entry : i915_vma) (rb_right : rb_node).

Fixpoint inorder (t : rb_node) : list i915_vma :=
  match t with
  | rb_nil => []
  | rb_link l v r => inorder l ++ v :: inorder r
  end.

Record drm_i915_gem_object : Type := {
  base_size : Z;
  tiling : Z;
  stride : Z;
  vma_tree : rb_node;
  vma_list : list i915_vma
}.

(** Pure collaborators of vma_create that are defined outside the file,
    taken as parameters. *)
Record helpers : Type := {
  intel_rotation_info_size : list Z -> Z;
  intel_remapped_info_size : list Z -> Z;
  i915_gem_fence_size : Z -> Z -> Z -> Z;
  i915_gem_fence_alignment : Z -> Z -> Z -> Z;
  rb_insert_color : rb_node -> rb_node
}.

(** What the registry owns: the object, the slab of VMAs and the number
    of references held on the address space. *)
Record registry : Type := {
  r_obj : drm_i915_gem_object;
  slab_next : Z;               (* address the slab hands out next *)
  slab_live : list Z;          (* allocated and not freed *)
  vm_refs : Z
}.

(** Outcomes of the collaborators during one i915_vma_instance. *)
Record renv : Type := {
  kmem_cache_zalloc : bool;    (* the slab has memory *)
  (* what other threads do to the registry between the lookup, made under
     obj->vma.lock, and the moment vma_create takes the lock again *)
  concurrent : registry -> registry
}.

Definition set_tree_list (o : drm_i915_gem_object) (t : rb_node) (l : list i915_vma)
  : drm_i915_gem_object :=
  {| base_size := base_size o; tiling := tiling o; stride := stride o;
     vma_tree := t; vma_list := l |}.

(** *** i915_vma_alloc, i915_vma_free *)
Definition zeroed_vma (addr : Z) : i915_vma :=
  {| vma_addr := addr; vm := 0; ggtt_view := I915_GGTT_VIEW_NORMAL; size := 0;
     fence_size := 0; fence_alignment := 0; display_alignment := 0; flags := 0;
     pages_count := 0; pages := None; page_sizes_sg := 0; resource := None;
     iomap := None; fence := None; closed := false |}.

Definition i915_vma_alloc (e : renv) (r : registry) : option i915_vma * registry :=
  if kmem_cache_zalloc e then
    (Some (zeroed_vma (slab_next r)),
     {| r_obj := r_obj r; slab_next := slab_next r + 1;
        slab_live := slab_next r :: slab_live r; vm_refs := vm_refs r |})
  else (None, r).

Definition i915_vma_free (v : i915_vma) (r : registry) : registry :=
  {| r_obj := r_obj r; slab_next := slab_next r;
     slab_live := filter (fun a => negb (a =? vma_addr v)) (slab_live r);
     vm_refs := vm_refs r |}.

Definition i915_vm_get (r : registry) : registry :=
  {| r_obj := r_obj r; slab_next := slab_next r; slab_live := slab_live r;
     vm_refs := vm_refs r + 1 |}.

Definition i915_vm_put (r : registry) : registry :=
  {| r_obj := r_obj r; slab_next := slab_next r; slab_live := slab_live r;
     vm_refs := vm_refs r - 1 |}.

(** *** vma_create *)

(** The candidate: allocation, initialisation and the size of the view,
    up to the first test of the size. *)
Definition vma_set_view_size (h : helpers) (o : drm_i915_gem_object)
    (view : option i915_ggtt_view) (v : i915_vma) : outcome i915_vma :=
  match view with
  | Some (I915_GGTT_VIEW_PARTIAL offset psize) =>
      let v := set_view v (I915_GGTT_VIEW_PARTIAL offset psize) in
      GEM_BUG_ON (range_overflows offset psize (Z.shiftr (base_size o) PAGE_SHIFT)) ;;;
      let v := set_size v (u64 (Z.shiftl psize PAGE_SHIFT)) in
      GEM_BUG_ON (base_size o <? size v) ;;;
      Ret v
  | Some (I915_GGTT_VIEW_ROTATED rot) =>
      let v := set_view v (I915_GGTT_VIEW_ROTATED rot) in
      Ret (set_size v (u64 (Z.shiftl (intel_rotation_info_size h rot) PAGE_SHIFT)))
  | Some (I915_GGTT_VIEW_REMAPPED rem) =>
      let v := set_view v (I915_GGTT_VIEW_REMAPPED rem) in
      Ret (set_size v (u64 (Z.shiftl (intel_remapped_info_size h rem) PAGE_SHIFT)))
  | Some I915_GGTT_VIEW_NORMAL | None => Ret v
  end.

Definition vma_init (h : helpers) (o : drm_i915_gem_object) (vm_ : i915_address_space)
    (view : option i915_ggtt_view) (v : i915_vma) : outcome i915_vma :=
  let v :=
    {| vma_addr := vma_addr v; vm := vm_addr vm_; ggtt_view := ggtt_view v;
       size := base_size o;
       fence_size := fence_size v; fence_alignment := fence_alignment v;
       display_alignment := I915_GTT_MIN_ALIGNMENT; flags := flags v;
       pages_count := pages_count v; pages := pages v;
       page_sizes_sg := page_sizes_sg v; resource := resource v;
       iomap := iomap v; fence := fence v; closed := false |} in
  vma_set_view_size h o view v.

(** The part of vma_create that runs under obj->vma.lock for a GGTT. *)
Definition vma_ggtt_setup (h : helpers) (o : drm_i915_gem_object)
    (vm_ : i915_address_space) (v : i915_vma) : outcome (option i915_vma) :=
  if U32_MAX <? size v then Ret None
  else
    let fs := i915_gem_fence_size h (size v) (tiling o) (stride o) in
    if (fs <? size v) || (total vm_ <? fs) then Ret None
    else
      GEM_BUG_ON (negb (IS_ALIGNED fs I915_GTT_MIN_ALIGNMENT)) ;;;
      let fa := i915_gem_fence_alignment h (size v) (tiling o) (stride o) in
      GEM_BUG_ON (negb (is_power_of_2 fa)) ;;;
      Ret (Some (set_flags (set_fence_geometry v fs fa) (Z.lor (flags v) I915_VMA_GGTT))).

(** The walk down obj->vma.tree and rb_link_node: either the entry that
    already has the key, or the tree with the new node linked in. *)
Fixpoint rb_walk_link (t : rb_node) (vm_ : Z) (view : option i915_ggtt_view)
    (v : i915_vma) : i915_vma + rb_node :=
  match t with
  | rb_nil => inr (rb_link rb_nil v rb_nil)
  | rb_link l pos r =>
      let cmp := i915_vma_compare pos vm_ view in
      if cmp <? 0 then
        match rb_walk_link r vm_ view v with
        | inl found => inl found
        | inr r' => inr (rb_link l pos r')
        end
      else if 0 <? cmp then
        match rb_walk_link l vm_ view v with
        | inl found => inl found
        | inr l' => inr (rb_link l' pos r)
        end
      else inl pos
  end.

Definition err_vma (v : i915_vma) (r : registry) : registry :=
  i915_vma_free v (i915_vm_put r).

Definition vma_create (h : helpers) (e : renv) (vm_ : i915_address_space)
    (view : option i915_ggtt_view) (r : registry) : outcome (ptr i915_vma * registry) :=
  (* The aliasing_ppgtt should never be used directly! *)
  GEM_BUG_ON (is_alias vm_) ;;;
  match i915_vma_alloc e r with
  | (None, r) => Ret (ERR_PTR (- ENOMEM), r)
  | (Some v, r) =>
      let r := i915_vm_get r in
      let o := r_obj r in
      v <- vma_init h o vm_ view v ;;
      if total vm_ <? size v then Ret (ERR_PTR (- E2BIG), err_vma v r)
      else
        GEM_BUG_ON (negb (IS_ALIGNED (size v) I915_GTT_PAGE_SIZE)) ;;;
        g <- (if is_ggtt vm_ then vma_ggtt_setup h o vm_ v else Ret (Some v)) ;;
        match g with
        | None => Ret (ERR_PTR (- E2BIG), err_vma v r)
        | Some v =>
            match rb_walk_link (vma_tree o) (vm_addr vm_) view v with
            | inl pos =>
                (* another thread already created a matching vma: return the
                   older instance and dispose of ours *)
                Ret (PTR pos, err_vma v r)
            | inr t =>
                let t := rb_insert_color h t in
                let l := if i915_vma_is_ggtt v then v :: vma_list o
                         else vma_list o ++ [v] in
                Ret (PTR v,
                     {| r_obj := set_tree_list o t l; slab_next := slab_next r;
                        slab_live := slab_live r; vm_refs := vm_refs r |})
            end
        end
  end.

(** *** i915_vma_lookup *)
Fixpoint i915_vma_lookup (t : rb_node) (vm_ : Z) (view : option i915_ggtt_view)
  : option i915_vma :=
  match t with
  | rb_nil => None
  | rb_link l v r =>
      let cmp := i915_vma_compare v vm_ view in
      if cmp =? 0 then Some v
      else if cmp <? 0 then i915_vma_lookup r vm_ view
      else i915_vma_lookup l vm_ view
  end.

(** *** i915_vma_instance *)
Definition i915_vma_instance (h : helpers) (e : renv) (vm_ : i915_address_space)
    (view : option i915_ggtt_view) (r : registry) : outcome (ptr i915_vma * registry) :=
  GEM_BUG_ON (match view with Some _ => negb (is_ggtt vm_ || is_dpt vm_) | None => false end) ;;;
  GEM_BUG_ON (vm_open vm_ =? 0) ;;;
  res <- match i915_vma_lookup (vma_tree (r_obj r)) (vm_addr vm_) view with
         | Some v => Ret (PTR v, r)
         | None =>
             (* vma_create() will resolve the race if another creates the vma *)
             vma_create h e vm_ view (concurrent e r)
         end ;;
  GEM_BUG_ON (match fst res with
              | PTR v => negb (i915_vma_compare v (vm_addr vm_) view =? 0)
              | _ => false
              end) ;;;
  Ret res.

(** *** The binding state of one VMA in its address space *)

(** A node of vm->mm. The nodes are embedded in their VMAs; the list of
    the allocated ones, in address order, stands for the drm_mm, and the
    node of a VMA is the entry it owns. *)
Record drm_mm_node : Type := {
  node_owner : Z;
  start : Z;
  node_size : Z;
  color : Z
}.

Record vstate : Type := {
  vma : i915_vma;
  mm_nodes : list drm_mm_node;
  bound_list : list Z;                 (* vm->bound_list, by VMA address *)
  has_obj : bool;                      (* vma->obj != NULL *)
  obj_cache_level : Z;
  obj_mm_pages : option Z;             (* obj->mm.pages *)
  obj_mm_rsgt : option Z;              (* obj->mm.rsgt *)
  obj_page_sizes_sg : Z;
  obj_pages_pin_count : Z;
  obj_userfault_count : Z;
  obj_was_bound : bool;                (* I915_BO_WAS_BOUND_BIT *)
  active_count : Z;                    (* acquisitions of vma->active *)
  wakerefs : Z                         (* runtime-pm references held *)
}.

Definition set_vma (st : vstate) (v : i915_vma) : vstate :=
  {| vma := v; mm_nodes := mm_nodes st; bound_list := bound_list st;
     has_obj := has_obj st; obj_cache_level := obj_cache_level st;
     obj_mm_pages := obj_mm_pages st; obj_mm_rsgt := obj_mm_rsgt st;
     obj_page_sizes_sg := obj_page_sizes_sg st;
     obj_pages_pin_count := obj_pages_pin_count st;
     obj_userfault_count := obj_userfault_count st;
     obj_was_bound := obj_was_bound st;
     active_count := active_count st; wakerefs := wakerefs st |}.

Definition set_nodes (st : vstate) (l : list drm_mm_node) : vstate :=
  {| vma := vma st; mm_nodes := l; bound_list := bound_list st;
     has_obj := has_obj st; obj_cache_level := obj_cache_level st;
     obj_mm_pages := obj_mm_pages st; obj_mm_rsgt := obj_mm_rsgt st;
     obj_page_sizes_sg := obj_page_sizes_sg st;
     obj_pages_pin_count := obj_pages_pin_count st;
     obj_userfault_count := obj_userfault_count st;
     obj_was_bound := obj_was_bound st;
     active_count := active_count st; wakerefs := wakerefs st |}.

Definition set_bound_list (st : vstate) (l : list Z) : vstate :=
  {| vma := vma st; mm_nodes := mm_nodes st; bound_list := l;
     has_obj := has_obj st; obj_cache_level := obj_cache_level st;
     obj_mm_pages := obj_mm_pages st; obj_mm_rsgt := obj_mm_rsgt st;
     obj_page_sizes_sg := obj_page_sizes_sg st;
     obj_pages_pin_count := obj_pages_pin_count st;
     obj_userfault_count := obj_userfault_count st;
     obj_was_bound := obj_was_bound st;
     active_count := active_count st; wakerefs := wakerefs st |}.

Definition set_obj_pins (st : vstate) (n : Z) : vstate :=
  {| vma := vma st; mm_nodes := mm_nodes st; bound_list := bound_list st;
     has_obj := has_obj st; obj_cache_level := obj_cache_level st;
     obj_mm_pages := obj_mm_pages st; obj_mm_rsgt := obj_mm_rsgt st;
     obj_page_sizes_sg := obj_page_sizes_sg st;
     obj_pages_pin_count := n;
     obj_userfault_count := obj_userfault_count st;
     obj_was_bound := obj_was_bound st;
     active_count := active_count st; wakerefs := wakerefs st |}.

Definition set_obj_misc (st : vstate) (uf : Z) (wb : bool) : vstate :=
  {| vma := vma st; mm_nodes := mm_nodes st; bound_list := bound_list st;
     has_obj := has_obj st; obj_cache_level := obj_cache_level st;
     obj_mm_pages := obj_mm_pages st; obj_mm_rsgt := obj_mm_rsgt st;
     obj_page_sizes_sg := obj_page_sizes_sg st;
     obj_pages_pin_count := obj_pages_pin_count st;
     obj_userfault_count := uf;
     obj_was_bound := wb;
     active_count := active_count st; wakerefs := wakerefs st |}.

Definition set_counts (st : vstate) (act wake : Z) : vstate :=
  {| vma := vma st; mm_nodes := mm_nodes st; bound_list := bound_list st;
     has_obj := has_obj st; obj_cache_level := obj_cache_level st;
     obj_mm_pages := obj_mm_pages st; obj_mm_rsgt := obj_mm_rsgt st;
     obj_page_sizes_sg := obj_page_sizes_sg st;
     obj_pages_pin_count := obj_pages_pin_count st;
     obj_userfault_count := obj_userfault_count st;
     obj_was_bound := obj_was_bound st;
     active_count := act; wakerefs := wake |}.

(** Outcomes of the collaborators during one pin or one unbind. *)
Record benv : Type := {
  i915_gem_object_pin_pages : Z;
  view_pages : ptr Z;            (* intel_rotate_pages, intel_remap_pages, intel_partial_pages *)
  moving_fence : bool;           (* i915_gem_object_get_moving_fence(obj) != NULL *)
  i915_vm_lock_objects : Z;
  i915_vma_work : bool;          (* the kzalloc of the bind worker succeeded *)
  i915_vm_alloc_pt_stash : Z;
  i915_vm_map_pt_stash : Z;
  i915_vma_resource_alloc : ptr unit;
  mutex_lock_interruptible_nested : Z;
  mutex_trylock : bool;
  i915_active_acquire : Z;
  gtt_ret : Z;                   (* i915_gem_gtt_reserve or i915_gem_gtt_insert *)
  gtt_nodes : list drm_mm_node;  (* vm->mm as the allocator leaves it *)
  i915_vma_resource_bind_dep_await : Z;
  i915_vma_resource_bind_dep_sync : Z;
  i915_gem_object_wait_moving_fence : Z;
  i915_vma_sync : Z;
  i915_vma_resource_unbind : bool;   (* an unbind fence is returned *)
  i915_sw_fence_await_active : Z;
  dma_resv_reserve_shared : Z
}.

(** *** drm_mm, as seen from i915_vma.c *)

Definition owns (v : i915_vma) (n : drm_mm_node) : bool := node_owner n =? vma_addr v.

Definition vma_node (st : vstate) : option drm_mm_node :=
  find (owns (vma st)) (mm_nodes st).

(** Modelled from the spec: drm_mm_node_allocated and drm_mm_remove_node of
    drm_mm, which is missing: a node is allocated while it is in the
    allocator, and remove(node) takes it out. *)
Definition drm_mm_node_allocated (st : vstate) : bool :=
  match vma_node st with Some _ => true | None => false end.

Definition drm_mm_remove_node (st : vstate) : vstate :=
  set_nodes st (filter (fun n => negb (owns (vma st) n)) (mm_nodes st)).

(** list_prev_entry and list_next_entry around the node of the VMA;
    [None] is the head node of the drm_mm, which is not allocated. *)
Fixpoint node_neighbours (prev : option drm_mm_node) (l : list drm_mm_node) (v : i915_vma)
  : option (option drm_mm_node * drm_mm_node * option drm_mm_node) :=
  match l with
  | [] => None
  | n :: l' =>
      if owns v n then Some (prev, n, hd_error l')
      else node_neighbours (Some n) l' v
  end.

(** Modelled from the spec: i915_node_color_differs of i915_gem_gtt.h and
    drm_mm_hole_follows of drm_mm.h, which are missing: an allocated
    neighbour of another colour; a gap before the next node. *)
Definition i915_node_color_differs (other : option drm_mm_node) (c : Z) : bool :=
  match other with
  | Some o => negb (color o =? c)
  | None => false
  end.

Definition hole_between (a b : drm_mm_node) : bool :=
  start a + node_size a <? start b.

Definition i915_vm_has_cache_coloring (vm_ : i915_address_space) : bool :=
  is_ggtt vm_ && color_adjust vm_.

(** *** i915_gem_valid_gtt_space *)
Definition i915_gem_valid_gtt_space (vm_ : i915_address_space) (st : vstate) (c : Z)
  : outcome bool :=
  if negb (i915_vm_has_cache_coloring vm_) then Ret true
  else
    (* Only valid to be called on an already inserted vma *)
    match node_neighbours None (mm_nodes st) (vma st) with
    | None => BUG
    | Some (prev, node, next) =>
        if i915_node_color_differs prev c
           && negb match prev with Some p => hole_between p node | None => true end
        then Ret false
        else if i915_node_color_differs next c
                && negb match next with Some n => hole_between node n | None => true end
        then Ret false
        else Ret true
    end.

(** *** i915_vma_misplaced *)
Definition i915_vma_misplaced (st : vstate) (size_ alignment flags_ : Z) : outcome bool :=
  match vma_node st with
  | None => Ret false
  | Some node =>
      if test_bits (flags (vma st)) I915_VMA_ERROR then Ret true
      else if node_size node <? size_ then Ret true
      else
        GEM_BUG_ON (negb (alignment =? 0) && negb (is_power_of_2 alignment)) ;;;
        if negb (alignment =? 0) && negb (IS_ALIGNED (start node) alignment) then Ret true
        else if test_bits flags_ PIN_MAPPABLE
                && negb (i915_vma_is_map_and_fenceable (vma st)) then Ret true
        else if test_bits flags_ PIN_OFFSET_BIAS
                && (start node <? Z.land flags_ PIN_OFFSET_MASK) then Ret true
        else if test_bits flags_ PIN_OFFSET_FIXED
                && negb (start node =? Z.land flags_ PIN_OFFSET_MASK) then Ret true
        else Ret false
  end.

(** *** __i915_vma_set_map_and_fenceable *)
Definition __i915_vma_set_map_and_fenceable (vm_ : i915_address_space) (st : vstate)
  : outcome vstate :=
  let v := vma st in
  GEM_BUG_ON (negb (i915_vma_is_ggtt v)) ;;;
  GEM_BUG_ON (fence_size v =? 0) ;;;
  match vma_node st with
  | None => BUG
  | Some node =>
      let fenceable := (fence_size v <=? node_size node)
                       && IS_ALIGNED (start node) (fence_alignment v) in
      let mappable := u64 (start node + fence_size v) <=? mappable_end vm_ in
      if mappable && fenceable
      then Ret (set_vma st (set_flags v (Z.lor (flags v) I915_VMA_CAN_FENCE)))
      else Ret (set_vma st (set_flags v (Z.land (flags v) (Z.lnot I915_VMA_CAN_FENCE))))
  end.

(** *** i915_vma_insert *)
Definition i915_vma_insert (e : benv) (vm_ : i915_address_space)
    (size_ alignment flags_ : Z) (st : vstate) : outcome (Z * vstate) :=
  let v := vma st in
  GEM_BUG_ON (i915_vma_is_bound v (Z.lor I915_VMA_GLOBAL_BIND I915_VMA_LOCAL_BIND)) ;;;
  GEM_BUG_ON (drm_mm_node_allocated st) ;;;
  let size_ := Z.max size_ (size v) in
  let alignment := Z.max alignment (display_alignment v) in
  let size_ := if test_bits flags_ PIN_MAPPABLE then Z.max size_ (fence_size v) else size_ in
  let alignment := if test_bits flags_ PIN_MAPPABLE
                   then Z.max alignment (fence_alignment v) else alignment in
  GEM_BUG_ON (negb (IS_ALIGNED size_ I915_GTT_PAGE_SIZE)) ;;;
  GEM_BUG_ON (negb (IS_ALIGNED alignment I915_GTT_MIN_ALIGNMENT)) ;;;
  GEM_BUG_ON (negb (is_power_of_2 alignment)) ;;;
  let start_ := if test_bits flags_ PIN_OFFSET_BIAS then Z.land flags_ PIN_OFFSET_MASK else 0 in
  GEM_BUG_ON (negb (IS_ALIGNED start_ I915_GTT_PAGE_SIZE)) ;;;
  let end_ := total vm_ in
  let end_ := if test_bits flags_ PIN_MAPPABLE then Z.min end_ (mappable_end vm_) else end_ in
  let end_ := if test_bits flags_ PIN_ZONE_4G
              then Z.min end_ (2 ^ 32 - I915_GTT_PAGE_SIZE) else end_ in
  GEM_BUG_ON (negb (IS_ALIGNED end_ I915_GTT_PAGE_SIZE)) ;;;
  (* reject early a request larger than the aperture *)
  if end_ <? size_ then Ret (- ENOSPC, st)
  else
    let color_ := if i915_vm_has_cache_coloring vm_ then obj_cache_level st else 0 in
    placed <-
      (if test_bits flags_ PIN_OFFSET_FIXED then
         let offset := Z.land flags_ PIN_OFFSET_MASK in
         if negb (IS_ALIGNED offset alignment) || range_overflows offset size_ end_
         then Ret (- EINVAL, st)
         else
           (* i915_gem_gtt_reserve *)
           Ret (gtt_ret e, set_nodes st (gtt_nodes e))
       else
         big <- (if negb (upper_32_bits (u64 (end_ - 1)) =? 0)
                    && (I915_GTT_PAGE_SIZE <? page_sizes_sg v)
                 then GEM_BUG_ON (i915_vma_is_ggtt v) ;;; Ret true
                 else Ret false) ;;
         let page_alignment :=
           rounddown_pow_of_two (Z.lor (page_sizes_sg v) I915_GTT_PAGE_SIZE_2M) in
         let alignment := if big then Z.max alignment page_alignment else alignment in
         let size_ := if big && test_bits (page_sizes_sg v) I915_GTT_PAGE_SIZE_64K
                      then round_up size_ I915_GTT_PAGE_SIZE_2M else size_ in
         (* i915_gem_gtt_insert *)
         let st := set_nodes st (gtt_nodes e) in
         if negb (gtt_ret e =? 0) then Ret (gtt_ret e, st)
         else
           match vma_node st with
           | None => BUG
           | Some node =>
               GEM_BUG_ON (start node <? start_) ;;;
               GEM_BUG_ON (end_ <? u64 (start node + node_size node)) ;;;
               Ret (0, st)
           end) ;;
    let '(ret, st) := placed in
    if negb (ret =? 0) then Ret (ret, st)
    else
      GEM_BUG_ON (negb (drm_mm_node_allocated st)) ;;;
      valid <- i915_gem_valid_gtt_space vm_ st color_ ;;
      GEM_BUG_ON (negb valid) ;;;
      Ret (0, set_bound_list st (bound_list st ++ [vma_addr (vma st)])).

(** *** i915_vma_detach *)
Definition list_del (a : Z) (l : list Z) : list Z := filter (fun x => negb (x =? a)) l.

Definition i915_vma_detach (st : vstate) : outcome vstate :=
  GEM_BUG_ON (negb (drm_mm_node_allocated st)) ;;;
  GEM_BUG_ON (i915_vma_is_bound (vma st) (Z.lor I915_VMA_GLOBAL_BIND I915_VMA_LOCAL_BIND)) ;;;
  Ret (set_bound_list st (list_del (vma_addr (vma st)) (bound_list st))).

(** *** try_qad_pin

    The cmpxchg loop runs once: nothing else writes the flags while the
    function runs in this embedding. *)
Definition try_qad_pin (flags_ : Z) (st : vstate) : outcome (bool * vstate) :=
  let bound := flags (vma st) in
  if test_bits flags_ PIN_VALIDATE then
    let f := Z.land flags_ I915_VMA_BIND_MASK in
    Ret (Z.land f bound =? f, st)
  else
    let f := Z.land flags_ I915_VMA_BIND_MASK in
    if test_bits f (Z.lnot bound) then Ret (false, st)
    else if test_bits bound (Z.lor I915_VMA_OVERFLOW I915_VMA_ERROR) then Ret (false, st)
    else
      GEM_BUG_ON (Z.land (bound + 1) I915_VMA_PIN_MASK =? 0) ;;;
      Ret (true, set_vma st (set_flags (vma st) (u32 (bound + 1)))).

(** *** __i915_vma_get_pages, i915_vma_get_pages *)
Definition __i915_vma_get_pages (e : benv) (st : vstate) : outcome (Z * vstate) :=
  (* vma->pages must only be accessed when the obj->mm.pages are pinned *)
  GEM_BUG_ON (obj_pages_pin_count st <=? 0) ;;;
  let v := vma st in
  let pages_ : ptr Z :=
    match ggtt_view v with
    | I915_GGTT_VIEW_NORMAL =>
        match obj_mm_pages st with Some p => PTR p | None => NULL end
    | _ => view_pages e
    end in
  match pages_ with
  | ERR err => Ret (err, st)
  | PTR p => Ret (0, set_vma st (set_pages v (pages_count v) (Some p) (page_sizes_sg v)))
  | NULL => Ret (0, set_vma st (set_pages v (pages_count v) None (page_sizes_sg v)))
  end.

Definition i915_vma_get_pages (e : benv) (st : vstate) : outcome (Z * vstate) :=
  let v := vma st in
  (* atomic_add_unless(&vma->pages_count, 1, 0) *)
  if negb (pages_count v =? 0) then
    Ret (0, set_vma st (set_pages v (pages_count v + 1) (pages v) (page_sizes_sg v)))
  else
    let err := i915_gem_object_pin_pages e in
    if negb (err =? 0) then Ret (err, st)
    else
      let st := set_obj_pins st (obj_pages_pin_count st + 1) in
      r <- __i915_vma_get_pages e st ;;
      let '(err, st) := r in
      if negb (err =? 0) then
        Ret (err, set_obj_pins st (obj_pages_pin_count st - 1))
      else
        let v := vma st in
        Ret (0, set_vma st (set_pages v (pages_count v + 1) (pages v) (obj_page_sizes_sg st))).

(** *** __vma_put_pages, i915_vma_put_pages, vma_unbind_pages *)
Definition __vma_put_pages (count : Z) (st : vstate) : outcome vstate :=
  let v := vma st in
  GEM_BUG_ON (pages_count v <? count) ;;;
  let c := pages_count v - count in
  if c =? 0 then
    Ret (set_obj_pins (set_vma st (set_pages v c None (page_sizes_sg v)))
                      (obj_pages_pin_count st - 1))
  else Ret (set_vma st (set_pages v c (pages v) (page_sizes_sg v))).

Definition i915_vma_put_pages (st : vstate) : outcome vstate :=
  let v := vma st in
  (* atomic_add_unless(&vma->pages_count, -1, 1) *)
  if negb (pages_count v =? 1) then
    Ret (set_vma st (set_pages v (pages_count v - 1) (pages v) (page_sizes_sg v)))
  else __vma_put_pages 1 st.

Definition vma_unbind_pages (st : vstate) : outcome vstate :=
  (* The upper portion of pages_count is the number of bindings *)
  let count := Z.shiftr (pages_count (vma st)) I915_VMA_PAGES_BIAS in
  GEM_BUG_ON (count =? 0) ;;;
  __vma_put_pages (Z.lor count (Z.shiftl count I915_VMA_PAGES_BIAS)) st.

(** *** i915_vma_resource_init_from_vma *)
Definition i915_vma_resource_init_from_vma (st : vstate) : i915_vma_resource :=
  {| bi_pages := pages (vma st); bi_pages_rsgt := obj_mm_rsgt st |}.

(** *** i915_vma_bind

    [work] says whether a bind worker was passed, [vma_res] whether a
    preallocated resource was. *)
Definition i915_vma_bind (e : benv) (vm_ : i915_address_space) (flags_ : Z)
    (work : bool) (vma_res : bool) (st : vstate) : outcome (Z * vstate) :=
  let v := vma st in
  match vma_node st with
  | None => BUG
  | Some node =>
      GEM_BUG_ON (node_size node <? size v) ;;;
      if range_overflows (start node) (node_size node) (total vm_) then Ret (- ENODEV, st)
      else if flags_ =? 0 then Ret (- EINVAL, st)
      else
        let bind_flags := Z.land flags_ (Z.lor I915_VMA_GLOBAL_BIND I915_VMA_LOCAL_BIND) in
        let vma_flags := Z.land (flags v) (Z.lor I915_VMA_GLOBAL_BIND I915_VMA_LOCAL_BIND) in
        let bind_flags := Z.land bind_flags (Z.lnot vma_flags) in
        if bind_flags =? 0 then Ret (0, st)
        else
          GEM_BUG_ON (pages_count v =? 0) ;;;
          let async := work && test_bits bind_flags (bind_async_flags vm_) in
          (* Wait for or await async unbinds touching our range *)
          let ret := if async then i915_vma_resource_bind_dep_await e
                     else i915_vma_resource_bind_dep_sync e in
          if negb (ret =? 0) then Ret (ret, st)
          else
            let st :=
              match resource v with
              | Some _ => st   (* Rebinding with an additional I915_VMA_*_BIND *)
              | None =>
                  if vma_res
                  then set_vma st (set_resource v (Some (i915_vma_resource_init_from_vma st)))
                  else st
              end in
            sync <-
              (if async then Ret (0, st)
               else if has_obj st then
                 let ret := i915_gem_object_wait_moving_fence e in
                 if negb (ret =? 0)
                 then Ret (ret, set_vma st (set_resource (vma st) None))
                 else Ret (0, st)
               else Ret (0, st)) ;;
            let '(ret, st) := sync in
            if negb (ret =? 0) then Ret (ret, st)
            else
              let st := if has_obj st then set_obj_misc st (obj_userfault_count st) true
                        else st in
              Ret (0, set_vma st (set_flags (vma st) (Z.lor (flags (vma st)) bind_flags)))
  end.

(** *** i915_vma_pin_ww *)

Definition intel_runtime_pm_get (st : vstate) : vstate :=
  set_counts st (active_count st) (wakerefs st + 1).
Definition intel_runtime_pm_put (st : vstate) : vstate :=
  set_counts st (active_count st) (wakerefs st - 1).
Definition active_acquired (st : vstate) : vstate :=
  set_counts st (active_count st + 1) (wakerefs st).
Definition i915_active_release (st : vstate) : vstate :=
  set_counts st (active_count st - 1) (wakerefs st).

(** The exit labels of i915_vma_pin_ww, innermost last. The bind worker
    and the preallocated resource are released on the way; neither is
    part of the state of the VMA. *)
Definition pin_err_rpm (wakeref : bool) (err : Z) (st : vstate) : outcome (Z * vstate) :=
  let st := if wakeref then intel_runtime_pm_put st else st in
  st <- i915_vma_put_pages st ;;
  Ret (err, st).

Definition pin_err_active (wakeref : bool) (err : Z) (st : vstate) : outcome (Z * vstate) :=
  pin_err_rpm wakeref err (i915_active_release st).

Definition pin_err_remove (wakeref : bool) (err : Z) (st : vstate) : outcome (Z * vstate) :=
  st <- (if negb (i915_vma_is_bound (vma st) I915_VMA_BIND_MASK) then
           st <- i915_vma_detach st ;;
           Ret (drm_mm_remove_node st)
         else Ret st) ;;
  pin_err_active wakeref err st.

(** From the moment vm->mutex is held. *)
Definition pin_locked (e : benv) (vm_ : i915_address_space)
    (size_ alignment flags_ : Z) (work wakeref : bool) (st : vstate)
  : outcome (Z * vstate) :=
  if i915_vma_is_closed (vma st) then pin_err_rpm wakeref (- ENOENT) st
  else
    let bound := flags (vma st) in
    if test_bits bound I915_VMA_ERROR then pin_err_rpm wakeref (- ENOMEM) st
    else if Z.land (bound + 1) I915_VMA_PIN_MASK =? 0 then
      (* pins are meant to be fairly temporary *)
      pin_err_rpm wakeref (- EAGAIN) st
    else if Z.land (Z.land flags_ (Z.lnot bound)) I915_VMA_BIND_MASK =? 0 then
      st <- (if negb (test_bits flags_ PIN_VALIDATE) then
               v <- __i915_vma_pin (vma st) ;; Ret (set_vma st v)
             else Ret st) ;;
      pin_err_rpm wakeref 0 st
    else
      let err := i915_active_acquire e in
      if negb (err =? 0) then pin_err_rpm wakeref err st
      else
        let st := active_acquired st in
        ins <-
          (if negb (test_bits bound I915_VMA_BIND_MASK) then
             r <- i915_vma_insert e vm_ size_ alignment flags_ st ;;
             let '(err, st) := r in
             if negb (err =? 0) then Ret (err, st)
             else if is_ggtt vm_ then
               st <- __i915_vma_set_map_and_fenceable vm_ st ;; Ret (0, st)
             else Ret (0, st)
           else Ret (0, st)) ;;
        let '(err, st) := ins in
        if negb (err =? 0) then pin_err_active wakeref err st
        else
          GEM_BUG_ON (match pages (vma st) with None => true | Some _ => false end) ;;;
          r <- i915_vma_bind e vm_ (u32 flags_) work true st ;;
          let '(err, st) := r in
          if negb (err =? 0) then pin_err_remove wakeref err st
          else
            (* There should only be at most 2 active bindings (user, global) *)
            GEM_BUG_ON (u32 (bound + I915_VMA_PAGES_ACTIVE) <? bound) ;;;
            let v := vma st in
            let st := set_vma st (set_pages v (pages_count v + I915_VMA_PAGES_ACTIVE)
                                            (pages v) (page_sizes_sg v)) in
            let st := set_bound_list st
                        (list_del (vma_addr v) (bound_list st) ++ [vma_addr v]) in
            st <- (if negb (test_bits flags_ PIN_VALIDATE) then
                     v <- __i915_vma_pin (vma st) ;; Ret (set_vma st v)
                   else Ret st) ;;
            GEM_BUG_ON (negb (i915_vma_is_bound (vma st) (u32 flags_))) ;;;
            m <- i915_vma_misplaced st size_ alignment flags_ ;;
            GEM_BUG_ON m ;;;
            pin_err_remove wakeref 0 st.

Definition i915_vma_pin_ww (e : benv) (vm_ : i915_address_space)
    (size_ alignment flags_ : Z) (st : vstate) : outcome (Z * vstate) :=
  GEM_BUG_ON (negb (test_bits flags_ (Z.lor PIN_USER PIN_GLOBAL))) ;;;
  (* First try and grab the pin without rebinding the vma *)
  q <- try_qad_pin (u32 flags_) st ;;
  let '(pinned, st) := q in
  if pinned then Ret (0, st)
  else
    r <- i915_vma_get_pages e st ;;
    let '(err, st) := r in
    if negb (err =? 0) then Ret (err, st)
    else
      let wakeref := test_bits flags_ PIN_GLOBAL in
      let st := if wakeref then intel_runtime_pm_get st else st in
      let moving := if has_obj st then moving_fence e else false in
      let prepare : Z + bool :=
        if test_bits flags_ (bind_async_flags vm_) || moving then
          let err := i915_vm_lock_objects e in
          if negb (err =? 0) then inl err
          else if negb (i915_vma_work e) then inl (- ENOMEM)
          else if allocate_va_range vm_ then
            (* Allocate enough page directories to used PTE *)
            let err := i915_vm_alloc_pt_stash e in
            if negb (err =? 0) then inl err
            else
              let err := i915_vm_map_pt_stash e in
              if negb (err =? 0) then inl err else inr true
          else inr true
        else inr false in
      match prepare with
      | inl err => pin_err_rpm wakeref err st
      | inr work =>
          match i915_vma_resource_alloc e with
          | ERR err => pin_err_rpm wakeref err st
          | _ =>
              let err := mutex_lock_interruptible_nested e in
              if negb (err =? 0) then pin_err_rpm wakeref err st
              else pin_locked e vm_ size_ alignment flags_ work wakeref st
          end
      end.

(** *** __i915_vma_evict *)

(** i915_vma_revoke_mmap *)
Definition i915_vma_revoke_mmap (st : vstate) : outcome vstate :=
  if negb (i915_vma_has_userfault (vma st)) then Ret st
  else
    GEM_BUG_ON (negb (i915_vma_is_map_and_fenceable (vma st))) ;;;
    GEM_BUG_ON (obj_userfault_count st =? 0) ;;;
    let v := set_flags (vma st) (Z.land (flags (vma st)) (Z.lnot I915_VMA_USERFAULT)) in
    Ret (set_obj_misc (set_vma st v) (obj_userfault_count st - 1) (obj_was_bound st)).

(** i915_vma_flush_writes *)
Definition i915_vma_flush_writes (st : vstate) : vstate :=
  set_vma st (set_flags (vma st) (Z.land (flags (vma st)) (Z.lnot I915_VMA_GGTT_WRITE))).

Definition __i915_vma_iounmap (st : vstate) : outcome vstate :=
  GEM_BUG_ON (i915_vma_is_pinned (vma st)) ;;;
  Ret (set_vma st (set_iomap_fence (vma st) None (fence (vma st)))).

(** Modelled from the spec: i915_vma_revoke_fence of i915_gem_fence_reg.c,
    which is missing, releases the fence register of the VMA. *)
Definition i915_vma_revoke_fence (st : vstate) : vstate :=
  set_vma st (set_iomap_fence (vma st) (iomap (vma st)) None).

Definition __i915_vma_evict (e : benv) (async : bool) (st : vstate)
  : outcome (bool * vstate) :=
  GEM_BUG_ON (i915_vma_is_pinned (vma st)) ;;;
  st <- (if i915_vma_is_map_and_fenceable (vma st) then
           (* Force a pagefault for domain tracking on next user access *)
           st <- i915_vma_revoke_mmap st ;;
           let st := i915_vma_flush_writes st in
           (* release the fence reg _after_ flushing *)
           let st := i915_vma_revoke_fence st in
           st <- __i915_vma_iounmap st ;;
           Ret (set_vma st (set_flags (vma st)
                              (Z.land (flags (vma st)) (Z.lnot I915_VMA_CAN_FENCE))))
         else Ret st) ;;
  GEM_BUG_ON (match fence (vma st) with Some _ => true | None => false end) ;;;
  GEM_BUG_ON (i915_vma_has_userfault (vma st)) ;;;
  match resource (vma st) with
  | None => BUG   (* vma_res->needs_wakeref dereferences a null pointer *)
  | Some _ =>
      let unbind_fence := i915_vma_resource_unbind e in
      let v := set_resource (vma st) None in
      let v := set_flags v
                 (Z.land (flags v)
                    (Z.lnot (Z.lor (Z.lor I915_VMA_BIND_MASK I915_VMA_ERROR)
                                   I915_VMA_GGTT_WRITE))) in
      st <- i915_vma_detach (set_vma st v) ;;
      (* a synchronous evict waits for the unbind fence and drops it *)
      let unbind_fence := if negb async && unbind_fence then false else unbind_fence in
      st <- vma_unbind_pages st ;;
      Ret (unbind_fence, st)
  end.

(** *** __i915_vma_unbind *)
Definition __i915_vma_unbind (e : benv) (st : vstate) : outcome (Z * vstate) :=
  if negb (drm_mm_node_allocated st) then Ret (0, st)
  else if i915_vma_is_pinned (vma st) then Ret (- EAGAIN, st)
  else
    (* wait for any laggards who may have crept in during the wait *)
    let ret := i915_vma_sync e in
    if negb (ret =? 0) then Ret (ret, st)
    else
      GEM_BUG_ON (negb (active_count st =? 0)) ;;;
      r <- __i915_vma_evict e false st ;;
      Ret (0, drm_mm_remove_node (snd r)).

(** *** __i915_vma_unbind_async *)
Definition resource_pages_are_objects (st : vstate) : bool :=
  match obj_mm_rsgt st, resource (vma st) with
  | Some t, Some res =>
      match bi_pages res with Some p => t =? p | None => false end
  | _, _ => false
  end.

Definition __i915_vma_unbind_async (e : benv) (st : vstate) : outcome (ptr unit * vstate) :=
  if negb (drm_mm_node_allocated st) then Ret (NULL, st)
  else if i915_vma_is_pinned (vma st) || negb (resource_pages_are_objects st)
  then Ret (ERR_PTR (- EAGAIN), st)
  else if i915_sw_fence_await_active e <? 0 then Ret (ERR_PTR (- EBUSY), st)
  else
    r <- __i915_vma_evict e true st ;;
    let '(fence_, st) := r in
    Ret (if fence_ then PTR tt else NULL, drm_mm_remove_node st).

(** *** i915_vma_unbind *)
Definition i915_vma_unbind (e : benv) (st : vstate) : outcome (Z * vstate) :=
  (* Optimistic wait before taking the mutex *)
  let err := i915_vma_sync e in
  if negb (err =? 0) then Ret (err, st)
  else if negb (drm_mm_node_allocated st) then Ret (0, st)
  else if i915_vma_is_pinned (vma st) then Ret (- EAGAIN, st)
  else
    let wakeref := i915_vma_is_bound (vma st) I915_VMA_GLOBAL_BIND in
    let st := if wakeref then intel_runtime_pm_get st else st in
    let err := mutex_lock_interruptible_nested e in
    r <- (if negb (err =? 0) then Ret (err, st) else __i915_vma_unbind e st) ;;
    let '(err, st) := r in
    Ret (err, if wakeref then intel_runtime_pm_put st else st).

(** *** i915_vma_unbind_async *)
Definition i915_vma_unbind_async (e : benv) (trylock_vm : bool) (st : vstate)
  : outcome (Z * vstate) :=
  if negb (drm_mm_node_allocated st) then Ret (0, st)
  else if i915_vma_is_pinned (vma st) then Ret (- EAGAIN, st)
  else if match obj_mm_rsgt st with None => true | Some _ => false end then Ret (- EBUSY, st)
  else if negb (dma_resv_reserve_shared e =? 0) then Ret (- EBUSY, st)
  else
    let wakeref := i915_vma_is_bound (vma st) I915_VMA_GLOBAL_BIND in
    let st := if wakeref then intel_runtime_pm_get st else st in
    r <- (if trylock_vm && negb (mutex_trylock e) then Ret (- EBUSY, st)
          else if negb trylock_vm && negb (mutex_lock_interruptible_nested e =? 0)
          then Ret (mutex_lock_interruptible_nested e, st)
          else
            r <- __i915_vma_unbind_async e st ;;
            let '(fence_, st) := r in
            Ret (PTR_ERR fence_, st)) ;;
    let '(err, st) := r in
    Ret (err, if wakeref then intel_runtime_pm_put st else st).


(** *** The order of obj->vma.tree *)

(** The key of an entry and the key of a request, as the words
    i915_vma_compare goes through. *)
Definition vma_key (v : i915_vma) : list Z :=
  vm v :: view_type (ggtt_view v) :: view_words (ggtt_view v).

Definition view_key (vm_ : Z) (view : option i915_ggtt_view) : list Z :=
  match view with
  | Some w => vm_ :: view_type w :: view_words w
  | None => [vm_; 0]
  end.

Definition key_lt (a b : i915_vma) : Prop := memcmp (vma_key a) (vma_key b) < 0.

(** The tree is a search tree for the order of the keys. *)
Definition ordered (t : rb_node) : Prop := StronglySorted key_lt (inorder t).

(** Number of entries of the tree with the key of a request. *)
Definition same_key_count (vm_ : Z) (view : option i915_ggtt_view) (t : rb_node) : nat :=
  length (filter (fun v => i915_vma_compare v vm_ view =? 0) (inorder t)).

(** *** Observations on a pin *)

(** What the steps of a pin move: the references on the pages of the VMA
    and of the object, on vma->active and on the device. Identity and
    flags stay, CAN_FENCE apart. *)
Record delta (dp dq da dw : Z) (st st1 : vstate) : Prop := {
  d_addr : vma_addr (vma st1) = vma_addr (vma st);
  d_flags : Z.lor (flags (vma st1)) I915_VMA_CAN_FENCE
            = Z.lor (flags (vma st)) I915_VMA_CAN_FENCE;
  d_pages : pages_count (vma st1) = pages_count (vma st) + dp;
  d_pins : obj_pages_pin_count st1 = obj_pages_pin_count st + dq;
  d_active : active_count st1 = active_count st + da;
  d_wake : wakerefs st1 = wakerefs st + dw
}.

Definition same_mm (st st1 : vstate) : Prop :=
  mm_nodes st1 = mm_nodes st /\ bound_list st1 = bound_list st.

End Vma.


(* ================================================================== *)
(** * Part 3: scenarios *)
(* ================================================================== *)
Module MigrateScenarios.
Import Migrate.

(** ** Concrete buffers used by the examples *)

Definition pg (b : byte) : page := repeat b (Z.to_nat PAGE_SIZE).

Definition lmem0 : ttm_resource := {| mem_type := I915_PL_LMEM0 |}.
Definition smem : ttm_resource := {| mem_type := I915_PL_SYSTEM |}.

Definition tt100 : ttm_tt :=
  {| tt_addr := 100; caching := ttm_cached; page_flags := TTM_TT_FLAG_PRIV_POPULATED |}.

(** A two-page object resident and populated in system memory, with
    placements in system memory and in the first local-memory region. *)
Definition sys_object : drm_i915_gem_object :=
  {| mm_region := i915_ttm_region I915_PL_SYSTEM;
     mm_placements := [i915_ttm_region I915_PL_SYSTEM; i915_ttm_region I915_PL_LMEM0];
     mm_madv := I915_MADV_WILLNEED; mem_flags := I915_BO_FLAG_STRUCT_PAGE;
     cache_level := I915_CACHE_LLC;
     read_domains := I915_GEM_DOMAIN_CPU; write_domain := I915_GEM_DOMAIN_CPU;
     cached_io_rsgt := None; get_io_page_sg_idx := 0 |}.

Definition sys_bo : ttm_buffer_object :=
  {| resource := smem; ttm := Some tt100; base_size := 2 * PAGE_SIZE;
     type := ttm_bo_type_device |}.

Definition sys_mem : memory :=
  fun k => match k with
           | ttm_kmap_iter_tt 100 => [pg x01; pg x02]
           | _ => [pg xff; pg xfe]
           end.

Definition sys_state (gpu_migration work_allocation : bool) : mstate :=
  {| modes := i915_ttm_migrate_set_failure_modes gpu_migration work_allocation;
     mem := sys_mem; obj := sys_object; bo := sys_bo;
     blit := None; rq_cb := None; system_unbound_wq := []; irq_work_list := [];
     trace := [] |}.

(** An environment in which every collaborator succeeds. *)
Definition env_ok : env :=
  {| HAS_LLC := true; HAS_SNOOP := false; migrate_context := true;
     intel_gt_is_wedged := false; gem_obj_present := true;
     i915_gem_object_unbind := 0; __i915_gem_object_put_pages := 0;
     dst_man_use_tt := false; ttm_tt_populate := 0; dst_get_st := PTR 7;
     i915_deps_add_dependency := 0; i915_deps_add_resv := 0;
     ttm_bo_move_accel_cleanup := 0; src_get_st := PTR 5;
     intel_context_migrate := 0; kzalloc_copy_work := true;
     dma_fence_add_callback := 0; rq_fence_error := 0;
     blit_failed_data := []; i915_deps_sync := 0 |}.

(** The same, but the GPU is wedged and the wait for the dependencies of
    the move is interrupted. *)
Definition env_wedged : env :=
  {| HAS_LLC := true; HAS_SNOOP := false; migrate_context := true;
     intel_gt_is_wedged := true; gem_obj_present := true;
     i915_gem_object_unbind := 0; __i915_gem_object_put_pages := 0;
     dst_man_use_tt := false; ttm_tt_populate := 0; dst_get_st := PTR 7;
     i915_deps_add_dependency := 0; i915_deps_add_resv := 0;
     ttm_bo_move_accel_cleanup := 0; src_get_st := PTR 5;
     intel_context_migrate := 0; kzalloc_copy_work := true;
     dma_fence_add_callback := 0; rq_fence_error := 0;
     blit_failed_data := []; i915_deps_sync := - ERESTARTSYS |}.

(** The same as [env_ok], but the blit fence has already signaled when the
    callback is added. *)
Definition env_signaled : env :=
  {| HAS_LLC := true; HAS_SNOOP := false; migrate_context := true;
     intel_gt_is_wedged := false; gem_obj_present := true;
     i915_gem_object_unbind := 0; __i915_gem_object_put_pages := 0;
     dst_man_use_tt := false; ttm_tt_populate := 0; dst_get_st := PTR 7;
     i915_deps_add_dependency := 0; i915_deps_add_resv := 0;
     ttm_bo_move_accel_cleanup := 0; src_get_st := PTR 5;
     intel_context_migrate := 0; kzalloc_copy_work := true;
     dma_fence_add_callback := - ENOENT; rq_fence_error := 0;
     blit_failed_data := []; i915_deps_sync := 0 |}.

(** The same as [env_ok], but unbinding the object fails: one of its VMAs
    is pinned. *)
Definition env_pinned : env :=
  {| HAS_LLC := true; HAS_SNOOP := false; migrate_context := true;
     intel_gt_is_wedged := false; gem_obj_present := true;
     i915_gem_object_unbind := - EAGAIN; __i915_gem_object_put_pages := 0;
     dst_man_use_tt := false; ttm_tt_populate := 0; dst_get_st := PTR 7;
     i915_deps_add_dependency := 0; i915_deps_add_resv := 0;
     ttm_bo_move_accel_cleanup := 0; src_get_st := PTR 5;
     intel_context_migrate := 0; kzalloc_copy_work := true;
     dma_fence_add_callback := 0; rq_fence_error := 0;
     blit_failed_data := []; i915_deps_sync := 0 |}.

(** A purgeable object. *)
Definition dontneed_object : drm_i915_gem_object :=
  {| mm_region := i915_ttm_region I915_PL_SYSTEM;
     mm_placements := [i915_ttm_region I915_PL_SYSTEM; i915_ttm_region I915_PL_LMEM0];
     mm_madv := I915_MADV_DONTNEED; mem_flags := I915_BO_FLAG_STRUCT_PAGE;
     cache_level := I915_CACHE_LLC;
     read_domains := I915_GEM_DOMAIN_CPU; write_domain := I915_GEM_DOMAIN_CPU;
     cached_io_rsgt := None; get_io_page_sg_idx := 0 |}.

Definition dontneed_state : mstate := set_obj (sys_state false false) dontneed_object.

(** An object resident in local memory moving out to system memory. *)
Definition lmem_bo : ttm_buffer_object :=
  {| resource := lmem0; ttm := Some tt100; base_size := 2 * PAGE_SIZE;
     type := ttm_bo_type_device |}.

Definition lmem_state : mstate := set_bo (sys_state false false) lmem_bo.

(** The environment of [env_ok] with a blit that fails. *)
Definition env_blit_fails : env :=
  {| HAS_LLC := true; HAS_SNOOP := false; migrate_context := true;
     intel_gt_is_wedged := false; gem_obj_present := true;
     i915_gem_object_unbind := 0; __i915_gem_object_put_pages := 0;
     dst_man_use_tt := false; ttm_tt_populate := 0; dst_get_st := PTR 7;
     i915_deps_add_dependency := 0; i915_deps_add_resv := 0;
     ttm_bo_move_accel_cleanup := 0; src_get_st := PTR 5;
     intel_context_migrate := 0; kzalloc_copy_work := true;
     dma_fence_add_callback := 0; rq_fence_error := - EINVAL;
     blit_failed_data := [pg x55]; i915_deps_sync := 0 |}.

End MigrateScenarios.

Module VmaScenarios.
Import Vma.

(** ** Concrete address spaces, VMAs and environments used by the examples *)

(** A 4 GiB global GTT with cache colouring. *)
Definition ggtt : i915_address_space :=
  {| vm_addr := 1000; total := 2 ^ 32; is_ggtt := true; is_dpt := false;
     is_alias := false; vm_open := 1; mappable_end := 2 ^ 28;
     color_adjust := true; bind_async_flags := 0; allocate_va_range := false |}.

(** A tiny address space of a single page. *)
Definition tiny_vm : i915_address_space :=
  {| vm_addr := 2000; total := 4096; is_ggtt := false; is_dpt := false;
     is_alias := false; vm_open := 1; mappable_end := 0;
     color_adjust := false; bind_async_flags := 0; allocate_va_range := false |}.

(** An unbound GGTT VMA of one page. *)
Definition vma_unbound : i915_vma :=
  {| vma_addr := 1; vm := 1000; ggtt_view := I915_GGTT_VIEW_NORMAL; size := 4096;
     fence_size := 4096; fence_alignment := 4096; display_alignment := 4096;
     flags := I915_VMA_GGTT; pages_count := 0; pages := None; page_sizes_sg := 4096;
     resource := None; iomap := None; fence := None; closed := false |}.

(** The same VMA bound in the global GTT and pinned once. *)
Definition vma_pinned : i915_vma :=
  {| vma_addr := 1; vm := 1000; ggtt_view := I915_GGTT_VIEW_NORMAL; size := 4096;
     fence_size := 4096; fence_alignment := 4096; display_alignment := 4096;
     flags := Z.lor (Z.lor I915_VMA_GGTT I915_VMA_GLOBAL_BIND) 1;
     pages_count := I915_VMA_PAGES_ACTIVE; pages := Some 50; page_sizes_sg := 4096;
     resource := Some {| bi_pages := Some 50; bi_pages_rsgt := Some 50 |};
     iomap := None; fence := None; closed := false |}.

Definition node_of (owner_ start_ size_ color_ : Z) : drm_mm_node :=
  {| node_owner := owner_; start := start_; node_size := size_; color := color_ |}.

(** Another VMA (address 2) of colour 1 occupies the first page. *)
Definition st_unbound : vstate :=
  {| vma := vma_unbound; mm_nodes := [node_of 2 0 4096 1]; bound_list := [2];
     has_obj := true; obj_cache_level := 2; obj_mm_pages := Some 50;
     obj_mm_rsgt := Some 50; obj_page_sizes_sg := 4096; obj_pages_pin_count := 0;
     obj_userfault_count := 0; obj_was_bound := false;
     active_count := 0; wakerefs := 0 |}.

Definition st_pinned : vstate :=
  {| vma := vma_pinned; mm_nodes := [node_of 2 0 4096 1; node_of 1 8192 4096 2];
     bound_list := [2; 1];
     has_obj := true; obj_cache_level := 2; obj_mm_pages := Some 50;
     obj_mm_rsgt := Some 50; obj_page_sizes_sg := 4096; obj_pages_pin_count := 1;
     obj_userfault_count := 0; obj_was_bound := true;
     active_count := 0; wakerefs := 0 |}.

(** Every collaborator succeeds; the allocator places the node of VMA 1
    at 8192, one free page after the node of VMA 2. *)
Definition benv_ok : benv :=
  {| i915_gem_object_pin_pages := 0; view_pages := PTR 60; moving_fence := false;
     i915_vm_lock_objects := 0; i915_vma_work := true;
     i915_vm_alloc_pt_stash := 0; i915_vm_map_pt_stash := 0;
     i915_vma_resource_alloc := PTR tt;
     mutex_lock_interruptible_nested := 0; mutex_trylock := true;
     i915_active_acquire := 0;
     gtt_ret := 0; gtt_nodes := [node_of 2 0 4096 1; node_of 1 8192 4096 2];
     i915_vma_resource_bind_dep_await := 0; i915_vma_resource_bind_dep_sync := 0;
     i915_gem_object_wait_moving_fence := 0;
     i915_vma_sync := 0; i915_vma_resource_unbind := false;
     i915_sw_fence_await_active := 0; dma_resv_reserve_shared := 0 |}.

(** The same, but the object has a moving fence, and the wait for it is
    interrupted during the bind. *)
Definition benv_interrupted_bind : benv :=
  {| i915_gem_object_pin_pages := 0; view_pages := PTR 60; moving_fence := true;
     i915_vm_lock_objects := 0; i915_vma_work := true;
     i915_vm_alloc_pt_stash := 0; i915_vm_map_pt_stash := 0;
     i915_vma_resource_alloc := PTR tt;
     mutex_lock_interruptible_nested := 0; mutex_trylock := true;
     i915_active_acquire := 0;
     gtt_ret := 0; gtt_nodes := [node_of 2 0 4096 1; node_of 1 8192 4096 2];
     i915_vma_resource_bind_dep_await := 0; i915_vma_resource_bind_dep_sync := 0;
     i915_gem_object_wait_moving_fence := - ERESTARTSYS;
     i915_vma_sync := 0; i915_vma_resource_unbind := false;
     i915_sw_fence_await_active := 0; dma_resv_reserve_shared := 0 |}.

(** The same as [benv_ok], but the wait for the activity of the VMA is
    interrupted by a signal. *)
Definition benv_interrupted_sync : benv :=
  {| i915_gem_object_pin_pages := 0; view_pages := PTR 60; moving_fence := false;
     i915_vm_lock_objects := 0; i915_vma_work := true;
     i915_vm_alloc_pt_stash := 0; i915_vm_map_pt_stash := 0;
     i915_vma_resource_alloc := PTR tt;
     mutex_lock_interruptible_nested := 0; mutex_trylock := true;
     i915_active_acquire := 0;
     gtt_ret := 0; gtt_nodes := [node_of 2 0 4096 1; node_of 1 8192 4096 2];
     i915_vma_resource_bind_dep_await := 0; i915_vma_resource_bind_dep_sync := 0;
     i915_gem_object_wait_moving_fence := 0;
     i915_vma_sync := - EINTR; i915_vma_resource_unbind := false;
     i915_sw_fence_await_active := 0; dma_resv_reserve_shared := 0 |}.

(** The same as [benv_ok], but the allocator places the node of VMA 1 at
    4096, right behind the node of another colour. *)
Definition benv_adjacent : benv :=
  {| i915_gem_object_pin_pages := 0; view_pages := PTR 60; moving_fence := false;
     i915_vm_lock_objects := 0; i915_vma_work := true;
     i915_vm_alloc_pt_stash := 0; i915_vm_map_pt_stash := 0;
     i915_vma_resource_alloc := PTR tt;
     mutex_lock_interruptible_nested := 0; mutex_trylock := true;
     i915_active_acquire := 0;
     gtt_ret := 0; gtt_nodes := [node_of 2 0 4096 1; node_of 1 4096 4096 2];
     i915_vma_resource_bind_dep_await := 0; i915_vma_resource_bind_dep_sync := 0;
     i915_gem_object_wait_moving_fence := 0;
     i915_vma_sync := 0; i915_vma_resource_unbind := false;
     i915_sw_fence_await_active := 0; dma_resv_reserve_shared := 0 |}.

(** Helpers of a platform without fence constraints; the rebalancing is
    the identity on the in-order sequence. *)
Definition plain_helpers : helpers :=
  {| intel_rotation_info_size := fun l => Z.of_nat (length l);
     intel_remapped_info_size := fun l => Z.of_nat (length l);
     i915_gem_fence_size := fun s _ _ => s;
     i915_gem_fence_alignment := fun _ _ _ => 4096;
     rb_insert_color := fun t => t |}.

(** An object of one page without any VMA. *)
Definition reg_empty : registry :=
  {| r_obj := {| base_size := 4096; tiling := 0; stride := 0;
                 vma_tree := rb_nil; vma_list := [] |};
     slab_next := 1; slab_live := []; vm_refs := 1 |}.

(** The same object of two pages. *)
Definition reg_two_pages : registry :=
  {| r_obj := {| base_size := 8192; tiling := 0; stride := 0;
                 vma_tree := rb_nil; vma_list := [] |};
     slab_next := 1; slab_live := []; vm_refs := 1 |}.

Definition renv_quiet : renv :=
  {| kmem_cache_zalloc := true; concurrent := fun r => r |}.

(** Another thread registers the normal GGTT view of the object between
    the lookup and the creation. *)
Definition renv_racing : renv :=
  {| kmem_cache_zalloc := true;
     concurrent := fun r =>
       {| r_obj := set_tree_list (r_obj r) (rb_link rb_nil vma_unbound rb_nil)
                     [vma_unbound];
          slab_next := slab_next r + 1;
          slab_live := slab_next r :: slab_live r;
          vm_refs := vm_refs r + 1 |} |}.

End VmaScenarios.


Module RegistryScenarios.
Import Vma VmaScenarios.

(** obj->vma.list keeps the GGTT VMAs in front of all others, which is
    what lets for_each_ggtt_vma stop at the first VMA that is not one. *)
Fixpoint ggtt_first (l : list i915_vma) : bool :=
  match l with
  | [] => true
  | v :: l' =>
      (i915_vma_is_ggtt v || forallb (fun w => negb (i915_vma_is_ggtt w)) l')
      && ggtt_first l'
  end.

(** The object of [reg_empty] with the normal GGTT view registered. *)
Definition reg_one : registry :=
  {| r_obj := {| base_size := 4096; tiling := 0; stride := 0;
                 vma_tree := rb_link rb_nil vma_unbound rb_nil;
                 vma_list := [vma_unbound] |};
     slab_next := 2; slab_live := [1]; vm_refs := 2 |}.

(** A per-process address space of 1 MiB. *)
Definition ppgtt : i915_address_space :=
  {| vm_addr := 3000; total := 2 ^ 20; is_ggtt := false; is_dpt := false;
     is_alias := false; vm_open := 1; mappable_end := 0;
     color_adjust := false; bind_async_flags := 0; allocate_va_range := true |}.

Definition renv_no_memory : renv :=
  {| kmem_cache_zalloc := false; concurrent := fun r => r |}.

End RegistryScenarios.

Module PinScenarios.
Import Vma VmaScenarios.

(** The bits an evict takes out of vma->flags. *)
Definition evicted_bits : Z :=
  Z.lor (Z.lor (Z.lor (Z.lor I915_VMA_BIND_MASK I915_VMA_ERROR) I915_VMA_GGTT_WRITE)
               I915_VMA_CAN_FENCE) I915_VMA_USERFAULT.

(** The VMA of [st_pinned] after its pin was dropped: bound in the global
    GTT with one binding reference on its pages, mappable and fenceable,
    with an io-mapping, written through the GGTT and faulted in by the
    user. *)
Definition vma_bound : i915_vma :=
  {| vma_addr := 1; vm := 1000; ggtt_view := I915_GGTT_VIEW_NORMAL; size := 4096;
     fence_size := 4096; fence_alignment := 4096; display_alignment := 4096;
     flags := Z.lor (Z.lor (Z.lor (Z.lor I915_VMA_GGTT I915_VMA_GLOBAL_BIND)
                                  I915_VMA_CAN_FENCE) I915_VMA_GGTT_WRITE)
                    I915_VMA_USERFAULT;
     pages_count := I915_VMA_PAGES_ACTIVE; pages := Some 50; page_sizes_sg := 4096;
     resource := Some {| bi_pages := Some 50; bi_pages_rsgt := Some 50 |};
     iomap := Some 77; fence := None; closed := false |}.

Definition st_bound : vstate :=
  {| vma := vma_bound; mm_nodes := [node_of 2 0 4096 1; node_of 1 8192 4096 2];
     bound_list := [2; 1];
     has_obj := true; obj_cache_level := 2; obj_mm_pages := Some 50;
     obj_mm_rsgt := Some 50; obj_page_sizes_sg := 4096; obj_pages_pin_count := 1;
     obj_userfault_count := 1; obj_was_bound := true;
     active_count := 0; wakerefs := 0 |}.

End PinScenarios.

Module MoveScenarios.
Import Migrate MigrateScenarios.

(** A page vector that has never been populated. *)
Definition tt_fresh : ttm_tt :=
  {| tt_addr := 100; caching := ttm_cached; page_flags := 0 |}.

Definition fresh_bo : ttm_buffer_object :=
  {| resource := smem; ttm := Some tt_fresh; base_size := 2 * PAGE_SIZE;
     type := ttm_bo_type_device |}.

Definition fresh_state : mstate := set_bo (sys_state false false) fresh_bo.

End MoveScenarios.

(* ================================================================== *)
(** * i915_gem_obj_copy_ttm *)
(* ================================================================== *)
Module MigrateCopy.
Import Migrate.

(** The source buffer with the memory and the GPU, and the fences that the
    copy leaves on the reservation objects of the two buffers. *)
Record copy_state : Type := {
  src_state : mstate;
  dst_resv_excl : option dma_fence;
  src_resv_shared : list dma_fence
}.

(** Outcomes of the collaborators of i915_gem_obj_copy_ttm; [move_env] are
    those of __i915_ttm_move and below. *)
Record copy_env : Type := {
  dma_resv_reserve_shared : Z;
  dst_deps_add_resv : Z;     (* i915_deps_add_resv(&deps, dst_bo->base.resv, &ctx) *)
  src_deps_add_resv : Z;     (* i915_deps_add_resv(&deps, src_bo->base.resv, &ctx) *)
  copy_dst_get_st : ptr Z;   (* i915_ttm_resource_get_st(dst, dst_bo->resource) *)
  move_env : env
}.

(** The pointer as it is handed on: the result of
    i915_ttm_resource_get_st is not looked at before it is passed to
    __i915_ttm_move. *)
Definition pointer_value (p : ptr Z) : Z :=
  match p with NULL => 0 | ERR e => e | PTR a => a end.

(** [intr] only sets ctx.interruptible, which the collaborators read. *)
Definition i915_gem_obj_copy_ttm (ce : copy_env) (dst_bo : ttm_buffer_object)
    (allow_accel intr : bool) (cs : copy_state) : Z * copy_state :=
  let ret := dma_resv_reserve_shared ce in
  if negb (ret =? 0) then (ret, cs)
  else
    let ret := dst_deps_add_resv ce in
    if negb (ret =? 0) then (ret, cs)
    else
      let ret := src_deps_add_resv ce in
      if negb (ret =? 0) then (ret, cs)
      else
        let dst_rsgt := pointer_value (copy_dst_get_st ce) in
        let '(copy_fence, st) :=
          __i915_ttm_move (move_env ce) false (resource dst_bo) (ttm dst_bo)
            dst_rsgt allow_accel true (src_state cs) in
        match copy_fence with
        | PTR f =>
            (0, {| src_state := st;
                   dst_resv_excl := Some f;
                   src_resv_shared := src_resv_shared cs ++ [f] |})
        | _ =>
            (* IS_ERR_OR_NULL: PTR_ERR_OR_ZERO *)
            (PTR_ERR copy_fence,
             {| src_state := st;
                dst_resv_excl := dst_resv_excl cs;
                src_resv_shared := src_resv_shared cs |})
        end.

End MigrateCopy.

Module CopyScenarios.
Import Migrate MigrateScenarios MigrateCopy.

(** The destination of a copy: a buffer of the same size in local memory. *)
Definition copy_dst_bo : ttm_buffer_object :=
  {| resource := lmem0; ttm := None; base_size := 2 * PAGE_SIZE;
     type := ttm_bo_type_device |}.

Definition copy_start : copy_state :=
  {| src_state := sys_state false false; dst_resv_excl := None; src_resv_shared := [] |}.

Definition copy_env_ok : copy_env :=
  {| dma_resv_reserve_shared := 0; dst_deps_add_resv := 0; src_deps_add_resv := 0;
     copy_dst_get_st := PTR 7; move_env := env_ok |}.

(** The wait for the fences of the two buffers is interrupted. *)
Definition copy_env_interrupted : copy_env :=
  {| dma_resv_reserve_shared := 0; dst_deps_add_resv := 0; src_deps_add_resv := 0;
     copy_dst_get_st := PTR 7; move_env := env_wedged |}.

End CopyScenarios.

(* ================================================================== *)
(** * i915_vma.c: the pages of a rotated and of a partial view *)
(* ================================================================== *)
Module ViewPages.
Import Vma.

(** An entry of a scatter-gather table as the view builders fill it:
    sg_set_page with no page and offset 0, then the DMA address and the
    DMA length. *)
Record scatterlist : Type := {
  sg_length : Z;
  sg_dma_address : Z;
  sg_dma_len : Z
}.

(** The table that is being filled. [sgl] holds the entries written so
    far, from st->sgl on, so the cursor sg stands behind the last of them;
    it is NULL once [orig_nents] entries, the number allocated, have been
    passed. *)
Record sg_table : Type := {
  sgl : list scatterlist;
  nents : Z;
  orig_nents : Z
}.

Definition nents_inc (t : sg_table) : sg_table :=
  {| sgl := sgl t; nents := u32 (nents t + 1); orig_nents := orig_nents t |}.

(** sg_set_page(sg, NULL, len, 0); sg_dma_address(sg) = addr;
    sg_dma_len(sg) = len; sg = sg_next(sg). Writing through a NULL cursor
    does not return. *)
Definition sg_fill (len addr : Z) (t : sg_table) : outcome sg_table :=
  if orig_nents t <=? Z.of_nat (length (sgl t)) then BUG
  else Ret {| sgl := sgl t ++ [{| sg_length := len; sg_dma_address := addr;
                                 sg_dma_len := len |}];
              nents := nents t; orig_nents := orig_nents t |}.

(** *** rotate_pages

    [get_dma_address n] is i915_gem_object_get_dma_address(obj, n). *)

(** The loop over the rows of one column. *)
Fixpoint rotate_rows (get_dma_address : Z -> Z) (src_stride : Z)
    (rows : nat) (src_idx : Z) (t : sg_table) : outcome sg_table :=
  match rows with
  | O => Ret t
  | S rows' =>
      (* We don't need the pages, but need to initialize the entries so
         the sg list can be happily traversed. *)
      t <- sg_fill I915_GTT_PAGE_SIZE (get_dma_address src_idx) (nents_inc t) ;;
      rotate_rows get_dma_address src_stride rows' (u32 (src_idx - src_stride)) t
  end.

(** The loop over the columns, [cols] of them still to do from [column]. *)
Fixpoint rotate_columns (get_dma_address : Z -> Z)
    (offset height src_stride dst_stride : Z)
    (cols : nat) (column : Z) (t : sg_table) : outcome sg_table :=
  match cols with
  | O => Ret t
  | S cols' =>
      let src_idx := u32 (src_stride * (height - 1) + column + offset) in
      t <- rotate_rows get_dma_address src_stride (Z.to_nat height) src_idx t ;;
      let left := u32 ((dst_stride - height) * I915_GTT_PAGE_SIZE) in
      t <- (if left =? 0 then Ret t
            else
              (* The DE ignores the PTEs for the padding tiles *)
              sg_fill left 0 (nents_inc t)) ;;
      rotate_columns get_dma_address offset height src_stride dst_stride
        cols' (column + 1) t
  end.

Definition rotate_pages (get_dma_address : Z -> Z)
    (offset width height src_stride dst_stride : Z) (t : sg_table)
  : outcome sg_table :=
  rotate_columns get_dma_address offset height src_stride dst_stride
    (Z.to_nat width) 0 t.

(** *** intel_rotate_pages *)

Record intel_rotation_plane : Type := {
  plane_offset : Z;
  plane_width : Z;
  plane_height : Z;
  plane_src_stride : Z;
  plane_dst_stride : Z
}.

(** Outcomes of the collaborators of the view builders. *)
Record venv : Type := {
  get_dma_address : Z -> Z;     (* i915_gem_object_get_dma_address(obj, n) *)
  rotation_info_size : Z;       (* intel_rotation_info_size(rot_info) *)
  kmalloc_st : bool;            (* kmalloc of the sg_table returned non-NULL *)
  sg_alloc_table : Z            (* 0 or the error *)
}.

Definition intel_rotate_pages (e : venv) (plane : list intel_rotation_plane)
  : outcome (ptr sg_table) :=
  let size := rotation_info_size e in
  (* Allocate target SG list. *)
  if negb (kmalloc_st e) then Ret (ERR_PTR (- ENOMEM))
  else
    let ret := sg_alloc_table e in
    if negb (ret =? 0) then Ret (ERR_PTR ret)
    else
      let st := {| sgl := []; nents := 0; orig_nents := size |} in
      st <- fold_left
              (fun acc p =>
                 st <- acc ;;
                 rotate_pages (get_dma_address e) (plane_offset p) (plane_width p)
                   (plane_height p) (plane_src_stride p) (plane_dst_stride p) st)
              plane (Ret st) ;;
      Ret (PTR st).

(** *** intel_partial_pages

    [src] is the table of the object from the entry iter on, as
    i915_gem_object_get_sg_dma hands it out together with the page offset
    into that entry; each entry is its DMA address and its DMA length.
    [i915_sg_trim] is the function of that name of i915_scatterlist.c. *)
Fixpoint partial_loop (i915_sg_trim : sg_table -> sg_table)
    (src : list (Z * Z)) (offset count : Z) (t : sg_table)
  : outcome sg_table :=
  match src with
  | [] => BUG                   (* iter has run off the table of the object *)
  | (addr, dma_len) :: src' =>
      let len := Z.min (u32 (dma_len - u32 (Z.shiftl offset PAGE_SHIFT)))
                       (u32 (Z.shiftl count PAGE_SHIFT)) in
      t <- sg_fill len (u64 (addr + u32 (Z.shiftl offset PAGE_SHIFT))) t ;;
      let t := nents_inc t in
      let count := u32 (count - Z.shiftr len PAGE_SHIFT) in
      if count =? 0 then
        Ret (i915_sg_trim t)    (* Drop any unused tail entries. *)
      else partial_loop i915_sg_trim src' 0 count t
  end.

Record penv : Type := {
  partial_kmalloc_st : bool;       (* kmalloc of the sg_table returned non-NULL *)
  partial_sg_alloc_table : Z;      (* 0 or the error *)
  get_sg_dma : list (Z * Z);       (* from iter on; empty for a NULL iter *)
  get_sg_dma_offset : Z;
  sg_trim : sg_table -> sg_table
}.

Definition intel_partial_pages (e : penv) (view_offset view_size : Z)
  : outcome (ptr sg_table) :=
  let count := view_size in
  if negb (partial_kmalloc_st e) then Ret (ERR_PTR (- ENOMEM))
  else
    let ret := partial_sg_alloc_table e in
    if negb (ret =? 0) then Ret (ERR_PTR ret)
    else
      GEM_BUG_ON (match get_sg_dma e with [] => true | _ => false end) ;;;
      let st := {| sgl := []; nents := 0; orig_nents := count |} in
      st <- partial_loop (sg_trim e) (get_sg_dma e) (get_sg_dma_offset e) count st ;;
      Ret (PTR st).

(** *** What the tables hold *)

(** The sum of the DMA lengths of a run of entries. *)
Definition dma_total (l : list scatterlist) : Z :=
  fold_right (fun s acc => sg_dma_len s + acc) 0 l.

(** The entry of one GTT page at a DMA address. *)
Definition page_entry (addr : Z) : scatterlist :=
  {| sg_length := I915_GTT_PAGE_SIZE; sg_dma_address := addr;
     sg_dma_len := I915_GTT_PAGE_SIZE |}.

(** One column of a rotated plane: the pages of column [column] of the
    source from the last row up to the first, then the padding. *)
Definition rotated_column (get_dma_address : Z -> Z)
    (offset height src_stride dst_stride column : Z) : list scatterlist :=
  map (fun r => page_entry
                  (get_dma_address
                     (u32 (src_stride * (height - 1 - Z.of_nat r) + column + offset))))
      (seq 0 (Z.to_nat height))
  ++ (let left := u32 ((dst_stride - height) * I915_GTT_PAGE_SIZE) in
      if left =? 0 then []
      else [{| sg_length := left; sg_dma_address := 0; sg_dma_len := left |}]).

(** The number of GTT pages that the planes of a rotated view cover:
    dst_stride pages for every column. *)
Definition planes_pages (plane : list intel_rotation_plane) : Z :=
  fold_right (fun p acc => plane_width p * plane_dst_stride p + acc) 0 plane.

(** The number of pages in a run of entries of the table of an object. *)
Definition dma_pages (src : list (Z * Z)) : Z :=
  fold_right (fun s acc => Z.shiftr (snd s) PAGE_SHIFT + acc) 0 src.

End ViewPages.

Module ViewScenarios.
Import Vma ViewPages.

(** An object whose page n sits at DMA address n * 4096. *)
Definition linear_dma (n : Z) : Z := n * I915_GTT_PAGE_SIZE.

Definition empty_table (n : Z) : sg_table :=
  {| sgl := []; nents := 0; orig_nents := n |}.

(** Two columns of two rows in a source three tiles wide, rotated into
    columns three tiles high. *)
Definition plane_2x2 : intel_rotation_plane :=
  {| plane_offset := 0; plane_width := 2; plane_height := 2;
     plane_src_stride := 3; plane_dst_stride := 3 |}.

Definition venv_ok : venv :=
  {| get_dma_address := linear_dma; rotation_info_size := 6;
     kmalloc_st := true; sg_alloc_table := 0 |}.

(** An object in two chunks of two pages each, and a window of two pages
    that starts at the second page. *)
Definition penv_ok : penv :=
  {| partial_kmalloc_st := true; partial_sg_alloc_table := 0;
     get_sg_dma := [(65536, 8192); (131072, 8192)]; get_sg_dma_offset := 1;
     sg_trim := fun t => t |}.

End ViewScenarios.


(* ================================================================== *)
(** * Part 4: properties of the migration *)
(* ================================================================== *)
Module MigrateProofs.
Import Migrate MigrateScenarios.

(** ** Bookkeeping is not touched by the copy machinery *)

Lemma same_books_refl st : same_books st st.
Proof. repeat split. Qed.

Lemma same_books_trans a b c : same_books a b -> same_books b c -> same_books a c.
Proof. unfold same_books; intuition congruence. Qed.

Lemma gpu_complete_books e st : same_books st (gpu_complete e st).
Proof. unfold gpu_complete; destruct (blit st); repeat split. Qed.

Lemma dma_fence_wait_rq_books e st : same_books st (dma_fence_wait_rq e st).
Proof.
  unfold dma_fence_wait_rq.
  eapply same_books_trans; [|apply gpu_complete_books]. repeat split.
Qed.

Lemma submit_blit_books e b st : same_books st (snd (submit_blit e b st)).
Proof. unfold submit_blit; destruct (negb _); repeat split. Qed.

Lemma accel_move_books e c dm dt ds st :
  same_books st (snd (i915_ttm_accel_move e c dm dt ds st)).
Proof.
  unfold i915_ttm_accel_move.
  repeat match goal with
         | |- context [if ?b then _ else _] => destruct b
         | |- context [match src_get_st e with _ => _ end] => destruct (src_get_st e)
         end; simpl; try apply same_books_refl; apply submit_blit_books.
Qed.

Lemma move_memcpy_books c a st : same_books st (i915_ttm_move_memcpy c a st).
Proof. repeat split. Qed.

Lemma arm_books e w st : same_books st (snd (i915_ttm_memcpy_work_arm e w st)).
Proof.
  unfold i915_ttm_memcpy_work_arm.
  destruct (negb (dma_fence_add_callback e =? 0)); simpl; [|repeat split].
  destruct (negb _); [apply dma_fence_wait_rq_books | apply gpu_complete_books].
Qed.

Lemma cpu_copy_now_books w c dm dt dr st :
  same_books st (snd (cpu_copy_now w c dm dt dr st)).
Proof. unfold cpu_copy_now; simpl; apply move_memcpy_books. Qed.

Lemma __i915_ttm_move_books e c dm dt dr accel deps st :
  same_books st (snd (__i915_ttm_move e c dm dt dr accel deps st)).
Proof.
  unfold __i915_ttm_move.
  pose proof (accel_move_books e c dm dt dr st) as Ha.
  destruct accel.
  - destruct (i915_ttm_accel_move e c dm dt dr st) as [f s1]; simpl in Ha.
    destruct (true && negb (IS_ERR f) && _ && _); [exact Ha|].
    destruct (negb (IS_ERR f)).
    + destruct (negb _ && _).
      * pose proof (arm_books e
          {| arg := i915_ttm_memcpy_init (log ev_kzalloc_work s1) c dm dt dr |}
          (log ev_kzalloc_work s1)) as Hb.
        destruct (i915_ttm_memcpy_work_arm e _ (log ev_kzalloc_work s1)) as [f2 s2].
        simpl in Hb.
        assert (same_books st s2) as Hc.
        { eapply same_books_trans; [|exact Hb].
          eapply same_books_trans; [exact Ha|]. repeat split. }
        destruct (negb (IS_ERR f2)); [exact Hc|].
        eapply same_books_trans; [exact Hc| apply cpu_copy_now_books].
      * assert (same_books st (dma_fence_wait_rq e s1)) as Hc.
        { eapply same_books_trans; [exact Ha| apply dma_fence_wait_rq_books]. }
        destruct (negb (IS_ERR _)); [exact Hc|].
        eapply same_books_trans; [exact Hc| apply cpu_copy_now_books].
    + destruct deps.
      * destruct (negb (i915_deps_sync e =? 0)); simpl.
        -- eapply same_books_trans; [exact Ha|]. repeat split.
        -- eapply same_books_trans; [exact Ha|]. repeat split.
      * eapply same_books_trans; [exact Ha| apply cpu_copy_now_books].
  - simpl.
    destruct deps.
    + destruct (negb (i915_deps_sync e =? 0)); repeat split.
    + repeat split.
Qed.

(** C2: a call of i915_ttm_move that returns a nonzero error leaves the
    recorded placement of the object as it was: its memory region, its
    mem_flags, its cache level, its read and write domains, its cached io
    scatter-gather table, and the resource the buffer object sits in. The
    epilogue that updates them runs on the successful path only. *)
Theorem i915_ttm_move_error_keeps_placement :
  forall (e : env) (evict : bool) (dst_mem : ttm_resource) (st st' : mstate) (ret : Z),
    i915_ttm_move e evict dst_mem st = (ret, st') ->
    ret <> 0 ->
    mm_region (obj st') = mm_region (obj st)
    /\ mem_flags (obj st') = mem_flags (obj st)
    /\ cache_level (obj st') = cache_level (obj st)
    /\ read_domains (obj st') = read_domains (obj st)
    /\ write_domain (obj st') = write_domain (obj st)
    /\ cached_io_rsgt (obj st') = cached_io_rsgt (obj st)
    /\ obj st' = obj st
    /\ resource (bo st') = resource (bo st).
Proof.
  intros e evict dst_mem st st' ret Hmove Hret.
  assert (obj st' = obj st /\ resource (bo st') = resource (bo st)) as [Ho Hr];
    [| rewrite Ho; repeat split; exact Hr].
  unfold i915_ttm_move in Hmove.
  destruct (negb (gem_obj_present e)); [inversion Hmove; subst; congruence|].
  destruct (negb (i915_ttm_move_notify e =? 0));
    [inversion Hmove; subst; split; reflexivity|].
  destruct (negb (mm_madv (obj st) =? I915_MADV_WILLNEED));
    [inversion Hmove; subst; congruence|].
  assert (forall s1 rs, obj s1 = obj st -> resource (bo s1) = resource (bo st) ->
            i915_ttm_move_copy e evict dst_mem rs s1 = (ret, st') ->
            obj st' = obj st /\ resource (bo st') = resource (bo st)) as Hcopy.
  { intros s1 rs Ho1 Hr1 Hc. unfold i915_ttm_move_copy in Hc.
    set (clr := negb (i915_ttm_cpu_maps_iomem (resource (bo s1))) && _) in Hc.
    destruct (negb (clr && _)).
    - destruct (negb (prev_deps e =? 0)).
      + inversion Hc; subst; split; assumption.
      + pose proof (__i915_ttm_move_books e clr dst_mem (ttm (bo s1)) rs true true s1)
          as (Hb1 & Hb2 & _).
        destruct (__i915_ttm_move e clr dst_mem (ttm (bo s1)) rs true true s1)
          as [f s2]; simpl in *.
        destruct (IS_ERR f).
        * inversion Hc; subst. split; congruence.
        * inversion Hc; subst; congruence.
    - simpl in Hc. inversion Hc; subst; congruence. }
  destruct (ttm (bo st)) as [t|] eqn:Ht.
  - destruct (dst_man_use_tt e || _).
    + destruct (negb (ttm_tt_populate e =? 0)).
      * inversion Hmove; subst; split; reflexivity.
      * destruct (dst_get_st e).
        -- eapply Hcopy; [| |exact Hmove]; reflexivity.
        -- inversion Hmove; subst; split; reflexivity.
        -- eapply Hcopy; [| |exact Hmove]; reflexivity.
    + destruct (dst_get_st e).
      * eapply Hcopy; [| |exact Hmove]; reflexivity.
      * inversion Hmove; subst; split; reflexivity.
      * eapply Hcopy; [| |exact Hmove]; reflexivity.
  - destruct (dst_get_st e).
    + eapply Hcopy; [| |exact Hmove]; reflexivity.
    + inversion Hmove; subst; split; reflexivity.
    + eapply Hcopy; [| |exact Hmove]; reflexivity.
Qed.

(** A move interrupted while it waits for its dependencies on a wedged
    GPU: an error comes back and the placement is untouched. *)
Lemma i915_ttm_move_error_keeps_placement_witness :
  fst (i915_ttm_move env_wedged false lmem0 (sys_state false false)) <> 0
  /\ mm_region (obj (snd (i915_ttm_move env_wedged false lmem0 (sys_state false false))))
     = mm_region sys_object.
Proof.
  split; [vm_compute; discriminate|].
  apply (i915_ttm_move_error_keeps_placement env_wedged false lmem0
           (sys_state false false)
           (snd (i915_ttm_move env_wedged false lmem0 (sys_state false false)))
           (fst (i915_ttm_move env_wedged false lmem0 (sys_state false false)))).
  - destruct (i915_ttm_move env_wedged false lmem0 (sys_state false false)); reflexivity.
  - vm_compute; discriminate.
Defined.

(** ** Projections of an updated state *)

Lemma modes_set_mem st m : modes (set_mem st m) = modes st.
Proof. reflexivity. Qed.
Lemma mem_set_mem st m : mem (set_mem st m) = m.
Proof. reflexivity. Qed.
Lemma obj_set_mem st m : obj (set_mem st m) = obj st.
Proof. reflexivity. Qed.
Lemma bo_set_mem st m : bo (set_mem st m) = bo st.
Proof. reflexivity. Qed.
Lemma blit_set_mem st m : blit (set_mem st m) = blit st.
Proof. reflexivity. Qed.
Lemma rq_cb_set_mem st m : rq_cb (set_mem st m) = rq_cb st.
Proof. reflexivity. Qed.
Lemma system_unbound_wq_set_mem st m : system_unbound_wq (set_mem st m) = system_unbound_wq st.
Proof. reflexivity. Qed.
Lemma irq_work_list_set_mem st m : irq_work_list (set_mem st m) = irq_work_list st.
Proof. reflexivity. Qed.
Lemma trace_set_mem st m : trace (set_mem st m) = trace st.
Proof. reflexivity. Qed.
Lemma modes_set_obj st o : modes (set_obj st o) = modes st.
Proof. reflexivity. Qed.
Lemma mem_set_obj st o : mem (set_obj st o) = mem st.
Proof. reflexivity. Qed.
Lemma obj_set_obj st o : obj (set_obj st o) = o.
Proof. reflexivity. Qed.
Lemma bo_set_obj st o : bo (set_obj st o) = bo st.
Proof. reflexivity. Qed.
Lemma blit_set_obj st o : blit (set_obj st o) = blit st.
Proof. reflexivity. Qed.
Lemma rq_cb_set_obj st o : rq_cb (set_obj st o) = rq_cb st.
Proof. reflexivity. Qed.
Lemma system_unbound_wq_set_obj st o : system_unbound_wq (set_obj st o) = system_unbound_wq st.
Proof. reflexivity. Qed.
Lemma irq_work_list_set_obj st o : irq_work_list (set_obj st o) = irq_work_list st.
Proof. reflexivity. Qed.
Lemma trace_set_obj st o : trace (set_obj st o) = trace st.
Proof. reflexivity. Qed.
Lemma modes_set_bo st b : modes (set_bo st b) = modes st.
Proof. reflexivity. Qed.
Lemma mem_set_bo st b : mem (set_bo st b) = mem st.
Proof. reflexivity. Qed.
Lemma obj_set_bo st b : obj (set_bo st b) = obj st.
Proof. reflexivity. Qed.
Lemma bo_set_bo st b : bo (set_bo st b) = b.
Proof. reflexivity. Qed.
Lemma blit_set_bo st b : blit (set_bo st b) = blit st.
Proof. reflexivity. Qed.
Lemma rq_cb_set_bo st b : rq_cb (set_bo st b) = rq_cb st.
Proof. reflexivity. Qed.
Lemma system_unbound_wq_set_bo st b : system_unbound_wq (set_bo st b) = system_unbound_wq st.
Proof. reflexivity. Qed.
Lemma irq_work_list_set_bo st b : irq_work_list (set_bo st b) = irq_work_list st.
Proof. reflexivity. Qed.
Lemma trace_set_bo st b : trace (set_bo st b) = trace st.
Proof. reflexivity. Qed.
Lemma modes_set_blit st b : modes (set_blit st b) = modes st.
Proof. reflexivity. Qed.
Lemma mem_set_blit st b : mem (set_blit st b) = mem st.
Proof. reflexivity. Qed.
Lemma obj_set_blit st b : obj (set_blit st b) = obj st.
Proof. reflexivity. Qed.
Lemma bo_set_blit st b : bo (set_blit st b) = bo st.
Proof. reflexivity. Qed.
Lemma blit_set_blit st b : blit (set_blit st b) = b.
Proof. reflexivity. Qed.
Lemma rq_cb_set_blit st b : rq_cb (set_blit st b) = rq_cb st.
Proof. reflexivity. Qed.
Lemma system_unbound_wq_set_blit st b : system_unbound_wq (set_blit st b) = system_unbound_wq st.
Proof. reflexivity. Qed.
Lemma irq_work_list_set_blit st b : irq_work_list (set_blit st b) = irq_work_list st.
Proof. reflexivity. Qed.
Lemma trace_set_blit st b : trace (set_blit st b) = trace st.
Proof. reflexivity. Qed.
Lemma modes_set_rq_cb st c : modes (set_rq_cb st c) = modes st.
Proof. reflexivity. Qed.
Lemma mem_set_rq_cb st c : mem (set_rq_cb st c) = mem st.
Proof. reflexivity. Qed.
Lemma obj_set_rq_cb st c : obj (set_rq_cb st c) = obj st.
Proof. reflexivity. Qed.
Lemma bo_set_rq_cb st c : bo (set_rq_cb st c) = bo st.
Proof. reflexivity. Qed.
Lemma blit_set_rq_cb st c : blit (set_rq_cb st c) = blit st.
Proof. reflexivity. Qed.
Lemma rq_cb_set_rq_cb st c : rq_cb (set_rq_cb st c) = c.
Proof. reflexivity. Qed.
Lemma system_unbound_wq_set_rq_cb st c : system_unbound_wq (set_rq_cb st c) = system_unbound_wq st.
Proof. reflexivity. Qed.
Lemma irq_work_list_set_rq_cb st c : irq_work_list (set_rq_cb st c) = irq_work_list st.
Proof. reflexivity. Qed.
Lemma trace_set_rq_cb st c : trace (set_rq_cb st c) = trace st.
Proof. reflexivity. Qed.
Lemma modes_set_wq st q : modes (set_wq st q) = modes st.
Proof. reflexivity. Qed.
Lemma mem_set_wq st q : mem (set_wq st q) = mem st.
Proof. reflexivity. Qed.
Lemma obj_set_wq st q : obj (set_wq st q) = obj st.
Proof. reflexivity. Qed.
Lemma bo_set_wq st q : bo (set_wq st q) = bo st.
Proof. reflexivity. Qed.
Lemma blit_set_wq st q : blit (set_wq st q) = blit st.
Proof. reflexivity. Qed.
Lemma rq_cb_set_wq st q : rq_cb (set_wq st q) = rq_cb st.
Proof. reflexivity. Qed.
Lemma system_unbound_wq_set_wq st q : system_unbound_wq (set_wq st q) = q.
Proof. reflexivity. Qed.
Lemma irq_work_list_set_wq st q : irq_work_list (set_wq st q) = irq_work_list st.
Proof. reflexivity. Qed.
Lemma trace_set_wq st q : trace (set_wq st q) = trace st.
Proof. reflexivity. Qed.
Lemma modes_set_irq st q : modes (set_irq st q) = modes st.
Proof. reflexivity. Qed.
Lemma mem_set_irq st q : mem (set_irq st q) = mem st.
Proof. reflexivity. Qed.
Lemma obj_set_irq st q : obj (set_irq st q) = obj st.
Proof. reflexivity. Qed.
Lemma bo_set_irq st q : bo (set_irq st q) = bo st.
Proof. reflexivity. Qed.
Lemma blit_set_irq st q : blit (set_irq st q) = blit st.
Proof. reflexivity. Qed.
Lemma rq_cb_set_irq st q : rq_cb (set_irq st q) = rq_cb st.
Proof. reflexivity. Qed.
Lemma system_unbound_wq_set_irq st q : system_unbound_wq (set_irq st q) = system_unbound_wq st.
Proof. reflexivity. Qed.
Lemma irq_work_list_set_irq st q : irq_work_list (set_irq st q) = q.
Proof. reflexivity. Qed.
Lemma trace_set_irq st q : trace (set_irq st q) = trace st.
Proof. reflexivity. Qed.
Lemma modes_log ev st : modes (log ev st) = modes st.
Proof. reflexivity. Qed.
Lemma mem_log ev st : mem (log ev st) = mem st.
Proof. reflexivity. Qed.
Lemma obj_log ev st : obj (log ev st) = obj st.
Proof. reflexivity. Qed.
Lemma bo_log ev st : bo (log ev st) = bo st.
Proof. reflexivity. Qed.
Lemma blit_log ev st : blit (log ev st) = blit st.
Proof. reflexivity. Qed.
Lemma rq_cb_log ev st : rq_cb (log ev st) = rq_cb st.
Proof. reflexivity. Qed.
Lemma system_unbound_wq_log ev st : system_unbound_wq (log ev st) = system_unbound_wq st.
Proof. reflexivity. Qed.
Lemma irq_work_list_log ev st : irq_work_list (log ev st) = irq_work_list st.
Proof. reflexivity. Qed.
Lemma trace_log ev st : trace (log ev st) = trace st ++ [ev].
Proof. reflexivity. Qed.

Create Rewrite HintDb mst.
#[local] Hint Rewrite
  modes_set_mem mem_set_mem obj_set_mem bo_set_mem blit_set_mem rq_cb_set_mem
  system_unbound_wq_set_mem irq_work_list_set_mem trace_set_mem modes_set_obj mem_set_obj obj_set_obj
  bo_set_obj blit_set_obj rq_cb_set_obj system_unbound_wq_set_obj irq_work_list_set_obj trace_set_obj
  modes_set_bo mem_set_bo obj_set_bo bo_set_bo blit_set_bo rq_cb_set_bo
  system_unbound_wq_set_bo irq_work_list_set_bo trace_set_bo modes_set_blit mem_set_blit obj_set_blit
  bo_set_blit blit_set_blit rq_cb_set_blit system_unbound_wq_set_blit irq_work_list_set_blit trace_set_blit
  modes_set_rq_cb mem_set_rq_cb obj_set_rq_cb bo_set_rq_cb blit_set_rq_cb rq_cb_set_rq_cb
  system_unbound_wq_set_rq_cb irq_work_list_set_rq_cb trace_set_rq_cb modes_set_wq mem_set_wq obj_set_wq
  bo_set_wq blit_set_wq rq_cb_set_wq system_unbound_wq_set_wq irq_work_list_set_wq trace_set_wq
  modes_set_irq mem_set_irq obj_set_irq bo_set_irq blit_set_irq rq_cb_set_irq
  system_unbound_wq_set_irq irq_work_list_set_irq trace_set_irq modes_log mem_log obj_log
  bo_log blit_log rq_cb_log system_unbound_wq_log irq_work_list_log trace_log : mst.

(** ** Small facts about the log and the memory *)

Lemma skipn_length_app {A : Type} (l x : list A) : skipn (length l) (l ++ x) = x.
Proof. induction l; simpl; auto. Qed.

Lemma new_events_app st st' l : trace st' = trace st ++ l -> new_events st st' = l.
Proof. unfold new_events; intros ->; apply skipn_length_app. Qed.

Lemma region_eqb_refl r : region_eqb r r = true.
Proof. unfold region_eqb; rewrite !Z.eqb_refl; reflexivity. Qed.

Lemma kmap_iter_eqb_refl k : kmap_iter_eqb k k = true.
Proof.
  destruct k; simpl; [apply Z.eqb_refl|].
  rewrite region_eqb_refl, Z.eqb_refl; reflexivity.
Qed.

Lemma kmap_iter_eqb_sym a b : kmap_iter_eqb a b = kmap_iter_eqb b a.
Proof.
  destruct a, b; simpl; auto using Z.eqb_sym.
  unfold region_eqb.
  rewrite (Z.eqb_sym st), (Z.eqb_sym (mr_type region)), (Z.eqb_sym (mr_instance region)).
  reflexivity.
Qed.

Lemma mem_write_same m k d : mem_write m k d k = d.
Proof. unfold mem_write; rewrite kmap_iter_eqb_refl; reflexivity. Qed.

Lemma mem_write_other m k d k' : kmap_iter_eqb k k' = false -> mem_write m k d k' = m k'.
Proof. unfold mem_write; intros ->; reflexivity. Qed.

(** A CPU copy of the whole object over a destination of the object's
    size leaves the source contents in the destination. *)
Lemma ttm_move_memcpy_copies n dst src (m : memory) :
  kmap_iter_eqb dst src = false ->
  length (m src) = Z.to_nat n ->
  (length (m dst) <= Z.to_nat n)%nat ->
  ttm_move_memcpy false n dst src m dst = m src
  /\ ttm_move_memcpy false n dst src m src = m src.
Proof.
  intros Hne Hs Hd. unfold ttm_move_memcpy. split.
  - rewrite mem_write_same, <- Hs, firstn_all, skipn_all2 by lia.
    apply app_nil_r.
  - apply mem_write_other; exact Hne.
Qed.

(** ** The accelerated submission *)

Lemma backing_is_dst_iter st c dm dt dr :
  backing dm dt dr = dst_iter (i915_ttm_memcpy_init st c dm dt dr).
Proof. reflexivity. Qed.

(** Under fail_gpu_migration the submission is a clear blit of the
    destination, or an error. *)
Lemma accel_move_fail_gpu e c dm dt dr st :
  fail_gpu_migration (modes st) = true ->
  (exists x, i915_ttm_accel_move e c dm dt dr st = (ERR x, st))
  \/ i915_ttm_accel_move e c dm dt dr st
     = (PTR rq_fence,
        set_blit (log (ev_blit true) st)
          (Some {| blit_clear := true; blit_src := backing dm dt dr;
                   blit_dst := backing dm dt dr;
                   blit_pages := Z.shiftr (base_size (bo st)) PAGE_SHIFT |})).
Proof.
  intros Hg. unfold i915_ttm_accel_move. rewrite Hg.
  destruct (negb (migrate_context e) || intel_gt_is_wedged e);
    [left; eexists; reflexivity|].
  rewrite andb_false_r. unfold submit_blit.
  destruct (intel_context_migrate e =? 0) eqn:Hm; simpl.
  - right. reflexivity.
  - left. unfold ERR_PTR. rewrite Hm. eexists; reflexivity.
Qed.

(** A submission that did not fail has queued exactly one blit. *)
Lemma accel_move_submitted e c dm dt dr st :
  IS_ERR (fst (i915_ttm_accel_move e c dm dt dr st)) = false ->
  exists b,
    i915_ttm_accel_move e c dm dt dr st
    = (PTR rq_fence, set_blit (log (ev_blit (blit_clear b)) st) (Some b))
    /\ blit_clear b = (if fail_gpu_migration (modes st) then true else c)
    /\ blit_dst b = backing dm dt dr.
Proof.
  unfold i915_ttm_accel_move.
  destruct (negb (migrate_context e) || intel_gt_is_wedged e); [discriminate|].
  assert (forall b, IS_ERR (fst (submit_blit e b st)) = false ->
            submit_blit e b st
            = (PTR rq_fence, set_blit (log (ev_blit (blit_clear b)) st) (Some b))) as Hs.
  { intros b. unfold submit_blit, ERR_PTR.
    destruct (intel_context_migrate e =? 0); simpl; [reflexivity| discriminate]. }
  destruct (fail_gpu_migration (modes st)); simpl.
  - rewrite andb_false_r.
    intros H. eexists; split; [apply Hs; exact H|]. split; reflexivity.
  - destruct c; simpl.
    + destruct (type (bo st)); simpl; try discriminate;
        intros H; (eexists; split; [apply Hs; exact H|]; split; reflexivity).
    + destruct (src_get_st e); simpl; try discriminate;
        intros H; (eexists; split; [apply Hs; exact H|]; split; reflexivity).
Qed.




(** ** Both failure modes *)




(** ** Arming the error intercept *)

(** C5 as stated fails: a move out of local memory into system memory,
    with no switch set, submits its blit and returns the request fence
    itself; no fallback task is allocated and no callback is registered,
    and when the blit then fails no CPU copy runs. *)
Lemma fallback_arming_counterexample :
  IS_ERR (fst (i915_ttm_accel_move env_blit_fails false smem (Some tt100) 7 lmem_state))
  = false
  /\ fst (__i915_ttm_move env_blit_fails false smem (Some tt100) 7 true true lmem_state)
     = PTR rq_fence
  /\ rq_cb (snd (__i915_ttm_move env_blit_fails false smem (Some tt100) 7 true true
                   lmem_state)) = None
  /\ trace (run_to_idle env_blit_fails
              (snd (__i915_ttm_move env_blit_fails false smem (Some tt100) 7 true true
                      lmem_state)))
     = [ev_blit false].
Proof. repeat split. Qed.

(** C5, amended: after a successful accelerated submission the fallback
    is armed only when the destination is device-local memory or a
    failure mode is selected. Moving to system memory with no failure mode
    selected, the move returns the request fence and arms nothing. When
    the fallback is to be armed, the worker allocation succeeds and the
    callback is accepted by the blit fence, the move returns the fence of
    the task; once the blit fence signals, the task signals its fence from
    the irq_work without copying if the blit succeeded, and runs the CPU
    clear or copy on the unbound workqueue if the blit failed (or
    fail_gpu_migration is set). *)
Theorem fallback_armed_only_for_lmem :
  forall (e : env) (clear : bool) (dst_mem : ttm_resource) (dst_ttm : option ttm_tt)
         (dst_rsgt : Z) (move_deps : bool) (st : mstate),
    rq_cb st = None ->
    system_unbound_wq st = [] ->
    irq_work_list st = [] ->
    let submit := i915_ttm_accel_move e clear dst_mem dst_ttm dst_rsgt st in
    let r := __i915_ttm_move e clear dst_mem dst_ttm dst_rsgt true move_deps st in
    let a := i915_ttm_memcpy_init st clear dst_mem dst_ttm dst_rsgt in
    let idle := run_to_idle e (snd r) in
    IS_ERR (fst submit) = false ->
    (i915_ttm_gtt_binds_lmem dst_mem = false ->
     fail_gpu_migration (modes st) = false ->
     fail_work_allocation (modes st) = false ->
     r = submit
     /\ fst r = PTR rq_fence
     /\ rq_cb (snd r) = None
     /\ new_events st (snd r) = [ev_blit clear]
     /\ new_events (snd r) idle = [])
    /\
    (i915_ttm_gtt_binds_lmem dst_mem = true \/ fail_gpu_migration (modes st) = true ->
     fail_work_allocation (modes st) = false ->
     kzalloc_copy_work e = true ->
     dma_fence_add_callback e = 0 ->
     fst r = PTR work_fence
     /\ rq_cb (snd r) = Some {| arg := a |}
     /\ (rq_fence_error e = 0 -> fail_gpu_migration (modes st) = false ->
         new_events (snd r) idle = [ev_irq_work_queue; ev_work_fence_signal in_irq]
         /\ mem idle = mem (gpu_complete e (snd r)))
     /\ (rq_fence_error e <> 0 \/ fail_gpu_migration (modes st) = true ->
         new_events (snd r) idle
         = [ev_queue_work; ev_memcpy in_worker clear; ev_work_fence_signal in_worker]
         /\ mem idle
            = ttm_move_memcpy clear (num_pages a) (dst_iter a) (src_iter a)
                (mem (gpu_complete e (snd r))))).
Proof.
  intros e clear dm dt dr deps st Hcb Hwq Hirq submit r a idle Hsub.
  subst idle r a submit.
  destruct (accel_move_submitted e clear dm dt dr st Hsub) as (b & Hb & Hclear & Hdst).
  unfold __i915_ttm_move. rewrite Hb. simpl. split.
  - intros Hl Hg Hw. rewrite Hl, Hg, Hw. simpl.
    rewrite Hg in Hclear.
    unfold run_to_idle, dma_fence_signal_rq, gpu_complete. simpl.
    rewrite Hcb. unfold run_irq_work, run_workqueue. simpl.
    rewrite ?Hirq; simpl; rewrite ?Hwq; simpl.
    repeat split.
    + apply new_events_app. simpl. rewrite Hclear. reflexivity.
    + apply new_events_app. simpl. rewrite app_nil_r. reflexivity.
  - intros Hl Hw Hk Hc. rewrite Hw, Hk.
    assert (negb (i915_ttm_gtt_binds_lmem dm)
            && negb (fail_gpu_migration (modes st) || false) = false) as Hgate.
    { destruct Hl as [Hl|Hl]; rewrite Hl; simpl; auto using andb_false_r. }
    rewrite Hgate. simpl.
    unfold i915_ttm_memcpy_work_arm. rewrite Hc. simpl.
    unfold run_to_idle, dma_fence_signal_rq, gpu_complete. simpl.
    unfold __memcpy_cb. simpl.
    split; [reflexivity|]. split; [reflexivity|]. split.
    + intros He Hg. rewrite He, Hg. simpl.
      unfold run_irq_work, run_workqueue. simpl.
      rewrite ?Hirq; simpl; rewrite ?Hwq; simpl.
      split; [|reflexivity].
      apply new_events_app. simpl. rewrite <- !app_assoc. reflexivity.
    + intros H.
      assert (negb (rq_fence_error e =? 0) || fail_gpu_migration (modes st) = true) as Hq.
      { destruct H as [H|H]; [|rewrite H; apply orb_true_r].
        apply Z.eqb_neq in H. rewrite H. reflexivity. }
      rewrite Hq. simpl.
      unfold run_irq_work, run_workqueue. simpl.
      rewrite ?Hirq; simpl; rewrite ?Hwq; simpl.
      split; [|reflexivity].
      apply new_events_app. simpl. rewrite <- !app_assoc. reflexivity.
Qed.

Lemma fallback_armed_only_for_lmem_witness :
  fst (__i915_ttm_move env_blit_fails false lmem0 (Some tt100) 7 true true
         (sys_state false false)) = PTR work_fence
  /\ new_events
       (snd (__i915_ttm_move env_blit_fails false lmem0 (Some tt100) 7 true true
               (sys_state false false)))
       (run_to_idle env_blit_fails
          (snd (__i915_ttm_move env_blit_fails false lmem0 (Some tt100) 7 true true
                  (sys_state false false))))
     = [ev_queue_work; ev_memcpy in_worker false; ev_work_fence_signal in_worker].
Proof.
  pose proof (fallback_armed_only_for_lmem env_blit_fails false lmem0 (Some tt100) 7 true
                (sys_state false false) eq_refl eq_refl eq_refl eq_refl) as [_ H].
  destruct (H (or_introl eq_refl) eq_refl eq_refl eq_refl) as (H1 & _ & _ & H2).
  split; [exact H1|].
  apply H2. left. vm_compute. discriminate.
Defined.

(** ** The fallback under fail_gpu_migration *)

Lemma copy_after_blit (m : memory) (dst src : ttm_kmap_iter) (n : Z) (g : list page) :
  kmap_iter_eqb src dst = false ->
  length (m src) = Z.to_nat n ->
  (length g <= Z.to_nat n)%nat ->
  ttm_move_memcpy false n dst src (mem_write m dst g) dst = m src.
Proof.
  intros Hne Hs Hg.
  rewrite kmap_iter_eqb_sym in Hne.
  destruct (ttm_move_memcpy_copies n dst src (mem_write m dst g)) as [H _].
  - exact Hne.
  - rewrite mem_write_other by exact Hne. exact Hs.
  - rewrite mem_write_same. exact Hg.
  - rewrite H. apply mem_write_other. exact Hne.
Qed.

Lemma blit_result_length (c : bool) (n : nat) (ok : bool) (s g old : list page) :
  length old = n ->
  (length ((if ok then if c then repeat zero_page n else firstn n s
            else firstn n g) ++ skipn n old) <= n)%nat.
Proof.
  intros Ho. rewrite skipn_all2 by lia. rewrite app_nil_r.
  destruct ok; [destruct c|]; rewrite ?repeat_length, ?length_firstn; lia.
Qed.


Local Arguments ttm_move_memcpy : simpl never.
Local Arguments mem_write : simpl never.
Local Arguments zero_page : simpl never.
Local Arguments log : simpl never.
Local Arguments set_mem : simpl never.
Local Arguments set_blit : simpl never.
Local Arguments set_rq_cb : simpl never.
Local Arguments set_wq : simpl never.
Local Arguments set_irq : simpl never.

Ltac msimpl := repeat (progress (autorewrite with mst; simpl)).

(** Nothing is pending: going idle changes neither memory nor the log. *)
Lemma run_to_idle_quiet e st :
  blit st = None -> rq_cb st = None ->
  system_unbound_wq st = [] -> irq_work_list st = [] ->
  mem (run_to_idle e st) = mem st /\ trace (run_to_idle e st) = trace st.
Proof.
  intros Hb Hc Hw Hi.
  unfold run_to_idle, dma_fence_signal_rq, gpu_complete. rewrite Hb, Hc.
  unfold run_irq_work. rewrite Hi. simpl.
  unfold run_workqueue. autorewrite with mst. rewrite Hw. simpl.
  autorewrite with mst. split; reflexivity.
Qed.

(** The state once the pending blit has completed. *)
Lemma gpu_complete_pending e st b :
  blit st = Some b ->
  mem (gpu_complete e st)
  = mem_write (mem st) (blit_dst b)
      ((if rq_fence_error e =? 0
        then if blit_clear b then repeat zero_page (Z.to_nat (blit_pages b))
             else firstn (Z.to_nat (blit_pages b)) (mem st (blit_src b))
        else firstn (Z.to_nat (blit_pages b)) (blit_failed_data e))
       ++ skipn (Z.to_nat (blit_pages b)) (mem st (blit_dst b)))
  /\ trace (gpu_complete e st) = trace st
  /\ blit (gpu_complete e st) = None
  /\ rq_cb (gpu_complete e st) = rq_cb st
  /\ system_unbound_wq (gpu_complete e st) = system_unbound_wq st
  /\ irq_work_list (gpu_complete e st) = irq_work_list st
  /\ modes (gpu_complete e st) = modes st.
Proof.
  intros Hb. unfold gpu_complete. rewrite Hb. autorewrite with mst.
  repeat split.
Qed.

(** A callback armed under fail_gpu_migration: going idle completes the
    blit and runs the copy on the workqueue. *)
Lemma run_to_idle_worker e st b w :
  blit st = Some b -> rq_cb st = Some w ->
  system_unbound_wq st = [] -> irq_work_list st = [] ->
  fail_gpu_migration (modes st) = true ->
  mem (run_to_idle e st)
  = ttm_move_memcpy (clear (arg w)) (num_pages (arg w)) (dst_iter (arg w))
      (src_iter (arg w)) (mem (gpu_complete e st))
  /\ trace (run_to_idle e st)
     = trace st ++ [ev_queue_work; ev_memcpy in_worker (clear (arg w));
                    ev_work_fence_signal in_worker].
Proof.
  intros Hb Hc Hw Hi Hg.
  destruct (gpu_complete_pending e st b Hb) as (Hm & Ht & _ & Hc' & Hw' & Hi' & Hg').
  unfold run_to_idle, dma_fence_signal_rq.
  rewrite Hc', Hc. unfold __memcpy_cb. autorewrite with mst.
  rewrite Hg', Hg, orb_true_r, Hw'. rewrite Hw. simpl.
  unfold run_irq_work. autorewrite with mst. rewrite Hi', Hi. simpl.
  unfold run_workqueue. autorewrite with mst. simpl.
  unfold __memcpy_work, i915_ttm_move_memcpy. autorewrite with mst.
  rewrite Ht, <- !app_assoc. split; reflexivity.
Qed.




End MigrateProofs.


(* ================================================================== *)
(** * Part 5: properties of the VMA registry, pin and unbind *)
(* ================================================================== *)
Module VmaProofs.
Import Vma VmaScenarios.

(** ** Inversion of the assertion monad *)

Lemma bind_Ret {A B : Type} (m : outcome A) (k : A -> outcome B) (b : B) :
  bind m k = Ret b -> exists a, m = Ret a /\ k a = Ret b.
Proof. destruct m; simpl; [eauto | discriminate]. Qed.

Lemma GEM_BUG_ON_Ret (c : bool) (u : unit) : GEM_BUG_ON c = Ret u -> c = false.
Proof. destruct c; [discriminate | reflexivity]. Qed.

(** Peel the first step off a computation that is known to return. *)
Ltac step H :=
  match type of H with
  | bind (GEM_BUG_ON ?c) _ = Ret _ =>
      let a := fresh "u" in
      let Ha := fresh "Hbug" in
      let Hk := fresh "Hk" in
      apply bind_Ret in H; destruct H as (a & Ha & Hk);
      apply GEM_BUG_ON_Ret in Ha; clear a; rename Hk into H
  | bind _ _ = Ret _ =>
      let a := fresh "a" in
      let Ha := fresh "Hstep" in
      let Hk := fresh "Hk" in
      apply bind_Ret in H; destruct H as (a & Ha & Hk); rename Hk into H
  end.

(** ** Unbinding a pinned VMA *)

(** C4 as stated fails for i915_vma_unbind: it first waits for the
    activity of the VMA, before it looks at the pin count, and when that
    wait is interrupted it returns the error of the wait, not -EAGAIN. *)
Lemma pinned_unbind_counterexample :
  i915_vma_is_pinned (vma st_pinned) = true
  /\ drm_mm_node_allocated st_pinned = true
  /\ i915_vma_unbind benv_interrupted_sync st_pinned = Ret (- EINTR, st_pinned)
  /\ - EINTR <> - EAGAIN.
Proof. repeat split. discriminate. Qed.

(** C4, amended: while the pin count of a VMA that holds a node is not
    zero, no unbind succeeds and none touches the VMA, its bind bits or
    its node: __i915_vma_unbind, __i915_vma_unbind_async and
    i915_vma_unbind_async return -EAGAIN; i915_vma_unbind returns the
    error of its first, optimistic wait for the activity of the VMA if
    that wait fails, and -EAGAIN otherwise. *)
Theorem pinned_vma_stays_bound :
  forall (e : benv) (trylock_vm : bool) (st : vstate),
    drm_mm_node_allocated st = true ->
    i915_vma_is_pinned (vma st) = true ->
    __i915_vma_unbind e st = Ret (- EAGAIN, st)
    /\ __i915_vma_unbind_async e st = Ret (ERR (- EAGAIN), st)
    /\ i915_vma_unbind_async e trylock_vm st = Ret (- EAGAIN, st)
    /\ i915_vma_unbind e st
       = Ret (if i915_vma_sync e =? 0 then - EAGAIN else i915_vma_sync e, st)
    /\ (forall (ret : Z) (st' : vstate),
          i915_vma_unbind e st = Ret (ret, st') -> ret <> 0 /\ st' = st).
Proof.
  intros e trylock_vm st Hnode Hpin.
  assert (i915_vma_unbind e st
          = Ret (if i915_vma_sync e =? 0 then - EAGAIN else i915_vma_sync e, st)) as Hu.
  { unfold i915_vma_unbind. rewrite Hnode, Hpin.
    destruct (i915_vma_sync e =? 0); reflexivity. }
  unfold __i915_vma_unbind, __i915_vma_unbind_async, i915_vma_unbind_async.
  rewrite Hnode, Hpin. simpl.
  repeat split; try reflexivity; try exact Hu.
  - rewrite Hu in H. inversion H; subst.
    destruct (i915_vma_sync e =? 0) eqn:Hs; [discriminate|].
    apply Z.eqb_neq; exact Hs.
  - rewrite Hu in H. inversion H; reflexivity.
Qed.

Lemma pinned_vma_stays_bound_witness :
  __i915_vma_unbind benv_ok st_pinned = Ret (- EAGAIN, st_pinned)
  /\ i915_vma_unbind benv_ok st_pinned = Ret (- EAGAIN, st_pinned).
Proof.
  destruct (pinned_vma_stays_bound benv_ok false st_pinned eq_refl eq_refl)
    as (H1 & _ & _ & H2 & _).
  split; [exact H1 | exact H2].
Defined.

(** ** Cache colouring *)

Lemma Ret_pair_inv {A B : Type} (a a' : A) (b b' : B) :
  Ret (a, b) = Ret (a', b') -> a = a' /\ b = b'.
Proof. intros H; inversion H; auto. Qed.

(** The check only reads the nodes and the VMA. *)
Lemma valid_gtt_space_bound_list vm_ st l c :
  i915_gem_valid_gtt_space vm_ (set_bound_list st l) c
  = i915_gem_valid_gtt_space vm_ st c.
Proof. reflexivity. Qed.

(** What a passed check says about the neighbours. *)
Lemma valid_gtt_space_neighbours vm_ st c :
  i915_vm_has_cache_coloring vm_ = true ->
  i915_gem_valid_gtt_space vm_ st c = Ret true ->
  exists prev node next,
    node_neighbours None (mm_nodes st) (vma st) = Some (prev, node, next)
    /\ (forall p, prev = Some p ->
          color p = c \/ start p + node_size p < start node)
    /\ (forall n, next = Some n ->
          color n = c \/ start node + node_size node < start n).
Proof.
  intros Hc Hv. unfold i915_gem_valid_gtt_space in Hv. rewrite Hc in Hv. simpl in Hv.
  destruct (node_neighbours None (mm_nodes st) (vma st)) as [[[prev node] next]|];
    [|discriminate].
  exists prev, node, next. split; [reflexivity|].
  destruct (i915_node_color_differs prev c && _) eqn:Hp; [discriminate|].
  destruct (i915_node_color_differs next c && _) eqn:Hn; [discriminate|].
  split.
  - intros p ->. simpl in Hp. unfold hole_between in Hp.
    destruct (color p =? c) eqn:Hcol; [left; apply Z.eqb_eq; exact Hcol|].
    right. simpl in Hp. apply negb_false_iff in Hp. apply Z.ltb_lt. exact Hp.
  - intros n ->. simpl in Hn. unfold hole_between in Hn.
    destruct (color n =? c) eqn:Hcol; [left; apply Z.eqb_eq; exact Hcol|].
    right. simpl in Hn. apply negb_false_iff in Hn. apply Z.ltb_lt. exact Hn.
Qed.

(** An insertion that returns 0 has passed the colouring check. *)
Lemma i915_vma_insert_checked e vm_ size_ alignment flags_ st st' :
  i915_vma_insert e vm_ size_ alignment flags_ st = Ret (0, st') ->
  i915_gem_valid_gtt_space vm_ st'
    (if i915_vm_has_cache_coloring vm_ then obj_cache_level st else 0) = Ret true
  /\ drm_mm_node_allocated st' = true
  /\ vma st' = vma st /\ obj_cache_level st' = obj_cache_level st.
Proof.
  intros H. unfold i915_vma_insert in H. cbv zeta in H.
  repeat step H.
  match type of H with (if ?c then _ else _) = _ => destruct c end.
  { apply Ret_pair_inv in H. destruct H as [H _]. vm_compute in H. discriminate. }
  step H. destruct a as [ret st1].
  assert (vma st1 = vma st /\ obj_cache_level st1 = obj_cache_level st) as [Hv Hl].
  { clear H.
    match type of Hstep with (if ?c then _ else _) = _ => destruct c end.
    - match type of Hstep with (if ?c then _ else _) = _ => destruct c end;
        apply Ret_pair_inv in Hstep; destruct Hstep as [_ <-]; split; reflexivity.
    - step Hstep.
      match type of Hstep with (if ?c then _ else _) = _ => destruct c end.
      + apply Ret_pair_inv in Hstep; destruct Hstep as [_ <-]; split; reflexivity.
      + match type of Hstep with
        | match ?n with _ => _ end = _ => destruct n; [|discriminate]
        end.
        repeat step Hstep.
        apply Ret_pair_inv in Hstep; destruct Hstep as [_ <-]; split; reflexivity. }
  destruct (negb (ret =? 0)) eqn:Hret.
  { apply Ret_pair_inv in H. destruct H as [H _]. subst ret. discriminate. }
  repeat step H.
  apply Ret_pair_inv in H. destruct H as [_ <-].
  rewrite valid_gtt_space_bound_list.
  match goal with
  | Hq : negb ?v = false, Hs : i915_gem_valid_gtt_space _ _ _ = Ret ?v |- _ =>
      apply negb_false_iff in Hq; subst v
  end.
  match goal with
  | Hq : negb (drm_mm_node_allocated st1) = false |- _ =>
      apply negb_false_iff in Hq
  end.
  repeat split; assumption.
Qed.

(** C7: in an address space with cache colouring, a successful
    i915_vma_insert leaves the node of the VMA where
    i915_gem_valid_gtt_space holds for the colour it was inserted with
    (the cache level of the object): the previous and the next allocated
    node in address order each have that colour or are separated from the
    node by a hole. An insertion that would leave a neighbour of another
    colour without a hole does not return: it trips the assertion. *)
Theorem inserted_node_respects_colouring :
  forall (e : benv) (vm_ : i915_address_space) (size_ alignment flags_ : Z)
         (st st' : vstate),
    i915_vm_has_cache_coloring vm_ = true ->
    i915_vma_insert e vm_ size_ alignment flags_ st = Ret (0, st') ->
    i915_gem_valid_gtt_space vm_ st' (obj_cache_level st) = Ret true
    /\ exists prev node next,
         node_neighbours None (mm_nodes st') (vma st') = Some (prev, node, next)
         /\ (forall p, prev = Some p ->
               color p = obj_cache_level st \/ start p + node_size p < start node)
         /\ (forall n, next = Some n ->
               color n = obj_cache_level st \/ start node + node_size node < start n).
Proof.
  intros e vm_ size_ alignment flags_ st st' Hc H.
  destruct (i915_vma_insert_checked e vm_ size_ alignment flags_ st st' H) as (Hv & _).
  rewrite Hc in Hv. split; [exact Hv|].
  apply (valid_gtt_space_neighbours vm_); assumption.
Qed.

(** A page is inserted one free page behind a node of another colour. *)
Lemma inserted_node_respects_colouring_witness :
  i915_vm_has_cache_coloring ggtt = true
  /\ exists st',
       i915_vma_insert benv_ok ggtt 0 0 PIN_GLOBAL st_unbound = Ret (0, st')
       /\ i915_gem_valid_gtt_space ggtt st' (obj_cache_level st_unbound) = Ret true.
Proof.
  split; [reflexivity|].
  eexists. split; [reflexivity|].
  eapply (inserted_node_respects_colouring benv_ok ggtt 0 0 PIN_GLOBAL st_unbound);
    reflexivity.
Defined.

(** Scenario A: the same insertion placed directly behind the node of the
    other colour trips the assertion of the colouring check. *)
Example adjacent_colours_trip_the_assertion :
  i915_vma_insert benv_adjacent ggtt 0 0 PIN_GLOBAL st_unbound = BUG.
Proof. reflexivity. Qed.

(** ** The order of the registry *)

Lemma memcmp_refl a : memcmp a a = 0.
Proof. induction a; simpl; [reflexivity|]. rewrite Z.eqb_refl. exact IHa. Qed.

Lemma memcmp_eq a : forall b, memcmp a b = 0 -> a = b.
Proof.
  induction a as [|x a IH]; intros [|y b]; simpl; try discriminate; auto.
  destruct (x =? y) eqn:E.
  - apply Z.eqb_eq in E. intros H. f_equal; auto.
  - apply Z.eqb_neq in E. lia.
Qed.

Lemma memcmp_antisym a : forall b, memcmp a b < 0 <-> 0 < memcmp b a.
Proof.
  induction a as [|x a IH]; intros [|y b]; simpl; try lia.
  rewrite (Z.eqb_sym y x).
  destruct (x =? y) eqn:E; [apply IH|]. lia.
Qed.

Lemma memcmp_trans a : forall b c, memcmp a b < 0 -> memcmp b c < 0 -> memcmp a c < 0.
Proof.
  induction a as [|x a IH]; intros [|y b] [|z c]; simpl; try lia.
  destruct (x =? y) eqn:E1; destruct (y =? z) eqn:E2; destruct (x =? z) eqn:E3;
    rewrite ?Z.eqb_eq, ?Z.eqb_neq in *; try lia.
  apply IH.
Qed.

Lemma view_type_normal w : view_type w = 0 -> w = I915_GGTT_VIEW_NORMAL.
Proof. destruct w; simpl; intros; try discriminate; reflexivity. Qed.

Lemma i915_vma_compare_memcmp v vm_ view :
  i915_vma_compare v vm_ view = memcmp (vma_key v) (view_key vm_ view).
Proof.
  unfold i915_vma_compare, vma_key.
  assert (forall a b, (a - b =? 0) = (a =? b)) as Hsub.
  { intros a b. destruct (a =? b) eqn:E.
    - apply Z.eqb_eq in E. subst. rewrite Z.sub_diag. reflexivity.
    - apply Z.eqb_neq in E. apply Z.eqb_neq. lia. }
  rewrite Hsub.
  destruct view as [w|]; cbn [view_key memcmp];
    destruct (vm v =? vm_) eqn:E; cbn [negb]; try reflexivity.
  - rewrite Hsub.
    destruct (view_type (ggtt_view v) =? view_type w); reflexivity.
  - destruct (view_type (ggtt_view v) =? 0) eqn:E2; [|lia].
    apply Z.eqb_eq in E2. rewrite (view_type_normal _ E2). reflexivity.
Qed.

Lemma key_lt_trans a b c : key_lt a b -> key_lt b c -> key_lt a c.
Proof. unfold key_lt. apply memcmp_trans. Qed.

Lemma ss_app_inv {A : Type} (R : A -> A -> Prop) (l1 l2 : list A) :
  StronglySorted R (l1 ++ l2) ->
  StronglySorted R l1 /\ StronglySorted R l2
  /\ (forall x y, In x l1 -> In y l2 -> R x y).
Proof.
  induction l1 as [|a l1 IH]; simpl; intros H.
  - repeat split; [constructor | exact H | intros x y []].
  - inversion H as [|? ? Hs Hf]; subst.
    destruct (IH Hs) as (H1 & H2 & H3).
    rewrite Forall_app in Hf. destruct Hf as [Hf1 Hf2].
    repeat split; [constructor; assumption | assumption |].
    intros x y [->|Hx] Hy; [|auto].
    rewrite Forall_forall in Hf2. auto.
Qed.

Lemma ss_app {A : Type} (R : A -> A -> Prop) (l1 l2 : list A) :
  StronglySorted R l1 -> StronglySorted R l2 ->
  (forall x y, In x l1 -> In y l2 -> R x y) ->
  StronglySorted R (l1 ++ l2).
Proof.
  induction l1 as [|a l1 IH]; simpl; intros H1 H2 H3; [exact H2|].
  inversion H1 as [|? ? Hs Hf]; subst.
  constructor.
  - apply IH; auto.
  - rewrite Forall_app. split; [exact Hf|].
    rewrite Forall_forall. intros y Hy. apply H3; auto.
Qed.

Lemma ss_insert {A : Type} (R : A -> A -> Prop) (l1 l2 : list A) (v : A) :
  StronglySorted R (l1 ++ l2) ->
  (forall x, In x l1 -> R x v) -> (forall y, In y l2 -> R v y) ->
  StronglySorted R (l1 ++ v :: l2).
Proof.
  intros H Hl Hr. destruct (ss_app_inv R l1 l2 H) as (H1 & H2 & H3).
  apply ss_app; [exact H1| |].
  - constructor; [exact H2|]. rewrite Forall_forall. exact Hr.
  - intros x y Hx [<-|Hy]; auto.
Qed.

(** In an ordered tree the lookup finds exactly the entry with the key. *)
Lemma lookup_some t vm_ view : forall v,
  i915_vma_lookup t vm_ view = Some v ->
  In v (inorder t) /\ i915_vma_compare v vm_ view = 0.
Proof.
  induction t as [|l IHl x r IHr]; simpl; intros v H; [discriminate|].
  destruct (i915_vma_compare x vm_ view =? 0) eqn:E.
  - inversion H; subst. apply Z.eqb_eq in E. split; [|exact E].
    apply in_or_app. right. left. reflexivity.
  - destruct (i915_vma_compare x vm_ view <? 0).
    + destruct (IHr v H) as [Hin Hc]. split; [|exact Hc].
      apply in_or_app. right. right. exact Hin.
    + destruct (IHl v H) as [Hin Hc]. split; [|exact Hc].
      apply in_or_app. left. exact Hin.
Qed.

Lemma compare_lt_of_key_lt x y vm_ view :
  key_lt x y -> i915_vma_compare y vm_ view <= 0 -> i915_vma_compare x vm_ view < 0.
Proof.
  unfold key_lt. rewrite !i915_vma_compare_memcmp. intros Hxy Hy.
  destruct (Z.eq_dec (memcmp (vma_key y) (view_key vm_ view)) 0) as [E|E].
  - apply memcmp_eq in E. rewrite <- E. exact Hxy.
  - eapply memcmp_trans; [exact Hxy| lia].
Qed.

Lemma compare_gt_of_key_lt x y vm_ view :
  key_lt x y -> 0 <= i915_vma_compare x vm_ view -> 0 < i915_vma_compare y vm_ view.
Proof.
  unfold key_lt. rewrite !i915_vma_compare_memcmp. intros Hxy Hx.
  destruct (Z.eq_dec (memcmp (vma_key x) (view_key vm_ view)) 0) as [E|E].
  - apply memcmp_eq in E. rewrite <- E. apply memcmp_antisym. exact Hxy.
  - apply memcmp_antisym. eapply memcmp_trans; [|exact Hxy].
    apply memcmp_antisym. lia.
Qed.

Lemma lookup_none t vm_ view :
  ordered t ->
  i915_vma_lookup t vm_ view = None ->
  forall v, In v (inorder t) -> i915_vma_compare v vm_ view <> 0.
Proof.
  unfold ordered.
  induction t as [|l IHl x r IHr]; simpl; intros Ho H v Hin; [contradiction|].
  destruct (ss_app_inv _ _ _ Ho) as (Hl & Hxr & Hlx).
  inversion Hxr as [|? ? Hr Hxr']; subst. rewrite Forall_forall in Hxr'.
  destruct (i915_vma_compare x vm_ view =? 0) eqn:E; [discriminate|].
  apply Z.eqb_neq in E.
  apply in_app_or in Hin.
  destruct (i915_vma_compare x vm_ view <? 0) eqn:E2.
  - apply Z.ltb_lt in E2.
    destruct Hin as [Hin|[<-|Hin]]; [|exact E|apply IHr; assumption].
    assert (i915_vma_compare v vm_ view < 0); [|lia].
    eapply compare_lt_of_key_lt; [apply Hlx; [exact Hin|left; reflexivity]| lia].
  - apply Z.ltb_ge in E2.
    destruct Hin as [Hin|[<-|Hin]]; [apply IHl; assumption|exact E|].
    assert (0 < i915_vma_compare v vm_ view); [|lia].
    eapply compare_gt_of_key_lt; [apply Hxr'; exact Hin| lia].
Qed.

Lemma lookup_finds t vm_ view v :
  ordered t -> In v (inorder t) -> i915_vma_compare v vm_ view = 0 ->
  i915_vma_lookup t vm_ view = Some v.
Proof.
  intros Ho Hin Hc.
  destruct (i915_vma_lookup t vm_ view) as [w|] eqn:E.
  - destruct (lookup_some _ _ _ _ E) as [Hw Hcw].
    (* two entries with the key of the request are the same entry *)
    f_equal. unfold ordered in Ho. revert Hin Hw.
    generalize (inorder t) Ho. intros l Hs.
    induction Hs as [|a l Hs IH Hf]; simpl; [contradiction|].
    rewrite Forall_forall in Hf.
    assert (forall y, In y l -> i915_vma_compare a vm_ view = 0 ->
              i915_vma_compare y vm_ view = 0 -> False) as Hno.
    { intros y Hy Ha Hyc.
      pose proof (compare_gt_of_key_lt a y vm_ view (Hf y Hy)). lia. }
    intros [<-|Hv] [<-|Hw']; auto.
    + exfalso. eapply Hno; eauto.
    + exfalso. eapply Hno; eauto.
  - exfalso. eapply (lookup_none t vm_ view Ho E); eauto.
Qed.

(** In an ordered tree at most one entry has a given key. *)
Lemma ordered_at_most_one t vm_ view :
  ordered t -> (same_key_count vm_ view t <= 1)%nat.
Proof.
  unfold ordered, same_key_count. generalize (inorder t). intros l Hs.
  induction Hs as [|a l Hs IH Hf]; simpl; [lia|].
  destruct (i915_vma_compare a vm_ view =? 0) eqn:E; [|lia].
  apply Z.eqb_eq in E. rewrite Forall_forall in Hf.
  assert (filter (fun v => i915_vma_compare v vm_ view =? 0) l = []) as ->; [|simpl; lia].
  clear IH Hs. induction l as [|y l IHl]; simpl; [reflexivity|].
  pose proof (compare_gt_of_key_lt a y vm_ view (Hf y (or_introl eq_refl))).
  destruct (i915_vma_compare y vm_ view =? 0) eqn:Ey.
  - apply Z.eqb_eq in Ey. lia.
  - apply IHl. intros z Hz. apply Hf. right. exact Hz.
Qed.

(** ** vma_create and i915_vma_instance *)

Lemma rb_walk_link_spec t vm_ view v :
  ordered t ->
  match rb_walk_link t vm_ view v with
  | inl pos => i915_vma_lookup t vm_ view = Some pos
  | inr t' =>
      i915_vma_lookup t vm_ view = None
      /\ exists l1 l2, inorder t = l1 ++ l2 /\ inorder t' = l1 ++ v :: l2
         /\ (forall x, In x l1 -> i915_vma_compare x vm_ view < 0)
         /\ (forall x, In x l2 -> 0 < i915_vma_compare x vm_ view)
  end.
Proof.
  unfold ordered.
  induction t as [|l IHl x r IHr]; simpl; intros Ho.
  - split; [reflexivity|]. exists [], []. simpl. repeat split; intros ? [].
  - destruct (ss_app_inv _ _ _ Ho) as (Hl & Hxr & Hlx).
    inversion Hxr as [|? ? Hr Hxr']; subst. rewrite Forall_forall in Hxr'.
    destruct (i915_vma_compare x vm_ view <? 0) eqn:E1.
    + apply Z.ltb_lt in E1.
      assert ((i915_vma_compare x vm_ view =? 0) = false) as -> by (apply Z.eqb_neq; lia).
      specialize (IHr Hr). destruct (rb_walk_link r vm_ view v) as [pos|r']; [exact IHr|].
      destruct IHr as (Hn & l1 & l2 & H1 & H2 & H3 & H4). split; [exact Hn|].
      exists (inorder l ++ x :: l1), l2. simpl. rewrite H1, H2, <- !app_assoc. simpl.
      repeat split; auto. intros y Hy. apply in_app_or in Hy.
      destruct Hy as [Hy|[<-|Hy]]; auto.
      eapply compare_lt_of_key_lt; [apply Hlx; [exact Hy|left; reflexivity]|lia].
    + apply Z.ltb_ge in E1. destruct (0 <? i915_vma_compare x vm_ view) eqn:E2.
      * apply Z.ltb_lt in E2.
        assert ((i915_vma_compare x vm_ view =? 0) = false) as -> by (apply Z.eqb_neq; lia).
        specialize (IHl Hl). destruct (rb_walk_link l vm_ view v) as [pos|l']; [exact IHl|].
        destruct IHl as (Hn & l1 & l2 & H1 & H2 & H3 & H4). split; [exact Hn|].
        exists l1, (l2 ++ x :: inorder r). simpl. rewrite H1, H2, <- !app_assoc. simpl.
        repeat split; auto. intros y Hy. apply in_app_or in Hy.
        destruct Hy as [Hy|[<-|Hy]]; auto.
        eapply compare_gt_of_key_lt; [apply Hxr'; exact Hy|lia].
      * apply Z.ltb_ge in E2.
        assert ((i915_vma_compare x vm_ view =? 0) = true) as -> by (apply Z.eqb_eq; lia).
        reflexivity.
Qed.

(** Linking a node that carries the key of the request keeps the order. *)
Lemma rb_walk_link_ordered t vm_ view v t' :
  ordered t -> i915_vma_compare v vm_ view = 0 ->
  rb_walk_link t vm_ view v = inr t' ->
  ordered t' /\ In v (inorder t').
Proof.
  intros Ho Hv Hw. pose proof (rb_walk_link_spec t vm_ view v Ho) as Hs.
  rewrite Hw in Hs. destruct Hs as (_ & l1 & l2 & H1 & H2 & H3 & H4).
  unfold ordered in *. rewrite H2. rewrite H1 in Ho. split.
  - rewrite i915_vma_compare_memcmp in Hv. apply memcmp_eq in Hv.
    apply ss_insert; [exact Ho| |].
    + intros x Hx. specialize (H3 x Hx). rewrite i915_vma_compare_memcmp in H3.
      unfold key_lt. rewrite Hv. exact H3.
    + intros x Hx. specialize (H4 x Hx). rewrite i915_vma_compare_memcmp in H4.
      unfold key_lt. rewrite Hv. apply memcmp_antisym. exact H4.
  - apply in_or_app. right. left. reflexivity.
Qed.

Lemma vma_set_view_size_fields h o view v c :
  vma_set_view_size h o view v = Ret c ->
  ggtt_view v = I915_GGTT_VIEW_NORMAL ->
  vma_addr c = vma_addr v /\ vm c = vm v
  /\ vma_key c = view_key (vm v) view.
Proof.
  unfold vma_set_view_size, vma_key. intros H Hn.
  destruct view as [[| rot | offset psize | rem]|]; repeat step H;
    inversion H; subst; clear H; simpl; rewrite ?Hn; auto.
Qed.

Lemma vma_init_fields h o vm_ view v c :
  vma_init h o vm_ view v = Ret c ->
  ggtt_view v = I915_GGTT_VIEW_NORMAL ->
  vma_addr c = vma_addr v /\ vma_key c = view_key (vm_addr vm_) view.
Proof.
  unfold vma_init. intros H Hn.
  apply vma_set_view_size_fields in H; [|exact Hn]. simpl in H. tauto.
Qed.

Lemma vma_ggtt_setup_fields h o vm_ v c :
  vma_ggtt_setup h o vm_ v = Ret (Some c) ->
  vma_addr c = vma_addr v /\ vma_key c = vma_key v.
Proof.
  unfold vma_ggtt_setup. intros H.
  destruct (U32_MAX <? size v); [discriminate|].
  destruct (_ || _); [discriminate|].
  repeat step H. inversion H; subst. split; reflexivity.
Qed.

Lemma err_vma_books v r :
  r_obj (err_vma v (i915_vm_get r)) = r_obj r
  /\ vm_refs (err_vma v (i915_vm_get r)) = vm_refs r
  /\ slab_next (err_vma v (i915_vm_get r)) = slab_next r.
Proof. unfold err_vma. simpl. repeat split. lia. Qed.

Lemma alloc_free_live e r v r1 c :
  i915_vma_alloc e r = (Some v, r1) -> vma_addr c = vma_addr v ->
  r_obj r1 = r_obj r /\ vm_refs r1 = vm_refs r
  /\ ggtt_view v = I915_GGTT_VIEW_NORMAL
  /\ incl (slab_live (err_vma c (i915_vm_get r1))) (slab_live r)
  /\ ~ In (vma_addr c) (slab_live (err_vma c (i915_vm_get r1))).
Proof.
  unfold i915_vma_alloc. destruct (kmem_cache_zalloc e); [|discriminate].
  intros H Hc. inversion H; subst. clear H. simpl. repeat split.
  - rewrite Hc. simpl. rewrite Z.eqb_refl. simpl.
    intros a Ha. apply filter_In in Ha. tauto.
  - rewrite Hc. simpl. rewrite Z.eqb_refl. simpl.
    intros Ha. apply filter_In in Ha. destruct Ha as [_ Ha].
    rewrite Z.eqb_refl in Ha. discriminate.
Qed.

Lemma vma_create_spec h e vm_ view r res r' :
  (forall t, inorder (rb_insert_color h t) = inorder t) ->
  ordered (vma_tree (r_obj r)) ->
  vma_create h e vm_ view r = Ret (res, r') ->
  ordered (vma_tree (r_obj r'))
  /\ (forall v, res = PTR v ->
        i915_vma_lookup (vma_tree (r_obj r')) (vm_addr vm_) view = Some v)
  /\ (forall w, i915_vma_lookup (vma_tree (r_obj r)) (vm_addr vm_) view = Some w ->
        (IS_ERR res = false -> res = PTR w)
        /\ r_obj r' = r_obj r
        /\ incl (slab_live r') (slab_live r)
        /\ vm_refs r' = vm_refs r).
Proof.
  intros Hreb Ho H. unfold vma_create in H. step H.
  destruct (i915_vma_alloc e r) as [[v0|] r1] eqn:Ea.
  2:{ unfold i915_vma_alloc in Ea. destruct (kmem_cache_zalloc e); [discriminate|].
      inversion Ea; subst. inversion H; subst. clear H Ea.
      split; [exact Ho|]. split; [intros v Hv; discriminate|].
      intros w Hw. repeat split; try discriminate. apply incl_refl. }
  step H. rename a into c.
  assert (forall c', vma_addr c' = vma_addr v0 ->
            res = ERR_PTR (- E2BIG) -> r' = err_vma c' (i915_vm_get r1) ->
            ordered (vma_tree (r_obj r'))
            /\ (forall v, res = PTR v ->
                  i915_vma_lookup (vma_tree (r_obj r')) (vm_addr vm_) view = Some v)
            /\ (forall w,
                  i915_vma_lookup (vma_tree (r_obj r)) (vm_addr vm_) view = Some w ->
                  (IS_ERR res = false -> res = PTR w)
                  /\ r_obj r' = r_obj r
                  /\ incl (slab_live r') (slab_live r)
                  /\ vm_refs r' = vm_refs r)) as Hbig.
  { intros c' Hc' -> ->.
    destruct (alloc_free_live _ _ _ _ c' Ea Hc') as (Hobj & Hrefs & _ & Hlive & _).
    destruct (err_vma_books c' r1) as (Hb1 & Hb2 & _).
    rewrite Hb1, Hb2, Hobj, Hrefs.
    split; [exact Ho|]. split; [intros v Hv; discriminate|].
    intros w Hw. repeat split; try discriminate. exact Hlive. }
  destruct (alloc_free_live _ _ _ _ v0 Ea eq_refl) as (Hobj & Hrefs & Hnormal & _).
  destruct (vma_init_fields _ _ _ _ _ _ Hstep Hnormal) as [Hcaddr Hckey].
  destruct (total vm_ <? size c).
  { inversion H; subst. apply (Hbig c); auto. }
  step H. step H. destruct a as [c'|].
  2:{ inversion H; subst. apply (Hbig c); auto. }
  assert (vma_addr c' = vma_addr v0 /\ vma_key c' = view_key (vm_addr vm_) view)
    as [Hc'addr Hc'key].
  { destruct (is_ggtt vm_).
    - destruct (vma_ggtt_setup_fields _ _ _ _ _ Hstep0) as [E1 E2].
      rewrite E1, E2. auto.
    - inversion Hstep0; subst. auto. }
  assert (i915_vma_compare c' (vm_addr vm_) view = 0) as Hcmp.
  { rewrite i915_vma_compare_memcmp, Hc'key. apply memcmp_refl. }
  simpl r_obj in H. rewrite Hobj in H.
  pose proof (rb_walk_link_spec (vma_tree (r_obj r)) (vm_addr vm_) view c' Ho) as Hwalk.
  destruct (rb_walk_link (vma_tree (r_obj r)) (vm_addr vm_) view c') as [pos|t] eqn:Ew.
  - (* the walk met an entry with the key: ours is disposed of *)
    inversion H; subst. clear H.
    destruct (alloc_free_live _ _ _ _ c' Ea Hc'addr) as (_ & _ & _ & Hlive & _).
    destruct (err_vma_books c' r1) as (Hb1 & Hb2 & _).
    rewrite Hb1, Hb2, Hobj, Hrefs.
    split; [exact Ho|]. split.
    + intros v Hv. inversion Hv; subst. exact Hwalk.
    + intros w Hw. rewrite Hw in Hwalk. inversion Hwalk; subst.
      repeat split; auto.
  - (* the node is linked and the tree rebalanced *)
    inversion H; subst. clear H. simpl.
    destruct (rb_walk_link_ordered _ _ _ _ _ Ho Hcmp Ew) as [Ho' Hin].
    assert (ordered (rb_insert_color h t)) as Ho''.
    { unfold ordered. rewrite Hreb. exact Ho'. }
    split; [exact Ho''|]. split.
    + intros v Hv. inversion Hv; subst.
      apply lookup_finds; [exact Ho''| rewrite Hreb; exact Hin | exact Hcmp].
    + intros w Hw. destruct Hwalk as [Hnone _]. rewrite Hw in Hnone. discriminate.
Qed.

(** C3. The VMA index of an object holds at most one VMA per (address
    space, view) key and i915_vma_instance returns the one it holds: when
    the tree is a search tree for i915_vma_compare, before the call and as
    the other threads leave it, and rebalancing keeps the in-order
    sequence, then after the call the tree has at most one entry for any
    key; a returned VMA is the entry the tree holds for the key; a key
    that was present is answered by its entry without any change; and a
    creation that finds an entry inserted meanwhile returns that entry,
    leaves tree and list as they were, and leaves neither its allocation
    nor its address-space reference behind. *)
Theorem i915_vma_instance_singleton h e vm_ view r res r' :
  (forall t, inorder (rb_insert_color h t) = inorder t) ->
  ordered (vma_tree (r_obj r)) ->
  ordered (vma_tree (r_obj (concurrent e r))) ->
  i915_vma_instance h e vm_ view r = Ret (res, r') ->
  (forall vm2 view2, (same_key_count vm2 view2 (vma_tree (r_obj r')) <= 1)%nat)
  /\ (forall v, res = PTR v ->
        i915_vma_lookup (vma_tree (r_obj r')) (vm_addr vm_) view = Some v)
  /\ (forall v, i915_vma_lookup (vma_tree (r_obj r)) (vm_addr vm_) view = Some v ->
        res = PTR v /\ r' = r)
  /\ (i915_vma_lookup (vma_tree (r_obj r)) (vm_addr vm_) view = None ->
      forall w,
        i915_vma_lookup (vma_tree (r_obj (concurrent e r))) (vm_addr vm_) view = Some w ->
        (IS_ERR res = false -> res = PTR w)
        /\ r_obj r' = r_obj (concurrent e r)
        /\ incl (slab_live r') (slab_live (concurrent e r))
        /\ vm_refs r' = vm_refs (concurrent e r)).
Proof.
  intros Hreb Ho Hoc H. unfold i915_vma_instance in H.
  step H. step H. step H. destruct a as [res0 r0]. step H.
  inversion H; subst. clear H.
  destruct (i915_vma_lookup (vma_tree (r_obj r)) (vm_addr vm_) view) as [v0|] eqn:El.
  - inversion Hstep; subst. clear Hstep.
    split; [intros; apply ordered_at_most_one; exact Ho|].
    split; [intros v Hv; inversion Hv; subst; exact El|].
    split; [intros v Hv; inversion Hv; auto | discriminate].
  - destruct (vma_create_spec _ _ _ _ _ _ _ Hreb Hoc Hstep) as (Ho' & Hres & Hrace).
    split; [intros; apply ordered_at_most_one; exact Ho'|].
    split; [exact Hres|].
    split; [discriminate|].
    intros _ w Hw. exact (Hrace w Hw).
Qed.

Lemma i915_vma_instance_singleton_witness :
  exists r',
    i915_vma_instance plain_helpers renv_racing ggtt None reg_empty
      = Ret (PTR vma_unbound, r')
    /\ r_obj r' = r_obj (concurrent renv_racing reg_empty)
    /\ (same_key_count (vm_addr ggtt) None (vma_tree (r_obj r')) <= 1)%nat.
Proof.
  exists (err_vma (zeroed_vma 2)
            (i915_vm_get (snd (i915_vma_alloc renv_racing
                                 (concurrent renv_racing reg_empty))))).
  assert (i915_vma_instance plain_helpers renv_racing ggtt None reg_empty
          = Ret (PTR vma_unbound,
                 err_vma (zeroed_vma 2)
                   (i915_vm_get (snd (i915_vma_alloc renv_racing
                                        (concurrent renv_racing reg_empty))))))
    as Hrun by (vm_compute; reflexivity).
  assert (forall t, inorder (rb_insert_color plain_helpers t) = inorder t) as Hreb
    by (intros t; reflexivity).
  assert (ordered (vma_tree (r_obj reg_empty))) as Ho
    by (unfold ordered; simpl; constructor).
  assert (ordered (vma_tree (r_obj (concurrent renv_racing reg_empty)))) as Hoc
    by (unfold ordered; simpl; repeat constructor).
  destruct (i915_vma_instance_singleton _ _ _ _ _ _ _ Hreb Ho Hoc Hrun)
    as (Hone & _ & _ & Hrace).
  split; [exact Hrun|]. split.
  - destruct (Hrace eq_refl vma_unbound eq_refl) as (_ & Hobj & _). exact Hobj.
  - apply Hone.
Defined.



(** ** The exits of i915_vma_pin_ww *)

Lemma delta_refl st : delta 0 0 0 0 st st.
Proof. constructor; lia || reflexivity. Qed.

Lemma delta_trans dp dq da dw dp' dq' da' dw' st st1 st2 :
  delta dp dq da dw st st1 -> delta dp' dq' da' dw' st1 st2 ->
  delta (dp + dp') (dq + dq') (da + da') (dw + dw') st st2.
Proof.
  intros [] []. constructor; try lia; congruence.
Qed.

Lemma delta_eq dp dq da dw dp' dq' da' dw' st st1 :
  delta dp dq da dw st st1 -> dp = dp' -> dq = dq' -> da = da' -> dw = dw' ->
  delta dp' dq' da' dw' st st1.
Proof. intros H -> -> -> ->. exact H. Qed.

Lemma same_mm_refl st : same_mm st st.
Proof. split; reflexivity. Qed.

Lemma same_mm_trans st st1 st2 : same_mm st st1 -> same_mm st1 st2 -> same_mm st st2.
Proof. intros [] []. split; congruence. Qed.

Lemma lor_can_fence_set f :
  Z.lor (Z.lor f I915_VMA_CAN_FENCE) I915_VMA_CAN_FENCE = Z.lor f I915_VMA_CAN_FENCE.
Proof. rewrite <- Z.lor_assoc, Z.lor_diag. reflexivity. Qed.

Lemma lor_can_fence_clear f :
  Z.lor (Z.land f (Z.lnot I915_VMA_CAN_FENCE)) I915_VMA_CAN_FENCE
  = Z.lor f I915_VMA_CAN_FENCE.
Proof.
  apply Z.bits_inj'. intros n Hn.
  rewrite !Z.lor_spec, Z.land_spec, Z.lnot_spec by exact Hn.
  destruct (Z.testbit f n), (Z.testbit I915_VMA_CAN_FENCE n); reflexivity.
Qed.

(** Flags that agree up to CAN_FENCE have the same bind bits and the same
    pin count. *)
Lemma can_fence_apart_bind f f' :
  Z.lor f' I915_VMA_CAN_FENCE = Z.lor f I915_VMA_CAN_FENCE ->
  Z.land f' I915_VMA_BIND_MASK = Z.land f I915_VMA_BIND_MASK.
Proof.
  intros H.
  assert (forall g, Z.land g I915_VMA_BIND_MASK
                    = Z.land (Z.lor g I915_VMA_CAN_FENCE) I915_VMA_BIND_MASK) as E.
  { intros g. rewrite Z.land_lor_distr_l.
    change (Z.land I915_VMA_CAN_FENCE I915_VMA_BIND_MASK) with 0.
    rewrite Z.lor_0_r. reflexivity. }
  rewrite (E f'), (E f), H. reflexivity.
Qed.

Lemma can_fence_apart_pin f f' :
  Z.lor f' I915_VMA_CAN_FENCE = Z.lor f I915_VMA_CAN_FENCE ->
  Z.land f' I915_VMA_PIN_MASK = Z.land f I915_VMA_PIN_MASK.
Proof.
  intros H.
  assert (forall g, Z.land g I915_VMA_PIN_MASK
                    = Z.land (Z.lor g I915_VMA_CAN_FENCE) I915_VMA_PIN_MASK) as E.
  { intros g. rewrite Z.land_lor_distr_l.
    change (Z.land I915_VMA_CAN_FENCE I915_VMA_PIN_MASK) with 0.
    rewrite Z.lor_0_r. reflexivity. }
  rewrite (E f'), (E f), H. reflexivity.
Qed.

Lemma list_del_incl a l : incl (list_del a l) l.
Proof. intros x Hx. apply filter_In in Hx. tauto. Qed.

Lemma list_del_absent a l : ~ In a l -> list_del a l = l.
Proof.
  unfold list_del. induction l as [|x l IH]; simpl; intros H; [reflexivity|].
  destruct (x =? a) eqn:E.
  - apply Z.eqb_eq in E. subst. exfalso. apply H. left. reflexivity.
  - simpl. f_equal. apply IH. intros Hin. apply H. right. exact Hin.
Qed.

Lemma list_del_snoc a l : list_del a (l ++ [a]) = list_del a l.
Proof.
  unfold list_del. rewrite filter_app. simpl. rewrite Z.eqb_refl. simpl.
  apply app_nil_r.
Qed.

Lemma remove_node_not_allocated st :
  drm_mm_node_allocated (drm_mm_remove_node st) = false.
Proof.
  unfold drm_mm_node_allocated, vma_node, drm_mm_remove_node. simpl.
  destruct (find (owns (vma st)) (filter (fun n => negb (owns (vma st) n)) (mm_nodes st)))
    as [n|] eqn:E; [|reflexivity].
  apply find_some in E. destruct E as [Hin Hown].
  apply filter_In in Hin. destruct Hin as [_ Hneg]. rewrite Hown in Hneg. discriminate.
Qed.

Lemma node_allocated_ext st st1 :
  vma_addr (vma st1) = vma_addr (vma st) -> mm_nodes st1 = mm_nodes st ->
  drm_mm_node_allocated st1 = drm_mm_node_allocated st.
Proof.
  unfold drm_mm_node_allocated, vma_node. intros Ha ->.
  assert (forall l, find (owns (vma st1)) l = find (owns (vma st)) l) as ->; [|reflexivity].
  induction l as [|n l IH]; simpl; [reflexivity|].
  unfold owns at 1 3. rewrite Ha. rewrite IH. reflexivity.
Qed.

Lemma try_qad_pin_false f st st1 :
  try_qad_pin f st = Ret (false, st1) -> st1 = st.
Proof.
  unfold try_qad_pin. intros H.
  destruct (test_bits f PIN_VALIDATE); [inversion H; reflexivity|].
  destruct (test_bits _ (Z.lnot _)); [inversion H; reflexivity|].
  destruct (test_bits _ (Z.lor _ _)); [inversion H; reflexivity|].
  step H. discriminate.
Qed.

Lemma i915_vma_get_pages_effect e st err st1 :
  i915_vma_get_pages e st = Ret (err, st1) ->
  same_mm st st1
  /\ (err <> 0 -> delta 0 0 0 0 st st1)
  /\ (err = 0 ->
      delta 1 (if pages_count (vma st) =? 0 then 1 else 0) 0 0 st st1).
Proof.
  unfold i915_vma_get_pages. intros H.
  destruct (pages_count (vma st) =? 0) eqn:Ep; simpl in H.
  - destruct (i915_gem_object_pin_pages e =? 0) eqn:Epin; simpl in H.
    + step H. destruct a as [err1 st2]. unfold __i915_vma_get_pages in Hstep.
      step Hstep. apply Z.eqb_eq in Ep.
      assert (same_mm st st2
              /\ (err1 <> 0 -> delta 0 1 0 0 st st2)
              /\ (err1 = 0 -> delta 0 1 0 0 st st2)) as (Hmm2 & Hne2 & He2).
      { destruct (match ggtt_view _ with I915_GGTT_VIEW_NORMAL => _ | _ => _ end);
          inversion Hstep; subst; clear Hstep H;
          (split; [split; reflexivity|]);
          split; intros _; constructor; simpl; try reflexivity; lia. }
      destruct (err1 =? 0) eqn:Ee; simpl in H; inversion H; subst; clear H.
      * apply Z.eqb_eq in Ee. destruct (He2 Ee) as [].
        split; [destruct Hmm2; split; simpl; assumption|]. split; [intros; lia|].
        intros _. constructor; simpl; try assumption; lia.
      * apply Z.eqb_neq in Ee. destruct (Hne2 Ee) as [].
        split; [destruct Hmm2; split; simpl; assumption|]. split; [|intros; lia].
        intros _. constructor; simpl; try assumption; lia.
    + inversion H; subst. apply Z.eqb_neq in Epin.
      split; [split; reflexivity|]. split; [intros; apply delta_refl | intros; lia].
  - inversion H; subst.
    split; [split; reflexivity|]. split; [intros; lia|].
    intros _. constructor; simpl; try reflexivity; lia.
Qed.

Lemma i915_vma_put_pages_effect st st1 :
  i915_vma_put_pages st = Ret st1 ->
  same_mm st st1
  /\ delta (-1) (if pages_count (vma st) =? 1 then -1 else 0) 0 0 st st1.
Proof.
  unfold i915_vma_put_pages. intros H.
  destruct (pages_count (vma st) =? 1) eqn:Ep; simpl in H.
  - unfold __vma_put_pages in H. step H. apply Z.eqb_eq in Ep.
    rewrite Ep in H. simpl in H. inversion H; subst.
    split; [split; reflexivity|]. constructor; simpl; try reflexivity; lia.
  - inversion H; subst.
    split; [split; reflexivity|]. constructor; simpl; try reflexivity; lia.
Qed.

Lemma find_owns_ext v v1 l :
  vma_addr v1 = vma_addr v -> find (owns v1) l = find (owns v) l.
Proof.
  intros Ha. induction l as [|n l IH]; simpl; [reflexivity|].
  unfold owns at 1 3. rewrite Ha, IH. reflexivity.
Qed.

(** What i915_vma_insert does to the address space. *)
Lemma i915_vma_insert_effect e vm_ size_ alignment flags_ st err st1 :
  i915_vma_insert e vm_ size_ alignment flags_ st = Ret (err, st1) ->
  delta 0 0 0 0 st st1
  /\ drm_mm_node_allocated st = false
  /\ (err = 0 -> bound_list st1 = bound_list st ++ [vma_addr (vma st)])
  /\ (err <> 0 ->
      bound_list st1 = bound_list st
      /\ (mm_nodes st1 = mm_nodes st
          \/ (gtt_ret e <> 0 /\ mm_nodes st1 = gtt_nodes e))).
Proof.
  intros H. unfold i915_vma_insert in H. cbv zeta in H.
  step H. step H. rename Hbug0 into Hfree. repeat step H.
  match type of H with (if ?c then _ else _) = _ => destruct c end.
  { apply Ret_pair_inv in H. destruct H as [<- <-].
    split; [apply delta_refl|]. split; [exact Hfree|].
    split; [intros He; vm_compute in He; discriminate|].
    intros _. split; [reflexivity | left; reflexivity]. }
  step H. destruct a as [ret st2].
  assert ((st2 = st /\ ret <> 0)
          \/ (st2 = set_nodes st (gtt_nodes e) /\ ret = gtt_ret e)) as Hplaced.
  { clear H.
    match type of Hstep with (if ?c then _ else _) = _ => destruct c end.
    - match type of Hstep with (if ?c then _ else _) = _ => destruct c end;
        apply Ret_pair_inv in Hstep; destruct Hstep as [<- <-];
        [left; split; [reflexivity | vm_compute; discriminate]
        | right; split; reflexivity].
    - step Hstep.
      match type of Hstep with (if ?c then _ else _) = _ => destruct c eqn:Eg end.
      + apply Ret_pair_inv in Hstep; destruct Hstep as [<- <-].
        right; split; reflexivity.
      + match type of Hstep with
        | match ?n with _ => _ end = _ => destruct n; [|discriminate]
        end.
        repeat step Hstep.
        apply Ret_pair_inv in Hstep; destruct Hstep as [<- <-].
        apply negb_false_iff, Z.eqb_eq in Eg.
        right; split; [reflexivity | symmetry; exact Eg]. }
  destruct (ret =? 0) eqn:Hret; simpl in H.
  - apply Z.eqb_eq in Hret. repeat step H.
    apply Ret_pair_inv in H. destruct H as [<- <-].
    destruct Hplaced as [[-> Hne]|[-> _]]; [lia|].
    split; [constructor; simpl; try reflexivity; lia|].
    split; [exact Hfree|].
    split; [intros _; reflexivity | intros Hne; lia].
  - apply Z.eqb_neq in Hret.
    apply Ret_pair_inv in H. destruct H as [<- <-].
    split; [destruct Hplaced as [[-> _]|[-> _]]; constructor; simpl; try reflexivity; lia|].
    split; [exact Hfree|].
    split; [intros He; lia|].
    intros _. destruct Hplaced as [[-> _]|[-> Hg]].
    + split; [reflexivity | left; reflexivity].
    + split; [reflexivity | right; split; [congruence | reflexivity]].
Qed.

Lemma set_map_and_fenceable_effect vm_ st st1 :
  __i915_vma_set_map_and_fenceable vm_ st = Ret st1 ->
  same_mm st st1 /\ delta 0 0 0 0 st st1.
Proof.
  unfold __i915_vma_set_map_and_fenceable. intros H. cbv zeta in H.
  repeat step H.
  destruct (vma_node st); [|discriminate].
  match type of H with (if ?c then _ else _) = _ => destruct c end;
    inversion H; subst; clear H;
    (split; [split; reflexivity|]);
    constructor; simpl; try reflexivity; try lia.
  - apply lor_can_fence_set.
  - apply lor_can_fence_clear.
Qed.

(** A bind that fails has not touched the flags. *)
Lemma i915_vma_bind_effect e vm_ flags_ work vma_res st err st1 :
  i915_vma_bind e vm_ flags_ work vma_res st = Ret (err, st1) ->
  err <> 0 ->
  same_mm st st1 /\ delta 0 0 0 0 st st1.
Proof.
  unfold i915_vma_bind. intros H Herr. cbv zeta in H.
  destruct (vma_node st); [|discriminate].
  step H.
  assert (forall s, Ret (err, st1) = Ret (err, s) ->
            vma_addr (vma s) = vma_addr (vma st) -> flags (vma s) = flags (vma st) ->
            pages_count (vma s) = pages_count (vma st) ->
            mm_nodes s = mm_nodes st -> bound_list s = bound_list st ->
            obj_pages_pin_count s = obj_pages_pin_count st ->
            active_count s = active_count st -> wakerefs s = wakerefs st ->
            same_mm st st1 /\ delta 0 0 0 0 st st1) as Hdone.
  { intros s Hs. apply Ret_pair_inv in Hs. destruct Hs as [_ <-]. intros.
    split; [split; assumption|]. constructor; try lia; congruence. }
  match type of H with (if ?c then _ else _) = _ => destruct c end.
  { apply (Hdone st); congruence. }
  match type of H with (if ?c then _ else _) = _ => destruct c end.
  { apply (Hdone st); congruence. }
  match type of H with (if ?c then _ else _) = _ => destruct c end.
  { inversion H; subst. lia. }
  step H.
  match type of H with (if ?c then _ else _) = _ => destruct c end.
  { apply (Hdone st); congruence. }
  step H. destruct a as [ret st2].
  destruct (ret =? 0) eqn:Hret; simpl in H.
  { inversion H; subst. lia. }
  apply Ret_pair_inv in H. destruct H as [<- <-].
  clear Hdone.
  assert (forall s, vma_addr (vma s) = vma_addr (vma st) ->
            flags (vma s) = flags (vma st) ->
            pages_count (vma s) = pages_count (vma st) ->
            mm_nodes s = mm_nodes st -> bound_list s = bound_list st ->
            obj_pages_pin_count s = obj_pages_pin_count st ->
            active_count s = active_count st -> wakerefs s = wakerefs st ->
            has_obj s = has_obj st ->
            (if work && test_bits
                  (Z.land (Z.land flags_ (Z.lor I915_VMA_GLOBAL_BIND I915_VMA_LOCAL_BIND))
                     (Z.lnot (Z.land (flags (vma st))
                                (Z.lor I915_VMA_GLOBAL_BIND I915_VMA_LOCAL_BIND))))
                  (bind_async_flags vm_)
             then Ret (0, s)
             else if has_obj s
                  then if negb (i915_gem_object_wait_moving_fence e =? 0)
                       then Ret (i915_gem_object_wait_moving_fence e,
                                 set_vma s (set_resource (vma s) None))
                       else Ret (0, s)
                  else Ret (0, s)) = Ret (ret, st2) ->
            same_mm st st2 /\ delta 0 0 0 0 st st2) as Hsync.
  { intros s ? ? ? ? ? ? ? ? ? Hs.
    assert (vma_addr (vma st2) = vma_addr (vma s) /\ flags (vma st2) = flags (vma s)
            /\ pages_count (vma st2) = pages_count (vma s)
            /\ mm_nodes st2 = mm_nodes s /\ bound_list st2 = bound_list s
            /\ obj_pages_pin_count st2 = obj_pages_pin_count s
            /\ active_count st2 = active_count s /\ wakerefs st2 = wakerefs s)
      as (? & ? & ? & ? & ? & ? & ? & ?).
    { repeat match type of Hs with (if ?c then _ else _) = _ => destruct c end;
        apply Ret_pair_inv in Hs; destruct Hs as [_ <-]; repeat split. }
    split; [split; congruence|]. constructor; try lia; congruence. }
  destruct (resource (vma st)); [|destruct vma_res];
    (eapply Hsync; [ | | | | | | | | | exact Hstep]); reflexivity.
Qed.

Lemma pin_err_rpm_effect wakeref err st err' st' :
  pin_err_rpm wakeref err st = Ret (err', st') ->
  err' = err /\ same_mm st st'
  /\ delta (-1) (if pages_count (vma st) =? 1 then -1 else 0) 0
       (if wakeref then -1 else 0) st st'.
Proof.
  unfold pin_err_rpm. intros H. cbv zeta in H. step H.
  apply Ret_pair_inv in H. destruct H as [<- <-].
  apply i915_vma_put_pages_effect in Hstep. destruct Hstep as [Hmm Hd].
  split; [reflexivity|].
  destruct wakeref; simpl in *.
  - split; [exact Hmm|]. destruct Hd. constructor; simpl in *; try assumption; lia.
  - split; [exact Hmm | exact Hd].
Qed.

Lemma pin_err_active_effect wakeref err st err' st' :
  pin_err_active wakeref err st = Ret (err', st') ->
  err' = err /\ same_mm st st'
  /\ delta (-1) (if pages_count (vma st) =? 1 then -1 else 0) (-1)
       (if wakeref then -1 else 0) st st'.
Proof.
  unfold pin_err_active. intros H.
  apply pin_err_rpm_effect in H. destruct H as (He & Hmm & Hd).
  split; [exact He|]. split; [exact Hmm|].
  destruct Hd. constructor; simpl in *; try assumption; lia.
Qed.

Lemma pin_err_remove_effect wakeref err st err' st' :
  pin_err_remove wakeref err st = Ret (err', st') ->
  err' = err
  /\ delta (-1) (if pages_count (vma st) =? 1 then -1 else 0) (-1)
       (if wakeref then -1 else 0) st st'
  /\ (if i915_vma_is_bound (vma st) I915_VMA_BIND_MASK then same_mm st st'
      else drm_mm_node_allocated st' = false
           /\ bound_list st' = list_del (vma_addr (vma st)) (bound_list st)).
Proof.
  unfold pin_err_remove. intros H. step H.
  apply pin_err_active_effect in H. destruct H as (He & Hmm & Hd).
  split; [exact He|].
  destruct (i915_vma_is_bound (vma st) I915_VMA_BIND_MASK); simpl in Hstep.
  - inversion Hstep; subst. split; [exact Hd | exact Hmm].
  - step Hstep. inversion Hstep; subst; clear Hstep.
    unfold i915_vma_detach in Hstep0. repeat step Hstep0.
    inversion Hstep0; subst; clear Hstep0.
    split; [destruct Hd; constructor; simpl in *; try assumption; lia|].
    destruct Hmm as [Hn Hb]. destruct Hd as [Ha _ _ _ _ _]. split.
    + rewrite <- (remove_node_not_allocated
                    (set_bound_list st (list_del (vma_addr (vma st)) (bound_list st)))).
      apply node_allocated_ext; assumption.
    + rewrite Hb. reflexivity.
Qed.

Lemma is_bound_can_fence_apart v v1 :
  Z.lor (flags v1) I915_VMA_CAN_FENCE = Z.lor (flags v) I915_VMA_CAN_FENCE ->
  i915_vma_is_bound v1 I915_VMA_BIND_MASK = i915_vma_is_bound v I915_VMA_BIND_MASK.
Proof.
  intros H. unfold i915_vma_is_bound, test_bits.
  rewrite (can_fence_apart_bind _ _ H). reflexivity.
Qed.

(** The error exits of the locked part of the pin give back what the pin
    took so far: the reference on the pages, the one on vma->active, the
    wakeref, and the node with its place on vm->bound_list. *)
Lemma pin_locked_error e vm_ size_ alignment flags_ work wakeref st err st' :
  (gtt_ret e <> 0 -> find (owns (vma st)) (gtt_nodes e) = None) ->
  pin_locked e vm_ size_ alignment flags_ work wakeref st = Ret (err, st') ->
  err <> 0 ->
  delta (-1) (if pages_count (vma st) =? 1 then -1 else 0) 0
    (if wakeref then -1 else 0) st st'
  /\ drm_mm_node_allocated st' = drm_mm_node_allocated st
  /\ incl (bound_list st') (bound_list st)
  /\ (~ In (vma_addr (vma st)) (bound_list st) -> bound_list st' = bound_list st).
Proof.
  intros Hgtt H Herr. unfold pin_locked in H. cbv zeta in H.
  assert (forall w c, pin_err_rpm w c st = Ret (err, st') -> w = wakeref ->
            delta (-1) (if pages_count (vma st) =? 1 then -1 else 0) 0
              (if wakeref then -1 else 0) st st'
            /\ drm_mm_node_allocated st' = drm_mm_node_allocated st
            /\ incl (bound_list st') (bound_list st)
            /\ (~ In (vma_addr (vma st)) (bound_list st) ->
                bound_list st' = bound_list st)) as Hrpm.
  { intros w c Hr ->. apply pin_err_rpm_effect in Hr.
    destruct Hr as (_ & [Hn Hb] & Hd). split; [exact Hd|].
    split; [apply node_allocated_ext; [apply Hd | exact Hn]|].
    rewrite Hb. split; [apply incl_refl | reflexivity]. }
  destruct (i915_vma_is_closed (vma st)); [eapply Hrpm; eauto|].
  destruct (test_bits (flags (vma st)) I915_VMA_ERROR); [eapply Hrpm; eauto|].
  match type of H with (if ?c then _ else _) = _ => destruct c end;
    [eapply Hrpm; eauto|].
  match type of H with (if ?c then _ else _) = _ => destruct c end.
  { step H. apply pin_err_rpm_effect in H. destruct H as [H _]. congruence. }
  match type of H with (if ?c then _ else _) = _ => destruct c end;
    [eapply Hrpm; eauto|].
  clear Hrpm. step H. destruct a as [err1 st1].
  assert (delta 0 0 1 0 st (active_acquired st)) as Hacq
    by (constructor; simpl; try reflexivity; lia).
  destruct (test_bits (flags (vma st)) I915_VMA_BIND_MASK) eqn:Hbound; simpl in Hstep.
  - (* bound already: no node is inserted, a failing bind removes none *)
    inversion Hstep; subst; clear Hstep. simpl in H.
    repeat step H. destruct a as [err2 st2].
    destruct (err2 =? 0) eqn:E2; simpl in H.
    { repeat step H. apply pin_err_remove_effect in H.
      destruct H as [H _]. congruence. }
    apply Z.eqb_neq in E2.
    destruct (i915_vma_bind_effect _ _ _ _ _ _ _ _ Hstep E2) as [[Hn2 Hb2] Hd2].
    apply pin_err_remove_effect in H. destruct H as (_ & Hd & Hrem).
    assert (i915_vma_is_bound (vma st2) I915_VMA_BIND_MASK = true) as Hb.
    { rewrite (is_bound_can_fence_apart (vma st) (vma st2)); [exact Hbound|].
      rewrite (d_flags _ _ _ _ _ _ Hd2). reflexivity. }
    rewrite Hb in Hrem. destruct Hrem as [Hn Hbl].
    pose proof (delta_trans _ _ _ _ _ _ _ _ _ _ _ Hacq
                  (delta_trans _ _ _ _ _ _ _ _ _ _ _ Hd2 Hd)) as Hall.
    assert (pages_count (vma st2) = pages_count (vma st)) as Hpc
      by (rewrite (d_pages _ _ _ _ _ _ Hd2); simpl; lia).
    rewrite Hpc in Hall.
    assert (mm_nodes st' = mm_nodes st) as Hnodes by (rewrite Hn, Hn2; reflexivity).
    assert (bound_list st' = bound_list st) as Hlist by (rewrite Hbl, Hb2; reflexivity).
    split; [eapply delta_eq; [exact Hall| | | |]; lia|].
    split; [apply node_allocated_ext; [apply Hall | exact Hnodes]|].
    rewrite Hlist. split; [apply incl_refl | reflexivity].
  - (* unbound: the node is inserted first *)
    step Hstep. destruct a as [err0 st0].
    destruct (i915_vma_insert_effect _ _ _ _ _ _ _ _ Hstep0) as (Hd0 & Hfree & Hok & Hko).
    simpl in Hfree. change (drm_mm_node_allocated (active_acquired st))
      with (drm_mm_node_allocated st) in Hfree.
    destruct (err0 =? 0) eqn:E0; simpl in Hstep.
    + apply Z.eqb_eq in E0. specialize (Hok E0). simpl in Hok. clear Hko.
      assert (err1 = 0 /\ delta 0 0 1 0 st st1 /\ same_mm st0 st1)
        as (-> & Hd1 & [Hn1 Hb1]).
      { clear H. destruct (is_ggtt vm_).
        - step Hstep. inversion Hstep; subst; clear Hstep.
          apply set_map_and_fenceable_effect in Hstep1. destruct Hstep1 as [Hmm1 Hd1].
          split; [reflexivity|]. split; [|exact Hmm1].
          eapply delta_eq;
            [exact (delta_trans _ _ _ _ _ _ _ _ _ _ _ Hacq
                      (delta_trans _ _ _ _ _ _ _ _ _ _ _ Hd0 Hd1))| | | |]; lia.
        - inversion Hstep; subst; clear Hstep.
          split; [reflexivity|]. split; [|apply same_mm_refl].
          eapply delta_eq;
            [exact (delta_trans _ _ _ _ _ _ _ _ _ _ _ Hacq Hd0)| | | |]; lia. }
      simpl in H. repeat step H. destruct a as [err2 st2].
      destruct (err2 =? 0) eqn:E2; simpl in H.
      { repeat step H. apply pin_err_remove_effect in H.
        destruct H as [H _]. congruence. }
      apply Z.eqb_neq in E2.
      destruct (i915_vma_bind_effect _ _ _ _ _ _ _ _ Hstep1 E2) as [[Hn2 Hb2] Hd2].
      apply pin_err_remove_effect in H. destruct H as (_ & Hd & Hrem).
      pose proof (delta_trans _ _ _ _ _ _ _ _ _ _ _ Hd1 Hd2) as Hd12.
      assert (i915_vma_is_bound (vma st2) I915_VMA_BIND_MASK = false) as Hb.
      { rewrite (is_bound_can_fence_apart (vma st) (vma st2)); [exact Hbound|].
        apply Hd12. }
      rewrite Hb in Hrem. destruct Hrem as [Hgone Hbl].
      pose proof (delta_trans _ _ _ _ _ _ _ _ _ _ _ Hd12 Hd) as Hall.
      assert (pages_count (vma st2) = pages_count (vma st)) as Hpc
        by (rewrite (d_pages _ _ _ _ _ _ Hd12); lia).
      rewrite Hpc in Hall.
      assert (bound_list st' = list_del (vma_addr (vma st)) (bound_list st)) as Hlist.
      { rewrite Hbl, Hb2, Hb1, Hok, (d_addr _ _ _ _ _ _ Hd12). apply list_del_snoc. }
      split; [eapply delta_eq; [exact Hall| | | |]; lia|].
      split; [rewrite Hgone, Hfree; reflexivity|].
      rewrite Hlist. split; [apply list_del_incl | apply list_del_absent].
    + apply Z.eqb_neq in E0. destruct (Hko E0) as [Hbl0 Hn0]. clear Hok Hko.
      inversion Hstep; subst; clear Hstep.
      assert ((err =? 0) = false) as E by (apply Z.eqb_neq; exact Herr).
      assert ((err1 =? 0) = false) as E1 by (apply Z.eqb_neq; exact E0).
      rewrite E1 in H. simpl in H.
      apply pin_err_active_effect in H. destruct H as (_ & [Hn Hb] & Hd).
      pose proof (delta_trans _ _ _ _ _ _ _ _ _ _ _ Hacq
                    (delta_trans _ _ _ _ _ _ _ _ _ _ _ Hd0 Hd)) as Hall.
      assert (pages_count (vma st1) = pages_count (vma st)) as Hpc
        by (rewrite (d_pages _ _ _ _ _ _ Hd0); simpl; lia).
      rewrite Hpc in Hall.
      split; [eapply delta_eq; [exact Hall| | | |]; lia|].
      split.
      * rewrite Hfree. unfold drm_mm_node_allocated, vma_node. rewrite Hn.
        rewrite (find_owns_ext (vma st) (vma st')) by apply Hall.
        destruct Hn0 as [Hn0|[Hg Hn0]]; rewrite Hn0.
        -- simpl. unfold drm_mm_node_allocated, vma_node in Hfree.
           destruct (find (owns (vma st)) (mm_nodes st)); [discriminate|reflexivity].
        -- rewrite (Hgtt Hg). reflexivity.
      * rewrite Hb, Hbl0. simpl. split; [apply incl_refl | reflexivity].
Qed.

(** ** A pin that fails *)


(** A bound VMA that fails to acquire a second binding, on the wait for
    the moving fence of its object, keeps its node and its bind bit and
    loses its binding resource. *)
Example failed_rebind_clears_resource :
  exists st',
    i915_vma_pin_ww benv_interrupted_bind ggtt 0 0 PIN_USER st_pinned
      = Ret (- ERESTARTSYS, st')
    /\ i915_vma_is_bound (vma st') I915_VMA_GLOBAL_BIND = true
    /\ drm_mm_node_allocated st' = true
    /\ resource (vma st_pinned) <> None
    /\ resource (vma st') = None.
Proof.
  eexists. split; [vm_compute; reflexivity|].
  repeat split. discriminate.
Qed.




End VmaProofs.



(* ================================================================== *)
(** * Part 6: further properties of the VMA registry *)
(* ================================================================== *)
Module RegistryProofs.
Import Vma VmaScenarios RegistryScenarios VmaProofs.

(** What a vma_create that returns has done: nothing to the object, or it
    has linked one fresh VMA that carries the key of the request. *)
Lemma vma_create_cases h e vm_ view r res r' :
  (forall t, inorder (rb_insert_color h t) = inorder t) ->
  ordered (vma_tree (r_obj r)) ->
  vma_create h e vm_ view r = Ret (res, r') ->
  (r_obj r' = r_obj r /\ vm_refs r' = vm_refs r
   /\ incl (slab_live r') (slab_live r)
   /\ forall c, res = PTR c -> In c (inorder (vma_tree (r_obj r))))
  \/ (exists c l1 l2,
        res = PTR c
        /\ vma_key c = view_key (vm_addr vm_) view
        /\ inorder (vma_tree (r_obj r)) = l1 ++ l2
        /\ inorder (vma_tree (r_obj r')) = l1 ++ c :: l2
        /\ vma_list (r_obj r')
           = (if i915_vma_is_ggtt c then c :: vma_list (r_obj r)
              else vma_list (r_obj r) ++ [c])
        /\ vm_refs r' = vm_refs r + 1
        /\ slab_live r' = vma_addr c :: slab_live r
        /\ vma_addr c = slab_next r
        /\ size c <= total vm_
        /\ IS_ALIGNED (size c) I915_GTT_PAGE_SIZE = true
        /\ (if is_ggtt vm_
            then flags c = I915_VMA_GGTT
                 /\ size c <= U32_MAX
                 /\ size c <= fence_size c <= total vm_
                 /\ is_power_of_2 (fence_alignment c) = true
            else flags c = 0)
        /\ pages_count c = 0 /\ resource c = None /\ closed c = false).
Proof.
  intros Hreb Ho H. unfold vma_create in H. step H.
  destruct (i915_vma_alloc e r) as [[v0|] r1] eqn:Ea.
  2:{ unfold i915_vma_alloc in Ea. destruct (kmem_cache_zalloc e); [discriminate|].
      inversion Ea; subst. inversion H; subst. left.
      repeat split; try apply incl_refl. intros c Hc; discriminate. }
  step H. rename a into c.
  destruct (alloc_free_live _ _ _ _ v0 Ea eq_refl) as (Hobj & Hrefs & Hnormal & _).
  destruct (vma_init_fields _ _ _ _ _ _ Hstep Hnormal) as [Hcaddr Hckey].
  assert (forall c', vma_addr c' = vma_addr v0 ->
            r' = err_vma c' (i915_vm_get r1) ->
            r_obj r' = r_obj r /\ vm_refs r' = vm_refs r
            /\ incl (slab_live r') (slab_live r)) as Hundo.
  { intros c' Hc' ->.
    destruct (alloc_free_live _ _ _ _ c' Ea Hc') as (_ & _ & _ & Hlive & _).
    destruct (err_vma_books c' r1) as (Hb1 & Hb2 & _).
    rewrite Hb1, Hb2, Hobj, Hrefs. repeat split. exact Hlive. }
  destruct (total vm_ <? size c) eqn:Etot.
  { inversion H; subst. left.
    destruct (Hundo c Hcaddr eq_refl) as (U1 & U2 & U3).
    repeat split; try assumption. intros ? Hc; discriminate. }
  apply Z.ltb_ge in Etot.
  step H. rename Hbug0 into Halign. apply negb_false_iff in Halign.
  step H. destruct a as [c'|].
  2:{ inversion H; subst. left.
      destruct (Hundo c Hcaddr eq_refl) as (U1 & U2 & U3).
      repeat split; try assumption. intros ? Hc; discriminate. }
  assert (vma_addr c' = vma_addr v0 /\ vma_key c' = view_key (vm_addr vm_) view)
    as [Hc'addr Hc'key].
  { destruct (is_ggtt vm_).
    - destruct (vma_ggtt_setup_fields _ _ _ _ _ Hstep0) as [E1 E2].
      rewrite E1, E2. auto.
    - inversion Hstep0; subst. auto. }
  assert (i915_vma_compare c' (vm_addr vm_) view = 0) as Hcmp.
  { rewrite i915_vma_compare_memcmp, Hc'key. apply memcmp_refl. }
  simpl r_obj in H. rewrite Hobj in H.
  pose proof (rb_walk_link_spec (vma_tree (r_obj r)) (vm_addr vm_) view c' Ho) as Hwalk.
  destruct (rb_walk_link (vma_tree (r_obj r)) (vm_addr vm_) view c') as [pos|t] eqn:Ew.
  - inversion H; subst. clear H. left.
    destruct (Hundo c' Hc'addr eq_refl) as (U1 & U2 & U3).
    repeat split; try assumption.
    intros w Hw. inversion Hw; subst. apply (lookup_some _ _ _ _ Hwalk).
  - inversion H; subst. clear H. right.
    destruct Hwalk as (_ & l1 & l2 & H1 & H2 & _).
    exists c', l1, l2. simpl. rewrite Hreb.
    assert (slab_live r1 = vma_addr c' :: slab_live r /\ vm_refs r1 = vm_refs r
            /\ vma_addr c' = slab_next r /\ flags v0 = 0 /\ pages_count v0 = 0
            /\ Vma.resource v0 = None) as (Hlive & Hrefs1 & Hnext & Hf0 & Hp0 & Hr0).
    { unfold i915_vma_alloc in Ea. destruct (kmem_cache_zalloc e); [|discriminate].
      inversion Ea; subst. rewrite Hc'addr. simpl. repeat split. }
    assert (flags c = 0 /\ pages_count c = 0 /\ Vma.resource c = None
            /\ closed c = false) as (Hfc & Hpc & Hrc & Hcc).
    { clear - Hstep Hf0 Hp0 Hr0. unfold vma_init, vma_set_view_size in Hstep.
      destruct view as [[| rot | offset psize | rem]|]; repeat step Hstep;
        inversion Hstep; subst; simpl; auto. }
    rewrite Hlive, Hrefs1.
    repeat (split; [first [reflexivity | assumption]|]).
    destruct (is_ggtt vm_) eqn:Eg.
    + unfold vma_ggtt_setup in Hstep0.
      destruct (U32_MAX <? size c) eqn:E32; [discriminate|].
      destruct (_ || _) eqn:Efs; [discriminate|].
      repeat step Hstep0. inversion Hstep0; subst; clear Hstep0. simpl.
      apply Z.ltb_ge in E32. apply orb_false_iff in Efs. destruct Efs as [F1 F2].
      apply Z.ltb_ge in F1. apply Z.ltb_ge in F2.
      rewrite Hfc. simpl.
      repeat split; try assumption.
      match goal with Hq : negb (is_power_of_2 _) = false |- _ =>
        apply negb_false_iff in Hq; exact Hq end.
    + inversion Hstep0; subst. repeat split; assumption.
Qed.

Lemma lookup_same_entries t1 t2 vm_ view :
  ordered t1 -> ordered t2 ->
  (forall w, i915_vma_compare w vm_ view = 0 ->
             (In w (inorder t1) <-> In w (inorder t2))) ->
  i915_vma_lookup t1 vm_ view = i915_vma_lookup t2 vm_ view.
Proof.
  intros O1 O2 Hsame.
  destruct (i915_vma_lookup t1 vm_ view) as [w|] eqn:E1.
  - destruct (lookup_some _ _ _ _ E1) as [Hin Hc].
    symmetry. apply lookup_finds; [exact O2 | apply Hsame; assumption | exact Hc].
  - destruct (i915_vma_lookup t2 vm_ view) as [w|] eqn:E2; [|reflexivity].
    destruct (lookup_some _ _ _ _ E2) as [Hin Hc].
    exfalso. apply (lookup_none t1 vm_ view O1 E1 w); [|exact Hc].
    apply Hsame; assumption.
Qed.

(** X1. Creating a VMA leaves the entries of all other keys where they
    were: after vma_create, whatever it returns, a lookup under a key other
    than the one of the request finds what it found before. *)
Theorem vma_create_keeps_other_keys h e vm_ view r res r' vm2 view2 :
  (forall t, inorder (rb_insert_color h t) = inorder t) ->
  ordered (vma_tree (r_obj r)) ->
  vma_create h e vm_ view r = Ret (res, r') ->
  view_key vm2 view2 <> view_key (vm_addr vm_) view ->
  i915_vma_lookup (vma_tree (r_obj r')) vm2 view2
  = i915_vma_lookup (vma_tree (r_obj r)) vm2 view2.
Proof.
  intros Hreb Ho H Hkey.
  destruct (vma_create_spec _ _ _ _ _ _ _ Hreb Ho H) as (Ho' & _ & _).
  destruct (vma_create_cases _ _ _ _ _ _ _ Hreb Ho H)
    as [(Hobj & _)|(c & l1 & l2 & _ & Hck & H1 & H2 & _)].
  - rewrite Hobj. reflexivity.
  - apply lookup_same_entries; [exact Ho' | exact Ho |].
    intros w Hw. rewrite H1, H2. rewrite !in_app_iff. simpl.
    split; [|tauto].
    intros [Hin|[<-|Hin]]; [tauto | | tauto].
    exfalso. apply Hkey.
    rewrite i915_vma_compare_memcmp, Hck in Hw. apply memcmp_eq in Hw.
    symmetry. exact Hw.
Qed.

Lemma vma_create_keeps_other_keys_witness :
  exists r',
    vma_create plain_helpers renv_quiet ppgtt None reg_one
      = Ret (PTR {| vma_addr := 2; vm := 3000; ggtt_view := I915_GGTT_VIEW_NORMAL;
                    size := 4096; fence_size := 0; fence_alignment := 0;
                    display_alignment := 4096; flags := 0; pages_count := 0;
                    pages := None; page_sizes_sg := 0; resource := None;
                    iomap := None; fence := None; closed := false |}, r')
    /\ i915_vma_lookup (vma_tree (r_obj r')) (vm_addr ggtt) None = Some vma_unbound.
Proof.
  eexists. split; [vm_compute; reflexivity|].
  erewrite vma_create_keeps_other_keys
    with (h := plain_helpers) (e := renv_quiet) (vm_ := ppgtt) (view := None)
         (r := reg_one).
  - reflexivity.
  - intros t. reflexivity.
  - unfold ordered. simpl. repeat constructor.
  - vm_compute. reflexivity.
  - vm_compute. discriminate.
Defined.

Lemma ggtt_first_snoc l c :
  ggtt_first l = true -> i915_vma_is_ggtt c = false -> ggtt_first (l ++ [c]) = true.
Proof.
  intros Hl Hc. induction l as [|v l IH]; simpl in *.
  - rewrite Hc. reflexivity.
  - apply andb_true_iff in Hl. destruct Hl as [Hv Hl].
    rewrite (IH Hl), andb_true_r.
    destruct (i915_vma_is_ggtt v); [reflexivity|]. simpl in *.
    rewrite forallb_app, Hv. simpl. rewrite Hc. reflexivity.
Qed.



(** X3. A VMA that vma_create has made fits its address space: its size
    is a multiple of the GTT page size and at most vm->total; in the GGTT
    it also fits 32 bits, its fence size lies between its size and
    vm->total, its fence alignment is a power of two and it carries the
    GGTT flag; elsewhere it carries no flag. It starts unpinned, unbound,
    without pages and open, and holds one reference on the address space. *)
Theorem vma_create_fresh_vma h e vm_ view r c r' :
  (forall t, inorder (rb_insert_color h t) = inorder t) ->
  ordered (vma_tree (r_obj r)) ->
  i915_vma_lookup (vma_tree (r_obj r)) (vm_addr vm_) view = None ->
  vma_create h e vm_ view r = Ret (PTR c, r') ->
  vm c = vm_addr vm_
  /\ size c <= total vm_
  /\ IS_ALIGNED (size c) I915_GTT_PAGE_SIZE = true
  /\ (if is_ggtt vm_
      then flags c = I915_VMA_GGTT
           /\ size c <= U32_MAX
           /\ size c <= fence_size c <= total vm_
           /\ is_power_of_2 (fence_alignment c) = true
      else flags c = 0)
  /\ i915_vma_is_pinned c = false
  /\ i915_vma_is_bound c I915_VMA_BIND_MASK = false
  /\ pages_count c = 0 /\ resource c = None /\ closed c = false
  /\ vm_refs r' = vm_refs r + 1
  /\ ~ In c (inorder (vma_tree (r_obj r)))
  /\ In c (inorder (vma_tree (r_obj r'))).
Proof.
  intros Hreb Ho Hmiss H.
  destruct (vma_create_spec _ _ _ _ _ _ _ Hreb Ho H) as (_ & Hfound & _).
  specialize (Hfound c eq_refl). destruct (lookup_some _ _ _ _ Hfound) as [Hin Hcmp].
  assert (~ In c (inorder (vma_tree (r_obj r)))) as Hnew.
  { intros Hc. apply (lookup_none _ _ _ Ho Hmiss c Hc Hcmp). }
  destruct (vma_create_cases _ _ _ _ _ _ _ Hreb Ho H)
    as [(_ & _ & _ & Hold)|(c0 & l1 & l2 & Hres & Hck & _ & _ & _ & Hrefs & _ & _
                            & Hsz & Hal & Hg & Hp & Hr & Hc)].
  - exfalso. apply Hnew, Hold. reflexivity.
  - inversion Hres; subst c0.
    assert (vm c = vm_addr vm_) as Hvm.
    { unfold vma_key in Hck. destruct view; simpl in Hck; inversion Hck; reflexivity. }
    assert (i915_vma_is_pinned c = false
            /\ i915_vma_is_bound c I915_VMA_BIND_MASK = false) as [Hpin Hbound].
    { unfold i915_vma_is_pinned, i915_vma_is_bound.
      destruct (is_ggtt vm_); [destruct Hg as [-> _] | rewrite Hg]; split; reflexivity. }
    repeat (split; [assumption|]). assumption.
Qed.

Lemma vma_create_fresh_vma_witness :
  exists c r',
    vma_create plain_helpers renv_quiet ggtt None reg_empty = Ret (PTR c, r')
    /\ flags c = I915_VMA_GGTT /\ fence_size c = 4096 /\ vm_refs r' = 2.
Proof.
  eexists. eexists. split; [vm_compute; reflexivity|].
  match goal with
  | |- flags ?c = _ /\ _ /\ vm_refs ?s = _ =>
      destruct (vma_create_fresh_vma plain_helpers renv_quiet ggtt None reg_empty c s)
        as (_ & _ & _ & Hg & _ & _ & _ & _ & _ & Hrefs & _)
  end.
  - intros t. reflexivity.
  - unfold ordered. simpl. constructor.
  - reflexivity.
  - vm_compute. reflexivity.
  - simpl in Hg. destruct Hg as (Hf & _). split; [exact Hf|]. split; [reflexivity|].
    exact Hrefs.
Defined.

(** X4. An i915_vma_instance that returns an error has registered nothing
    and leaked nothing: tree and list of the object are as the other
    threads left them, the reference count of the address space is what it
    was, and no VMA is left allocated that was not before. *)
Theorem i915_vma_instance_error_unchanged h e vm_ view r res r' :
  i915_vma_instance h e vm_ view r = Ret (res, r') ->
  IS_ERR res = true ->
  i915_vma_lookup (vma_tree (r_obj r)) (vm_addr vm_) view = None
  /\ r_obj r' = r_obj (concurrent e r)
  /\ vm_refs r' = vm_refs (concurrent e r)
  /\ incl (slab_live r') (slab_live (concurrent e r))
  /\ (res = ERR (- ENOMEM) \/ res = ERR (- E2BIG)).
Proof.
  intros H Herr. unfold i915_vma_instance in H.
  step H. step H. step H. destruct a as [res0 r0]. step H.
  inversion H; subst. clear H.
  destruct (i915_vma_lookup (vma_tree (r_obj r)) (vm_addr vm_) view) as [v0|] eqn:El.
  { inversion Hstep; subst. discriminate. }
  split; [reflexivity|].
  unfold vma_create in Hstep. step Hstep.
  destruct (i915_vma_alloc e (concurrent e r)) as [[v0|] r1] eqn:Ea.
  2:{ unfold i915_vma_alloc in Ea. destruct (kmem_cache_zalloc e); [discriminate|].
      inversion Ea; subst. inversion Hstep; subst.
      repeat split; try apply incl_refl. left. reflexivity. }
  step Hstep. rename a into c.
  destruct (alloc_free_live _ _ _ _ v0 Ea eq_refl) as (Hobj & Hrefs & Hnormal & _).
  destruct (vma_init_fields _ _ _ _ _ _ Hstep0 Hnormal) as [Hcaddr _].
  assert (forall c', vma_addr c' = vma_addr v0 ->
            r' = err_vma c' (i915_vm_get r1) ->
            r_obj r' = r_obj (concurrent e r) /\ vm_refs r' = vm_refs (concurrent e r)
            /\ incl (slab_live r') (slab_live (concurrent e r))) as Hundo.
  { intros c' Hc' ->.
    destruct (alloc_free_live _ _ _ _ c' Ea Hc') as (_ & _ & _ & Hlive & _).
    destruct (err_vma_books c' r1) as (Hb1 & Hb2 & _).
    rewrite Hb1, Hb2, Hobj, Hrefs. repeat split. exact Hlive. }
  destruct (total vm_ <? size c).
  { inversion Hstep; subst.
    destruct (Hundo c Hcaddr eq_refl) as (U1 & U2 & U3).
    repeat split; try assumption. right. reflexivity. }
  step Hstep. step Hstep. destruct a as [c'|].
  2:{ inversion Hstep; subst.
      destruct (Hundo c Hcaddr eq_refl) as (U1 & U2 & U3).
      repeat split; try assumption. right. reflexivity. }
  destruct (rb_walk_link _ _ _ _); inversion Hstep; subst; discriminate.
Qed.

Lemma i915_vma_instance_error_unchanged_witness :
  exists r',
    i915_vma_instance plain_helpers renv_no_memory ppgtt None reg_one
    = Ret (ERR (- ENOMEM), r')
    /\ r_obj r' = r_obj reg_one /\ vm_refs r' = vm_refs reg_one.
Proof.
  eexists. split; [vm_compute; reflexivity|].
  match goal with
  | |- r_obj ?s = _ /\ _ =>
      destruct (i915_vma_instance_error_unchanged plain_helpers renv_no_memory
                  ppgtt None reg_one (ERR (- ENOMEM)) s)
        as (_ & Hobj & Hrefs & _)
  end.
  - vm_compute. reflexivity.
  - reflexivity.
  - split; [exact Hobj | exact Hrefs].
Defined.

End RegistryProofs.


(* ================================================================== *)
(** * Part 7: further properties of pin, bind and unbind *)
(* ================================================================== *)
Module PinProofs.
Import Vma VmaScenarios PinScenarios VmaProofs.

(** ** Arithmetic on the flags word *)

Lemma land_pin_mask b : Z.land b I915_VMA_PIN_MASK = b mod 1024.
Proof. change I915_VMA_PIN_MASK with (Z.ones 10). apply Z.land_ones. lia. Qed.

Lemma overflow_clear_pin_small b :
  Z.land b I915_VMA_OVERFLOW = 0 -> b mod 1024 < 512.
Proof.
  intros H.
  assert (Z.testbit b 9 = false) as Hbit.
  { assert (Z.testbit (Z.land b I915_VMA_OVERFLOW) 9 = false) as H9
      by (rewrite H; apply Z.bits_0).
    rewrite Z.land_spec in H9. change (Z.testbit I915_VMA_OVERFLOW 9) with true in H9.
    rewrite andb_true_r in H9. exact H9. }
  assert (Z.testbit (b mod 1024) 9 = false) as Hlow.
  { change 1024 with (2 ^ 10). rewrite Z.mod_pow2_bits_low by lia. exact Hbit. }
  pose proof (Z.mod_pos_bound b 1024 ltac:(lia)) as Hb.
  rewrite Z.testbit_false in Hlow by lia.
  change (2 ^ 9) with 512 in Hlow.
  assert (b mod 1024 / 512 < 2) by (apply Z.div_lt_upper_bound; lia).
  assert (0 <= b mod 1024 / 512) by (apply Z.div_pos; lia).
  assert (b mod 1024 / 512 = 0) as Hq.
  { rewrite <- (Z.mod_small (b mod 1024 / 512) 2) by lia. exact Hlow. }
  apply Z.div_small_iff in Hq; lia.
Qed.

Lemma land_or_zero a m n : Z.land a (Z.lor m n) = 0 -> Z.land a m = 0 /\ Z.land a n = 0.
Proof.
  rewrite Z.land_lor_distr_r. intros H. apply Z.lor_eq_0_iff in H. exact H.
Qed.

(** A mask without any of the ten pin-count bits sees the same in two
    words that agree above them. *)
Lemma land_high_mask a a' k :
  a / 1024 = a' / 1024 -> Z.land a (Z.shiftl k 10) = Z.land a' (Z.shiftl k 10).
Proof.
  intros H. apply Z.bits_inj'. intros n Hn. rewrite !Z.land_spec.
  destruct (Z.lt_ge_cases n 10) as [Hlt|Hge].
  - rewrite Z.shiftl_spec_low by lia. rewrite !andb_false_r. reflexivity.
  - f_equal.
    replace n with ((n - 10) + 10) by lia.
    change 1024 with (2 ^ 10) in H.
    rewrite <- !Z.div_pow2_bits by lia. rewrite H. reflexivity.
Qed.

Lemma pin_increment b :
  0 <= b < 2 ^ 32 -> Z.land b I915_VMA_OVERFLOW = 0 ->
  u32 (b + 1) = b + 1
  /\ Z.land (b + 1) I915_VMA_PIN_MASK = Z.land b I915_VMA_PIN_MASK + 1
  /\ (b + 1) / 1024 = b / 1024.
Proof.
  intros Hb Ho. pose proof (overflow_clear_pin_small b Ho) as Hp.
  pose proof (Z.mod_pos_bound b 1024 ltac:(lia)) as Hm.
  pose proof (Z.div_mod b 1024 ltac:(lia)) as Hdm.
  assert ((b + 1) / 1024 = b / 1024) as Hq.
  { symmetry. apply Z.div_unique with (r := b mod 1024 + 1); lia. }
  assert ((b + 1) mod 1024 = b mod 1024 + 1) as Hr.
  { symmetry. apply Z.mod_unique with (q := b / 1024); lia. }
  split; [|split; [rewrite !land_pin_mask; exact Hr | exact Hq]].
  unfold u32. apply Z.mod_small.
  assert (b / 1024 < 2 ^ 22) by (apply Z.div_lt_upper_bound; lia).
  lia.
Qed.

(** ** try_qad_pin *)



(** ** Page references *)

(** X6. Taking and dropping the page reference of a VMA is a round trip:
    after an i915_vma_get_pages that succeeded, i915_vma_put_pages always
    returns, and the page count of the VMA and the pin count of the
    object's pages are back where they were; flags, node and bound list
    were never touched. If the VMA had no reference before, its pages
    pointer is null again. *)
Theorem get_put_pages_round_trip e st st1 :
  i915_vma_get_pages e st = Ret (0, st1) ->
  exists st2,
    i915_vma_put_pages st1 = Ret st2
    /\ pages_count (vma st2) = pages_count (vma st)
    /\ obj_pages_pin_count st2 = obj_pages_pin_count st
    /\ flags (vma st2) = flags (vma st)
    /\ mm_nodes st2 = mm_nodes st /\ bound_list st2 = bound_list st
    /\ (pages_count (vma st) = 0 -> pages (vma st2) = None).
Proof.
  intros Hget.
  destruct (i915_vma_get_pages_effect _ _ _ _ Hget) as ([Hn1 Hb1] & _ & Hd1).
  specialize (Hd1 eq_refl).
  assert (flags (vma st1) = flags (vma st)) as Hf1.
  { clear Hd1. unfold i915_vma_get_pages in Hget.
    destruct (pages_count (vma st) =? 0); simpl in Hget.
    - destruct (i915_gem_object_pin_pages e =? 0); simpl in Hget;
        [|inversion Hget; reflexivity].
      step Hget. destruct a as [err1 st0]. unfold __i915_vma_get_pages in Hstep.
      step Hstep.
      assert (flags (vma st0) = flags (vma st)) as Hf0.
      { destruct (match ggtt_view _ with I915_GGTT_VIEW_NORMAL => _ | _ => _ end);
          inversion Hstep; reflexivity. }
      destruct (err1 =? 0); simpl in Hget; inversion Hget; subst; simpl; exact Hf0.
    - inversion Hget; reflexivity. }
  assert (exists st2, i915_vma_put_pages st1 = Ret st2
                      /\ flags (vma st2) = flags (vma st1)
                      /\ (pages_count (vma st1) = 1 -> pages (vma st2) = None))
    as (st2 & Hput & Hf2 & Hnull).
  { unfold i915_vma_put_pages. destruct (pages_count (vma st1) =? 1) eqn:E1; simpl.
    - apply Z.eqb_eq in E1. unfold __vma_put_pages. rewrite E1. simpl.
      eexists. split; [reflexivity|]. split; reflexivity.
    - apply Z.eqb_neq in E1. eexists. split; [reflexivity|].
      split; [reflexivity | intros; contradiction]. }
  exists st2. split; [exact Hput|].
  destruct (i915_vma_put_pages_effect _ _ Hput) as ([Hn2 Hb2] & Hd2).
  pose proof (d_pages _ _ _ _ _ _ Hd1) as Hp1. pose proof (d_pins _ _ _ _ _ _ Hd1) as Hq1.
  pose proof (d_pages _ _ _ _ _ _ Hd2) as Hp2. pose proof (d_pins _ _ _ _ _ _ Hd2) as Hq2.
  split; [lia|]. split.
  { destruct (pages_count (vma st) =? 0) eqn:Ea;
      destruct (pages_count (vma st1) =? 1) eqn:Eb;
      rewrite ?Z.eqb_eq, ?Z.eqb_neq in *; lia. }
  split; [congruence|]. split; [congruence|]. split; [congruence|].
  intros H0. apply Hnull. lia.
Qed.

Lemma get_put_pages_round_trip_witness :
  exists st1 st2,
    i915_vma_get_pages benv_ok st_unbound = Ret (0, st1)
    /\ pages_count (vma st1) = 1
    /\ i915_vma_put_pages st1 = Ret st2
    /\ pages_count (vma st2) = 0 /\ obj_pages_pin_count st2 = 0.
Proof.
  eexists.
  match goal with
  | |- exists st2, i915_vma_get_pages _ _ = Ret (0, ?s) /\ _ =>
      destruct (get_put_pages_round_trip benv_ok st_unbound s)
        as (st2 & Hput & Hp & Hq & _)
  end.
  - vm_compute. reflexivity.
  - exists st2. split; [reflexivity|]. split; [reflexivity|].
    split; [exact Hput|]. split; [exact Hp | exact Hq].
Defined.

(** ** i915_vma_bind *)

Lemma lor_masked_missing a f m :
  Z.lor a (Z.land (Z.land f m) (Z.lnot (Z.land a m))) = Z.lor a (Z.land f m).
Proof.
  apply Z.bits_inj'. intros n Hn.
  rewrite !Z.lor_spec, !Z.land_spec, Z.lnot_spec, !Z.land_spec by exact Hn.
  destruct (Z.testbit a n), (Z.testbit f n), (Z.testbit m n); reflexivity.
Qed.

Lemma i915_vma_bind_ok e vm_ f work vma_res st st' :
  i915_vma_bind e vm_ f work vma_res st = Ret (0, st') ->
  flags (vma st') = Z.lor (flags (vma st)) (Z.land f I915_VMA_BIND_MASK)
  /\ f <> 0
  /\ (exists node, vma_node st = Some node
                   /\ range_overflows (start node) (node_size node) (total vm_) = false
                   /\ size (vma st) <= node_size node)
  /\ pages_count (vma st') = pages_count (vma st)
  /\ vma_addr (vma st') = vma_addr (vma st)
  /\ mm_nodes st' = mm_nodes st /\ bound_list st' = bound_list st.
Proof.
  unfold i915_vma_bind. intros H. cbv zeta in H.
  destruct (vma_node st) as [node|]; [|discriminate].
  step H. apply Z.ltb_ge in Hbug.
  destruct (range_overflows (start node) (node_size node) (total vm_)) eqn:Er;
    [inversion H|].
  destruct (f =? 0) eqn:Ef; [inversion H|]. apply Z.eqb_neq in Ef.
  change (Z.lor I915_VMA_GLOBAL_BIND I915_VMA_LOCAL_BIND) with I915_VMA_BIND_MASK in H.
  assert (flags (vma st') = Z.lor (flags (vma st)) (Z.land f I915_VMA_BIND_MASK)
          /\ pages_count (vma st') = pages_count (vma st)
          /\ vma_addr (vma st') = vma_addr (vma st)
          /\ mm_nodes st' = mm_nodes st /\ bound_list st' = bound_list st)
    as (F' & P' & A' & N' & B').
  { match type of H with (if ?c then _ else _) = _ => destruct c eqn:Eb end.
    { inversion H; subst. apply Z.eqb_eq in Eb.
      rewrite <- (lor_masked_missing (flags (vma st')) f I915_VMA_BIND_MASK), Eb, Z.lor_0_r.
      repeat split. }
    step H.
    match type of H with (if ?c then _ else _) = _ => destruct c eqn:Edep end.
    { inversion H as [[H1 H2]]. rewrite H1 in Edep. discriminate. }
    step H. destruct a as [ret st2].
    destruct (ret =? 0) eqn:Hret; simpl in H; [|inversion H; subst; discriminate].
    assert (flags (vma st2) = flags (vma st)
            /\ pages_count (vma st2) = pages_count (vma st)
            /\ vma_addr (vma st2) = vma_addr (vma st)
            /\ mm_nodes st2 = mm_nodes st /\ bound_list st2 = bound_list st)
      as (F & P & A & N & B).
    { clear H.
      destruct (resource (vma st)); [|destruct vma_res];
        repeat match type of Hstep with (if ?c then _ else _) = _ => destruct c end;
        inversion Hstep; subst; repeat split. }
    inversion H; subst; clear H.
    destruct (has_obj st2); simpl; rewrite F;
      (split; [apply lor_masked_missing|]); repeat split; assumption. }
  split; [exact F'|]. split; [exact Ef|].
  split; [exists node; repeat split; assumption|].
  repeat split; assumption.
Qed.

(** X7. A bind that succeeds has set exactly the requested bind bits:
    vma->flags afterwards is the old word with the GLOBAL_BIND and
    LOCAL_BIND bits of the request added, so no bit is ever cleared and
    the pin count is not touched. The request was not empty, the node of
    the VMA lies inside the address space, and the page count, the node
    and the bound list are unchanged. *)
Theorem i915_vma_bind_sets_requested e vm_ f work vma_res st st' :
  i915_vma_bind e vm_ f work vma_res st = Ret (0, st') ->
  flags (vma st') = Z.lor (flags (vma st)) (Z.land f I915_VMA_BIND_MASK)
  /\ f <> 0
  /\ (exists node, vma_node st = Some node
                   /\ range_overflows (start node) (node_size node) (total vm_) = false
                   /\ size (vma st) <= node_size node)
  /\ pages_count (vma st') = pages_count (vma st)
  /\ vma_addr (vma st') = vma_addr (vma st)
  /\ mm_nodes st' = mm_nodes st /\ bound_list st' = bound_list st.
Proof. apply i915_vma_bind_ok. Qed.

Lemma i915_vma_bind_sets_requested_witness :
  exists st',
    i915_vma_bind benv_ok ggtt PIN_USER false true st_pinned = Ret (0, st')
    /\ flags (vma st') = Z.lor (flags vma_pinned) I915_VMA_LOCAL_BIND.
Proof.
  eexists.
  match goal with
  | |- i915_vma_bind _ _ _ _ _ _ = Ret (0, ?s) /\ _ =>
      destruct (i915_vma_bind_sets_requested benv_ok ggtt PIN_USER false true
                  st_pinned s) as (Hf & _)
  end.
  - vm_compute. reflexivity.
  - split; [reflexivity | exact Hf].
Defined.

(** ** i915_vma_insert *)

(** X8. A request that cannot fit is refused before the allocator is
    asked: when the requested size or the VMA is larger than the address
    space, or a mappable request needs a fence region larger than the
    mappable aperture, or a PIN_ZONE_4G request is larger than 4 GiB less
    a page, i915_vma_insert returns -ENOSPC and changes nothing. *)
Theorem i915_vma_insert_too_big e vm_ size_ alignment flags_ st err st' :
  i915_vma_insert e vm_ size_ alignment flags_ st = Ret (err, st') ->
  total vm_ < size_ \/ total vm_ < size (vma st)
  \/ (test_bits flags_ PIN_MAPPABLE = true
      /\ mappable_end vm_ < fence_size (vma st))
  \/ (test_bits flags_ PIN_ZONE_4G = true
      /\ 2 ^ 32 - I915_GTT_PAGE_SIZE < Z.max size_ (size (vma st))) ->
  err = - ENOSPC /\ st' = st.
Proof.
  intros H Hbig. unfold i915_vma_insert in H. cbv zeta in H.
  repeat step H.
  match type of H with (if ?c then _ else _) = _ => destruct c eqn:E end.
  { inversion H; subst. split; reflexivity. }
  exfalso. clear H. apply Z.ltb_ge in E.
  destruct (test_bits flags_ PIN_MAPPABLE) eqn:Em;
    destruct (test_bits flags_ PIN_ZONE_4G) eqn:Ez;
    destruct Hbig as [Hb|[Hb|[[Hm Hb]|[Hz Hb]]]]; try discriminate; lia.
Qed.

Lemma i915_vma_insert_too_big_witness :
  i915_vma_insert benv_ok tiny_vm 8192 0 PIN_USER st_unbound
  = Ret (- ENOSPC, st_unbound).
Proof.
  assert (exists err st',
            i915_vma_insert benv_ok tiny_vm 8192 0 PIN_USER st_unbound = Ret (err, st'))
    as (err & st' & Hrun) by (eexists; eexists; vm_compute; reflexivity).
  destruct (i915_vma_insert_too_big _ _ _ _ _ _ _ _ Hrun) as [-> ->].
  - left. simpl. lia.
  - exact Hrun.
Defined.

(** X9. An insertion at a free offset that succeeds has placed the node
    inside the range of the request: not below the PIN_OFFSET_BIAS offset,
    and ending within the address space, within the mappable aperture for
    a PIN_MAPPABLE request and below 4 GiB less a page for a PIN_ZONE_4G
    one. The VMA itself is unchanged and now sits at the tail of
    vm->bound_list. *)
Theorem i915_vma_insert_in_range e vm_ size_ alignment flags_ st st' :
  i915_vma_insert e vm_ size_ alignment flags_ st = Ret (0, st') ->
  test_bits flags_ PIN_OFFSET_FIXED = false ->
  exists node,
    vma_node st' = Some node
    /\ (test_bits flags_ PIN_OFFSET_BIAS = true ->
        Z.land flags_ PIN_OFFSET_MASK <= start node)
    /\ 0 <= start node
    /\ u64 (start node + node_size node) <= total vm_
    /\ (test_bits flags_ PIN_MAPPABLE = true ->
        u64 (start node + node_size node) <= mappable_end vm_)
    /\ (test_bits flags_ PIN_ZONE_4G = true ->
        u64 (start node + node_size node) <= 2 ^ 32 - I915_GTT_PAGE_SIZE)
    /\ vma st' = vma st
    /\ bound_list st' = bound_list st ++ [vma_addr (vma st)].
Proof.
  intros H Hfree. unfold i915_vma_insert in H. cbv zeta in H.
  rewrite Hfree in H. repeat step H.
  match type of H with (if ?c then _ else _) = _ => destruct c end;
    [inversion H|].
  step H. destruct a as [ret st2].
  step Hstep.
  match type of Hstep with (if ?c then _ else _) = _ => destruct c eqn:Eg end.
  { inversion Hstep; subst. rewrite Eg in H. inversion H; subst.
    apply negb_true_iff, Z.eqb_neq in Eg. congruence. }
  match type of Hstep with
  | match ?n with _ => _ end = _ => destruct n as [node|] eqn:En; [|discriminate]
  end.
  repeat step Hstep. inversion Hstep; subst; clear Hstep. simpl in H.
  repeat step H. inversion H; subst; clear H.
  exists node. split; [exact En|].
  repeat match goal with
         | Hq : (_ <? _) = false |- _ => apply Z.ltb_ge in Hq
         end.
  assert (0 <= Z.land flags_ PIN_OFFSET_MASK) as Hmask
    by (apply Z.land_nonneg; right; vm_compute; discriminate).
  destruct (test_bits flags_ PIN_OFFSET_BIAS) eqn:Ebias;
    destruct (test_bits flags_ PIN_MAPPABLE) eqn:Em;
    destruct (test_bits flags_ PIN_ZONE_4G) eqn:Ez;
    repeat split; try reflexivity; try discriminate; intros; try lia.
Qed.

Lemma i915_vma_insert_in_range_witness :
  exists st',
    i915_vma_insert benv_ok ggtt 0 0 PIN_GLOBAL st_unbound = Ret (0, st')
    /\ vma_node st' = Some (node_of 1 8192 4096 2)
    /\ bound_list st' = [2; 1].
Proof.
  eexists.
  match goal with
  | |- i915_vma_insert _ _ _ _ _ _ = Ret (0, ?s) /\ _ =>
      destruct (i915_vma_insert_in_range benv_ok ggtt 0 0 PIN_GLOBAL st_unbound s)
        as (node & Hn & _ & _ & _ & _ & _ & _ & Hb)
  end.
  - vm_compute. reflexivity.
  - reflexivity.
  - split; [reflexivity|]. split; [reflexivity | exact Hb].
Defined.

(** ** Unbinding *)

Lemma land_lnot_lor_absent a k m :
  Z.land a m = 0 -> Z.land a (Z.lnot (Z.lor k m)) = Z.land a (Z.lnot k).
Proof.
  intros H. apply Z.bits_inj'. intros n Hn.
  assert (Z.testbit (Z.land a m) n = false) as Hb by (rewrite H; apply Z.bits_0).
  rewrite Z.land_spec in Hb.
  rewrite !Z.land_spec, !Z.lnot_spec, Z.lor_spec by exact Hn.
  destruct (Z.testbit a n), (Z.testbit k n), (Z.testbit m n); simpl in *; congruence.
Qed.

Lemma land_lnot_twice a k m :
  Z.land (Z.land a (Z.lnot k)) (Z.lnot m) = Z.land a (Z.lnot (Z.lor k m)).
Proof.
  apply Z.bits_inj'. intros n Hn.
  rewrite !Z.land_spec, !Z.lnot_spec, Z.lor_spec by exact Hn.
  destruct (Z.testbit a n), (Z.testbit k n), (Z.testbit m n); reflexivity.
Qed.

Lemma test_bits_false a m : test_bits a m = false -> Z.land a m = 0.
Proof. unfold test_bits. intros H. apply negb_false_iff, Z.eqb_eq in H. exact H. Qed.

Ltac bit_hyps n :=
  repeat match goal with
         | H : Z.land ?a ?m = 0 |- _ =>
             let Hb := fresh "Hb" in
             assert (Z.testbit a n && Z.testbit m n = false) as Hb
               by (rewrite <- Z.land_spec, H; apply Z.bits_0);
             clear H
         end.

(** Equalities of words built with and, or, not, bit by bit. *)
Ltac bitwise :=
  let n := fresh "n" in
  let Hn := fresh "Hn" in
  apply Z.bits_inj'; intros n Hn; bit_hyps n;
  rewrite ?Z.land_spec, ?Z.lor_spec, ?Z.lnot_spec in * by exact Hn;
  rewrite ?Z.land_spec, ?Z.lor_spec, ?Z.lnot_spec in * by exact Hn;
  rewrite ?Z.land_spec, ?Z.lor_spec, ?Z.lnot_spec in * by exact Hn;
  rewrite ?Z.bits_0;
  repeat match goal with
         | |- context [Z.testbit ?x n] => destruct (Z.testbit x n)
         end;
  cbn [andb orb negb] in *; congruence.

(** Projections of an updated state, and nothing else. *)
Ltac proj :=
  cbn [vma mm_nodes bound_list has_obj obj_cache_level obj_mm_pages obj_mm_rsgt
       obj_page_sizes_sg obj_pages_pin_count obj_userfault_count obj_was_bound
       active_count wakerefs
       vma_addr vm ggtt_view size fence_size fence_alignment display_alignment
       flags pages_count pages page_sizes_sg Vma.resource iomap fence closed
       set_vma set_nodes set_bound_list set_obj_pins set_obj_misc set_counts
       set_flags set_size set_view set_fence_geometry set_pages set_resource
       set_iomap_fence i915_vma_flush_writes i915_vma_revoke_fence
       intel_runtime_pm_get intel_runtime_pm_put drm_mm_remove_node] in *.

Lemma i915_vma_detach_inv st s :
  i915_vma_detach st = Ret s ->
  drm_mm_node_allocated st = true
  /\ s = set_bound_list st (list_del (vma_addr (vma st)) (bound_list st)).
Proof.
  unfold i915_vma_detach. intros H. step H. step H. inversion H; subst.
  apply negb_false_iff in Hbug. split; [exact Hbug | reflexivity].
Qed.

Lemma __vma_put_pages_inv count st s :
  __vma_put_pages count st = Ret s ->
  s = (if pages_count (vma st) - count =? 0
       then set_obj_pins
              (set_vma st (set_pages (vma st) (pages_count (vma st) - count) None
                             (page_sizes_sg (vma st))))
              (obj_pages_pin_count st - 1)
       else set_vma st (set_pages (vma st) (pages_count (vma st) - count)
                          (pages (vma st)) (page_sizes_sg (vma st)))).
Proof.
  unfold __vma_put_pages. intros H. step H. cbv zeta in H.
  match type of H with (if ?c then _ else _) = _ => destruct c end;
    injection H as <-; reflexivity.
Qed.

Lemma vma_unbind_pages_inv st s :
  vma_unbind_pages st = Ret s ->
  exists count,
    count = Z.lor (Z.shiftr (pages_count (vma st)) I915_VMA_PAGES_BIAS)
                  (Z.shiftl (Z.shiftr (pages_count (vma st)) I915_VMA_PAGES_BIAS)
                            I915_VMA_PAGES_BIAS)
    /\ __vma_put_pages count st = Ret s.
Proof.
  unfold vma_unbind_pages. intros H. step H. cbv zeta in H.
  eexists. split; [reflexivity | exact H].
Qed.

Lemma i915_vma_revoke_mmap_inv st s :
  i915_vma_revoke_mmap st = Ret s ->
  s = (if i915_vma_has_userfault (vma st)
       then set_obj_misc
              (set_vma st (set_flags (vma st)
                             (Z.land (flags (vma st)) (Z.lnot I915_VMA_USERFAULT))))
              (obj_userfault_count st - 1) (obj_was_bound st)
       else st).
Proof.
  unfold i915_vma_revoke_mmap. intros H.
  destruct (i915_vma_has_userfault (vma st)); simpl in H.
  - repeat step H. inversion H; reflexivity.
  - inversion H; reflexivity.
Qed.

Lemma __i915_vma_iounmap_inv st s :
  __i915_vma_iounmap st = Ret s ->
  s = set_vma st (set_iomap_fence (vma st) None (fence (vma st))).
Proof. unfold __i915_vma_iounmap. intros H. step H. inversion H; reflexivity. Qed.

(** What __i915_vma_evict leaves of a VMA. *)
Lemma __i915_vma_evict_effect e async st fence_ st' :
  __i915_vma_evict e async st = Ret (fence_, st') ->
  i915_vma_is_pinned (vma st) = false
  /\ flags (vma st') = Z.land (flags (vma st)) (Z.lnot evicted_bits)
  /\ resource (vma st') = None
  /\ fence (vma st') = None
  /\ iomap (vma st')
     = (if i915_vma_is_map_and_fenceable (vma st) then None else iomap (vma st))
  /\ vma_addr (vma st') = vma_addr (vma st)
  /\ drm_mm_node_allocated st = true
  /\ mm_nodes st' = mm_nodes st
  /\ bound_list st' = list_del (vma_addr (vma st)) (bound_list st)
  /\ wakerefs st' = wakerefs st /\ active_count st' = active_count st
  /\ pages_count (vma st')
     = pages_count (vma st)
       - Z.lor (Z.shiftr (pages_count (vma st)) I915_VMA_PAGES_BIAS)
               (Z.shiftl (Z.shiftr (pages_count (vma st)) I915_VMA_PAGES_BIAS)
                         I915_VMA_PAGES_BIAS)
  /\ obj_pages_pin_count st'
     = obj_pages_pin_count st - (if pages_count (vma st') =? 0 then 1 else 0)
  /\ (pages_count (vma st') = 0 -> pages (vma st') = None)
  /\ (fence_ = true -> async = true).
Proof.
  unfold __i915_vma_evict. intros H. step H. rename Hbug into Hpin.
  step H. rename a into s1.
  step H. step H. rename Hbug into Hfence. rename Hbug0 into Huf.
  destruct (Vma.resource (vma s1)) as [res|]; [|discriminate].
  step H. rename a into s2. step H. rename a into s3.
  apply i915_vma_detach_inv in Hstep0. destruct Hstep0 as [Hnode ->].
  apply vma_unbind_pages_inv in Hstep1. destruct Hstep1 as (k & Hk & Hstep1).
  apply __vma_put_pages_inv in Hstep1.
  apply Ret_pair_inv in H. destruct H as [<- <-].
  assert (fence (vma s1) = None) as Hf1
    by (destruct (fence (vma s1)); [discriminate|reflexivity]).
  apply test_bits_false in Huf.
  assert (forall b : bool, (if negb async && b then false else b) = true -> async = true)
    as Hasync by (intros b; destruct async, b; simpl; congruence).
  proj.
  assert (Z.land (flags (vma s1))
            (Z.lnot (Z.lor (Z.lor I915_VMA_BIND_MASK I915_VMA_ERROR) I915_VMA_GGTT_WRITE))
          = Z.land (flags (vma st)) (Z.lnot evicted_bits)
          /\ iomap (vma s1)
             = (if i915_vma_is_map_and_fenceable (vma st) then None else iomap (vma st))
          /\ vma_addr (vma s1) = vma_addr (vma st)
          /\ pages_count (vma s1) = pages_count (vma st)
          /\ mm_nodes s1 = mm_nodes st /\ bound_list s1 = bound_list st
          /\ wakerefs s1 = wakerefs st /\ active_count s1 = active_count st
          /\ obj_pages_pin_count s1 = obj_pages_pin_count st)
    as (F1 & I1 & A1 & P1 & N1 & B1 & W1 & Ac1 & O1).
  { clear Hstep1 Hnode.
    destruct (i915_vma_is_map_and_fenceable (vma st)) eqn:Emf.
    - step Hstep. rename a into s0. step Hstep.
      apply i915_vma_revoke_mmap_inv in Hstep0. apply __i915_vma_iounmap_inv in Hstep1.
      inversion Hstep; subst s1; clear Hstep. subst a.
      destruct (i915_vma_has_userfault (vma st)) eqn:Eu; subst s0; proj.
      + split; [unfold evicted_bits; clear; bitwise|]. repeat split.
      + apply test_bits_false in Eu.
        split; [unfold evicted_bits; clear - Eu; bitwise|]. repeat split.
    - inversion Hstep; subst s1; clear Hstep.
      apply test_bits_false in Emf.
      split; [unfold evicted_bits; clear - Emf Huf; bitwise|]. repeat split. }
  split; [exact Hpin|].
  assert (drm_mm_node_allocated st = true) as Hnode'.
  { rewrite <- Hnode. symmetry. apply node_allocated_ext; proj; congruence. }
  rewrite P1 in Hk, Hstep1. rewrite <- Hk. clear Hk.
  destruct (pages_count (vma st) - k =? 0) eqn:Ec; subst s3; proj; rewrite ?Ec;
    (split; [exact F1|]);
    repeat split; try reflexivity; try assumption; try congruence; try lia;
    try (apply Z.eqb_eq in Ec; exact Ec);
    try (intros Hz; apply Z.eqb_neq in Ec; lia);
    apply Hasync.
Qed.

Lemma list_del_not_in a l : ~ In a (list_del a l).
Proof.
  unfold list_del. intros H. apply filter_In in H. destruct H as [_ H].
  rewrite Z.eqb_refl in H. discriminate.
Qed.

Lemma __i915_vma_unbind_effect e st st' :
  drm_mm_node_allocated st = true ->
  __i915_vma_unbind e st = Ret (0, st') ->
  drm_mm_node_allocated st' = false
  /\ mm_nodes st' = filter (fun n => negb (owns (vma st) n)) (mm_nodes st)
  /\ bound_list st' = list_del (vma_addr (vma st)) (bound_list st)
  /\ ~ In (vma_addr (vma st')) (bound_list st')
  /\ flags (vma st') = Z.land (flags (vma st)) (Z.lnot evicted_bits)
  /\ Z.land (flags (vma st')) evicted_bits = 0
  /\ i915_vma_is_pinned (vma st') = false
  /\ resource (vma st') = None
  /\ fence (vma st') = None
  /\ wakerefs st' = wakerefs st /\ active_count st' = 0
  /\ i915_vma_sync e = 0.
Proof.
  intros Hnode H. unfold __i915_vma_unbind in H. rewrite Hnode in H. simpl in H.
  destruct (i915_vma_is_pinned (vma st)) eqn:Hpin; [inversion H|].
  destruct (i915_vma_sync e =? 0) eqn:Hsync; simpl in H;
    [|apply Ret_pair_inv in H; destruct H as [H _]; apply Z.eqb_neq in Hsync; congruence].
  apply Z.eqb_eq in Hsync.
  step H. rename Hbug into Hact. apply negb_false_iff, Z.eqb_eq in Hact.
  step H. destruct a as [f s1]. apply Ret_pair_inv in H. destruct H as [_ <-].
  apply __i915_vma_evict_effect in Hstep.
  destruct Hstep as (_ & F & R & Fe & _ & A & _ & N & B & W & Ac & _).
  cbn [snd]. proj.
  split; [apply remove_node_not_allocated|].
  split.
  { rewrite N. clear - A. induction (mm_nodes st) as [|n l IH]; simpl; [reflexivity|].
    unfold owns at 1 3. rewrite A, IH. reflexivity. }
  split; [exact B|].
  split; [rewrite B, A; apply list_del_not_in|].
  split; [exact F|].
  split; [rewrite F; clear; bitwise|].
  split.
  { unfold i915_vma_is_pinned, test_bits in *.
    apply negb_false_iff, Z.eqb_eq in Hpin. apply negb_false_iff, Z.eqb_eq.
    rewrite F. clear - Hpin. bitwise. }
  repeat split; try assumption; congruence.
Qed.

(** X10. An unbind that goes through leaves nothing of the binding: the
    node of the VMA is removed from the address space while the nodes of
    the others stay, the VMA is off vm->bound_list, its bind bits and the
    ERROR, GGTT_WRITE, CAN_FENCE and USERFAULT bits are clear while every
    other bit of vma->flags is as before, its binding resource and its
    fence register are gone, it is still unpinned, and the references on
    vma->active and the wakerefs are what they were. The wait for the
    activity of the VMA had succeeded. *)
Theorem __i915_vma_unbind_unbinds e st st' :
  drm_mm_node_allocated st = true ->
  __i915_vma_unbind e st = Ret (0, st') ->
  drm_mm_node_allocated st' = false
  /\ mm_nodes st' = filter (fun n => negb (owns (vma st) n)) (mm_nodes st)
  /\ bound_list st' = list_del (vma_addr (vma st)) (bound_list st)
  /\ ~ In (vma_addr (vma st')) (bound_list st')
  /\ flags (vma st') = Z.land (flags (vma st)) (Z.lnot evicted_bits)
  /\ Z.land (flags (vma st')) evicted_bits = 0
  /\ i915_vma_is_pinned (vma st') = false
  /\ resource (vma st') = None
  /\ fence (vma st') = None
  /\ wakerefs st' = wakerefs st /\ active_count st' = 0
  /\ i915_vma_sync e = 0.
Proof. apply __i915_vma_unbind_effect. Qed.

Lemma __i915_vma_unbind_unbinds_witness :
  exists st',
    __i915_vma_unbind benv_ok st_bound = Ret (0, st')
    /\ flags (vma st') = I915_VMA_GGTT
    /\ mm_nodes st' = [node_of 2 0 4096 1]
    /\ bound_list st' = [2].
Proof.
  eexists.
  match goal with
  | |- __i915_vma_unbind _ _ = Ret (0, ?s) /\ _ =>
      destruct (__i915_vma_unbind_unbinds benv_ok st_bound s)
        as (_ & Hn & Hb & _ & Hf & _)
  end.
  - reflexivity.
  - vm_compute. reflexivity.
  - split; [reflexivity|]. split; [exact Hf|]. split; [exact Hn | exact Hb].
Defined.



Lemma __i915_vma_unbind_frame e st err st' :
  __i915_vma_unbind e st = Ret (err, st') ->
  wakerefs st' = wakerefs st /\ (err <> 0 -> st' = st).
Proof.
  unfold __i915_vma_unbind. intros H.
  destruct (drm_mm_node_allocated st); simpl in H;
    [|inversion H; subst; split; [reflexivity | intros; reflexivity]].
  destruct (i915_vma_is_pinned (vma st));
    [inversion H; subst; split; [reflexivity | intros; reflexivity]|].
  destruct (i915_vma_sync e =? 0); simpl in H;
    [|inversion H; subst; split; [reflexivity | intros; reflexivity]].
  step H. step H. destruct a as [f s1]. apply Ret_pair_inv in H. destruct H as [<- <-].
  apply __i915_vma_evict_effect in Hstep.
  destruct Hstep as (_ & _ & _ & _ & _ & _ & _ & _ & _ & W & _).
  cbn [snd]. proj. split; [exact W | intros Hne; contradiction].
Qed.

Lemma __i915_vma_unbind_async_frame e st fence_ st' :
  __i915_vma_unbind_async e st = Ret (fence_, st') ->
  wakerefs st' = wakerefs st /\ (PTR_ERR fence_ <> 0 -> st' = st).
Proof.
  unfold __i915_vma_unbind_async. intros H.
  destruct (drm_mm_node_allocated st); simpl in H;
    [|inversion H; subst; split; [reflexivity | intros; reflexivity]].
  destruct (_ || _);
    [inversion H; subst; split; [reflexivity | intros; reflexivity]|].
  destruct (_ <? 0);
    [inversion H; subst; split; [reflexivity | intros; reflexivity]|].
  step H. destruct a as [f s1]. apply Ret_pair_inv in H. destruct H as [<- <-].
  apply __i915_vma_evict_effect in Hstep.
  destruct Hstep as (_ & _ & _ & _ & _ & _ & _ & _ & _ & W & _).
  proj. split; [exact W|]. destruct f; simpl; intros Hne; contradiction.
Qed.

(** X12. Neither i915_vma_unbind nor i915_vma_unbind_async leaks a
    wakeref, whatever they return, and one that returns an error has
    changed nothing: the VMA, the nodes of the address space, the bound
    list and the pin count of the object's pages are as before. *)
Theorem i915_vma_unbind_failure_unchanged e trylock_vm st :
  (forall err st',
     i915_vma_unbind e st = Ret (err, st') ->
     wakerefs st' = wakerefs st
     /\ (err <> 0 ->
         vma st' = vma st /\ mm_nodes st' = mm_nodes st
         /\ bound_list st' = bound_list st
         /\ obj_pages_pin_count st' = obj_pages_pin_count st))
  /\ (forall err st',
        i915_vma_unbind_async e trylock_vm st = Ret (err, st') ->
        wakerefs st' = wakerefs st
        /\ (err <> 0 ->
            vma st' = vma st /\ mm_nodes st' = mm_nodes st
            /\ bound_list st' = bound_list st
            /\ obj_pages_pin_count st' = obj_pages_pin_count st)).
Proof.
  assert (forall err0 err st', Ret (err0, st) = Ret (err, st') ->
            wakerefs st' = wakerefs st
            /\ (err <> 0 ->
                vma st' = vma st /\ mm_nodes st' = mm_nodes st
                /\ bound_list st' = bound_list st
                /\ obj_pages_pin_count st' = obj_pages_pin_count st)) as Hsame.
  { intros err0 err st' H. inversion H; subst. repeat split. }
  assert (forall (w : bool) (s1 : vstate) err,
            let s0 := if w then intel_runtime_pm_get st else st in
            wakerefs s1 = wakerefs s0 /\ (err <> 0 -> s1 = s0) ->
            let st' := if w then intel_runtime_pm_put s1 else s1 in
            wakerefs st' = wakerefs st
            /\ (err <> 0 ->
                vma st' = vma st /\ mm_nodes st' = mm_nodes st
                /\ bound_list st' = bound_list st
                /\ obj_pages_pin_count st' = obj_pages_pin_count st)) as Hput.
  { intros w s1 err s0 [Hw Hs] st'. subst s0 st'.
    destruct w; proj.
    - split; [rewrite Hw; proj; lia|]. intros Hne. rewrite (Hs Hne). proj. repeat split.
    - split; [exact Hw|]. intros Hne. rewrite (Hs Hne). repeat split. }
  split; intros err st' H.
  - unfold i915_vma_unbind in H. cbv zeta in H.
    destruct (i915_vma_sync e =? 0); simpl in H; [|apply (Hsame _ _ _ H)].
    destruct (drm_mm_node_allocated st); simpl in H; [|apply (Hsame _ _ _ H)].
    destruct (i915_vma_is_pinned (vma st)); [apply (Hsame _ _ _ H)|].
    step H. destruct a as [err1 s1]. apply Ret_pair_inv in H. destruct H as [<- <-].
    apply Hput.
    destruct (mutex_lock_interruptible_nested e =? 0); simpl in Hstep.
    + apply __i915_vma_unbind_frame in Hstep. exact Hstep.
    + inversion Hstep; subst. split; [reflexivity | intros; reflexivity].
  - unfold i915_vma_unbind_async in H. cbv zeta in H.
    destruct (drm_mm_node_allocated st); simpl in H; [|apply (Hsame _ _ _ H)].
    destruct (i915_vma_is_pinned (vma st)); [apply (Hsame _ _ _ H)|].
    destruct (obj_mm_rsgt st); [|apply (Hsame _ _ _ H)].
    destruct (dma_resv_reserve_shared e =? 0); simpl in H; [|apply (Hsame _ _ _ H)].
    step H. destruct a as [err1 s1]. apply Ret_pair_inv in H. destruct H as [<- <-].
    apply Hput.
    destruct (trylock_vm && negb (mutex_trylock e));
      [inversion Hstep; subst; split; [reflexivity | intros; reflexivity]|].
    destruct (negb trylock_vm && negb (mutex_lock_interruptible_nested e =? 0));
      [inversion Hstep; subst; split; [reflexivity | intros; reflexivity]|].
    step Hstep. destruct a as [f s2]. apply Ret_pair_inv in Hstep.
    destruct Hstep as [<- <-].
    apply __i915_vma_unbind_async_frame in Hstep0. exact Hstep0.
Qed.

Lemma i915_vma_unbind_failure_unchanged_witness :
  i915_vma_unbind benv_interrupted_sync st_bound = Ret (- EINTR, st_bound)
  /\ wakerefs st_bound = 0.
Proof.
  destruct (i915_vma_unbind_failure_unchanged benv_interrupted_sync false st_bound)
    as [H _].
  destruct (H (- EINTR) st_bound) as [Hw _]; [reflexivity|].
  split; [reflexivity | exact Hw].
Defined.

(** ** A pin that succeeds *)

Lemma land_u32_mask x m :
  0 <= m < 2 ^ 32 -> Z.land (u32 x) m = Z.land x m.
Proof.
  intros Hm. unfold u32. rewrite <- Z.land_ones by lia.
  rewrite <- Z.land_assoc. f_equal.
  rewrite Z.land_comm, Z.land_ones by lia. apply Z.mod_small. exact Hm.
Qed.

Lemma pin_step x :
  Z.land (u32 (x + 1)) I915_VMA_PIN_MASK <> 0 ->
  Z.land (u32 (x + 1)) I915_VMA_PIN_MASK = Z.land x I915_VMA_PIN_MASK + 1
  /\ Z.land (u32 (x + 1)) I915_VMA_BIND_MASK = Z.land x I915_VMA_BIND_MASK.
Proof.
  rewrite !land_u32_mask by (vm_compute; split; [discriminate | reflexivity]).
  rewrite !land_pin_mask. intros Hne.
  pose proof (Z.mod_pos_bound x 1024 ltac:(lia)) as Hm.
  pose proof (Z.div_mod x 1024 ltac:(lia)) as Hdm.
  assert (x mod 1024 <> 1023) as Hr.
  { intros E. apply Hne. symmetry. apply Z.mod_unique with (q := x / 1024 + 1); lia. }
  split.
  - symmetry. apply Z.mod_unique with (q := x / 1024); lia.
  - change I915_VMA_BIND_MASK with (Z.shiftl 3 10). apply land_high_mask.
    symmetry. apply Z.div_unique with (r := x mod 1024 + 1); lia.
Qed.

Lemma __i915_vma_pin_effect v v1 :
  __i915_vma_pin v = Ret v1 ->
  v1 = set_flags v (u32 (flags v + 1))
  /\ Z.land (flags v1) I915_VMA_PIN_MASK = Z.land (flags v) I915_VMA_PIN_MASK + 1
  /\ Z.land (flags v1) I915_VMA_BIND_MASK = Z.land (flags v) I915_VMA_BIND_MASK.
Proof.
  unfold __i915_vma_pin. intros H. cbv zeta in H. step H.
  injection H as <-. split; [reflexivity|]. cbn [flags set_flags].
  apply pin_step. unfold i915_vma_is_pinned, test_bits in Hbug.
  cbn [flags set_flags] in Hbug. apply negb_false_iff, negb_true_iff, Z.eqb_neq in Hbug.
  exact Hbug.
Qed.

Lemma i915_vma_bind_counts e vm_ f work vma_res st err st' :
  i915_vma_bind e vm_ f work vma_res st = Ret (err, st') ->
  wakerefs st' = wakerefs st /\ active_count st' = active_count st.
Proof.
  unfold i915_vma_bind. intros H. cbv zeta in H.
  destruct (vma_node st) as [node|]; [|discriminate].
  step H.
  destruct (range_overflows (start node) (node_size node) (total vm_));
    [inversion H; subst; split; reflexivity|].
  destruct (f =? 0); [inversion H; subst; split; reflexivity|].
  match type of H with (if ?c then _ else _) = _ => destruct c end;
    [inversion H; subst; split; reflexivity|].
  step H.
  match type of H with (if ?c then _ else _) = _ => destruct c end;
    [inversion H; subst; split; reflexivity|].
  step H. destruct a as [ret st2].
  assert (wakerefs st2 = wakerefs st /\ active_count st2 = active_count st) as [W A].
  { clear H.
    destruct (resource (vma st)); [|destruct vma_res];
      repeat match type of Hstep with (if ?c then _ else _) = _ => destruct c end;
      inversion Hstep; subst; split; reflexivity. }
  destruct (negb (ret =? 0)); [inversion H; subst; split; assumption|].
  inversion H; subst; clear H.
  destruct (has_obj st2); simpl; split; assumption.
Qed.

Lemma delta_pin_bind dp dq da dw st st1 :
  delta dp dq da dw st st1 ->
  Z.land (flags (vma st1)) I915_VMA_PIN_MASK = Z.land (flags (vma st)) I915_VMA_PIN_MASK
  /\ Z.land (flags (vma st1)) I915_VMA_BIND_MASK
     = Z.land (flags (vma st)) I915_VMA_BIND_MASK.
Proof.
  intros [_ Hf _ _ _ _].
  split; [apply can_fence_apart_pin | apply can_fence_apart_bind]; exact Hf.
Qed.

(** The locked part of a pin that returns 0. *)
Lemma pin_locked_success e vm_ size_ alignment flags_ work wakeref st st' :
  pin_locked e vm_ size_ alignment flags_ work wakeref st = Ret (0, st') ->
  Z.land (flags (vma st')) I915_VMA_PIN_MASK
  = Z.land (flags (vma st)) I915_VMA_PIN_MASK
    + (if test_bits flags_ PIN_VALIDATE then 0 else 1)
  /\ Z.land (flags (vma st')) I915_VMA_BIND_MASK
     = Z.lor (Z.land (flags (vma st)) I915_VMA_BIND_MASK)
             (Z.land flags_ I915_VMA_BIND_MASK)
  /\ wakerefs st' = wakerefs st - (if wakeref then 1 else 0)
  /\ active_count st' = active_count st.
Proof.
  intros H. unfold pin_locked in H. cbv zeta in H.
  assert (forall c, c <> 0 -> pin_err_rpm wakeref c st = Ret (0, st') -> False) as Hrpm.
  { intros c Hc Hr. apply pin_err_rpm_effect in Hr. destruct Hr as [Hr _]. congruence. }
  destruct (i915_vma_is_closed (vma st));
    [exfalso; eapply Hrpm; [|exact H]; vm_compute; discriminate|].
  destruct (test_bits (flags (vma st)) I915_VMA_ERROR);
    [exfalso; eapply Hrpm; [|exact H]; vm_compute; discriminate|].
  match type of H with (if ?c then _ else _) = _ => destruct c end;
    [exfalso; eapply Hrpm; [|exact H]; vm_compute; discriminate|].
  match type of H with (if ?c then _ else _) = _ => destruct c eqn:Ereq end.
  { (* every requested binding is there already *)
    apply Z.eqb_eq in Ereq. step H. rename a into s1.
    apply pin_err_rpm_effect in H. destruct H as (_ & _ & Hd).
    destruct (delta_pin_bind _ _ _ _ _ _ Hd) as [Hp Hb].
    rewrite Hp, Hb. pose proof (d_wake _ _ _ _ _ _ Hd) as Hw.
    pose proof (d_active _ _ _ _ _ _ Hd) as Ha.
    assert (Z.land (flags (vma st)) I915_VMA_BIND_MASK
            = Z.lor (Z.land (flags (vma st)) I915_VMA_BIND_MASK)
                    (Z.land flags_ I915_VMA_BIND_MASK)) as Hsub
      by (clear - Ereq; bitwise).
    destruct (test_bits flags_ PIN_VALIDATE); simpl in Hstep.
    - injection Hstep as <-. repeat split; try exact Hsub; destruct wakeref; lia.
    - step Hstep. injection Hstep as <-.
      apply __i915_vma_pin_effect in Hstep0. destruct Hstep0 as (_ & P & B).
      proj. rewrite P, B. repeat split; try exact Hsub; destruct wakeref; lia. }
  clear Hrpm.
  match type of H with (if ?c then _ else _) = _ => destruct c eqn:Eacq end.
  { apply pin_err_rpm_effect in H. destruct H as [H _].
    apply negb_true_iff, Z.eqb_neq in Eacq. congruence. }
  step H. destruct a as [err1 s1].
  destruct (err1 =? 0) eqn:E1; simpl in H.
  2:{ apply pin_err_active_effect in H. destruct H as [H _].
      apply Z.eqb_neq in E1. congruence. }
  apply Z.eqb_eq in E1. subst err1.
  assert (delta 0 0 1 0 st s1) as Hd1.
  { assert (delta 0 0 1 0 st (active_acquired st)) as Hacq
      by (constructor; simpl; try reflexivity; lia).
    destruct (test_bits (flags (vma st)) I915_VMA_BIND_MASK); simpl in Hstep.
    - injection Hstep as <-. exact Hacq.
    - step Hstep. destruct a as [err0 s0].
      destruct (i915_vma_insert_effect _ _ _ _ _ _ _ _ Hstep0) as (Hd0 & _).
      destruct (err0 =? 0); simpl in Hstep; [|injection Hstep as _ <-;
        eapply delta_eq; [exact (delta_trans _ _ _ _ _ _ _ _ _ _ _ Hacq Hd0)| | | |]; lia].
      destruct (is_ggtt vm_).
      + step Hstep. injection Hstep as <-.
        apply set_map_and_fenceable_effect in Hstep1. destruct Hstep1 as [_ Hdm].
        eapply delta_eq;
          [exact (delta_trans _ _ _ _ _ _ _ _ _ _ _ Hacq
                    (delta_trans _ _ _ _ _ _ _ _ _ _ _ Hd0 Hdm))| | | |]; lia.
      + injection Hstep as <-.
        eapply delta_eq; [exact (delta_trans _ _ _ _ _ _ _ _ _ _ _ Hacq Hd0)| | | |]; lia. }
  clear Hstep.
  step H. step H. destruct a as [err2 s2].
  destruct (err2 =? 0) eqn:E2; simpl in H.
  2:{ apply pin_err_remove_effect in H. destruct H as [H _].
      apply Z.eqb_neq in E2. congruence. }
  apply Z.eqb_eq in E2. subst err2.
  pose proof Hstep as Hbind.
  apply i915_vma_bind_ok in Hstep. destruct Hstep as (F2 & _ & _ & P2 & A2 & N2 & B2).
  step H. step H. rename a into s3. step H. step H. rename a into m. step H.
  apply pin_err_remove_effect in H. destruct H as (_ & Hd & _).
  destruct (delta_pin_bind _ _ _ _ _ _ Hd) as [Hp Hb].
  destruct (delta_pin_bind _ _ _ _ _ _ Hd1) as [Hp1 Hb1].
  pose proof (d_wake _ _ _ _ _ _ Hd) as Hw. pose proof (d_active _ _ _ _ _ _ Hd) as Ha.
  pose proof (d_wake _ _ _ _ _ _ Hd1) as Hw1. pose proof (d_active _ _ _ _ _ _ Hd1) as Ha1.
  assert (Z.land (flags (vma s2)) I915_VMA_PIN_MASK
          = Z.land (flags (vma st)) I915_VMA_PIN_MASK
          /\ Z.land (flags (vma s2)) I915_VMA_BIND_MASK
             = Z.lor (Z.land (flags (vma st)) I915_VMA_BIND_MASK)
                     (Z.land flags_ I915_VMA_BIND_MASK)) as [Hp2 Hb2].
  { rewrite F2, <- Hp1, <- Hb1.
    rewrite (land_u32_mask flags_ I915_VMA_BIND_MASK)
      by (vm_compute; split; [discriminate | reflexivity]).
    assert (Z.land I915_VMA_BIND_MASK I915_VMA_PIN_MASK = 0) as Hdisj by reflexivity.
    split; [clear - Hdisj; bitwise | clear; bitwise]. }
  assert (wakerefs s2 = wakerefs s1 /\ active_count s2 = active_count s1) as [Hw2 Ha2].
  { eapply i915_vma_bind_counts. exact Hbind. }
  assert (Z.land (flags (vma s3)) I915_VMA_PIN_MASK
          = Z.land (flags (vma s2)) I915_VMA_PIN_MASK
            + (if test_bits flags_ PIN_VALIDATE then 0 else 1)
          /\ Z.land (flags (vma s3)) I915_VMA_BIND_MASK
             = Z.land (flags (vma s2)) I915_VMA_BIND_MASK
          /\ wakerefs s3 = wakerefs s2 /\ active_count s3 = active_count s2)
    as (Hp3 & Hb3 & Hw3 & Ha3).
  { destruct (test_bits flags_ PIN_VALIDATE); cbn [negb] in Hstep.
    - injection Hstep as <-. proj. repeat split; lia.
    - step Hstep. injection Hstep as <-.
      apply __i915_vma_pin_effect in Hstep1. destruct Hstep1 as (_ & P & B).
      proj. rewrite P, B. repeat split. }
  rewrite Hp, Hb, Hp3, Hb3, Hp2, Hb2.
  repeat split; destruct wakeref; lia.
Qed.


Lemma test_bits_u32 x m :
  0 <= m < 2 ^ 32 -> test_bits (u32 x) m = test_bits x m.
Proof. intros Hm. unfold test_bits. rewrite land_u32_mask by exact Hm. reflexivity. Qed.

Lemma land_subset x y :
  Z.land x y = x -> Z.land x (Z.lnot y) = 0.
Proof.
  intros H. apply Z.bits_inj'. intros n Hn.
  assert (Z.testbit (Z.land x y) n = Z.testbit x n) as Hb by (rewrite H; reflexivity).
  rewrite Z.land_spec in Hb. rewrite Z.land_spec, Z.lnot_spec, Z.bits_0 by exact Hn.
  destruct (Z.testbit x n), (Z.testbit y n); simpl in *; congruence.
Qed.

Lemma try_qad_pin_true f st st1 :
  try_qad_pin (u32 f) st = Ret (true, st1) ->
  Z.land (flags (vma st1)) I915_VMA_PIN_MASK
  = Z.land (flags (vma st)) I915_VMA_PIN_MASK
    + (if test_bits f PIN_VALIDATE then 0 else 1)
  /\ Z.land (flags (vma st1)) I915_VMA_BIND_MASK
     = Z.lor (Z.land (flags (vma st)) I915_VMA_BIND_MASK)
             (Z.land f I915_VMA_BIND_MASK)
  /\ wakerefs st1 = wakerefs st /\ active_count st1 = active_count st.
Proof.
  unfold try_qad_pin. intros H. cbv zeta in H.
  rewrite test_bits_u32 in H by (vm_compute; split; [discriminate | reflexivity]).
  rewrite (land_u32_mask f I915_VMA_BIND_MASK) in H
    by (vm_compute; split; [discriminate | reflexivity]).
  destruct (test_bits f PIN_VALIDATE).
  - injection H as Heq <-. apply Z.eqb_eq, land_subset in Heq.
    repeat split; try lia. clear - Heq. bitwise.
  - unfold test_bits at 1 in H.
    destruct (Z.land (Z.land f I915_VMA_BIND_MASK) (Z.lnot (flags (vma st))) =? 0)
      eqn:E1; cbn [negb] in H; [|discriminate].
    apply Z.eqb_eq in E1.
    destruct (test_bits (flags (vma st)) (Z.lor I915_VMA_OVERFLOW I915_VMA_ERROR));
      [discriminate|].
    step H. injection H as <-. proj.
    apply Z.eqb_neq in Hbug.
    rewrite <- (land_u32_mask (flags (vma st) + 1) I915_VMA_PIN_MASK) in Hbug
      by (vm_compute; split; [discriminate | reflexivity]).
    destruct (pin_step _ Hbug) as [P B]. rewrite P, B.
    repeat split. clear - E1. bitwise.
Qed.

(** X13. A pin that returns 0 leaves the VMA bound for every binding that
    was asked for: the bind bits of vma->flags afterwards are the old ones
    together with the GLOBAL_BIND and LOCAL_BIND bits of the request. The
    pin count is one higher, or the same when PIN_VALIDATE was passed. The
    wakeref taken for a global pin and the reference on vma->active are
    given back on the way out. An error pointer of the resource allocator
    is taken to carry an errno other than 0, as every ERR_PTR does. *)
Theorem i915_vma_pin_ww_success e vm_ size_ alignment flags_ st st' :
  i915_vma_resource_alloc e <> ERR 0 ->
  i915_vma_pin_ww e vm_ size_ alignment flags_ st = Ret (0, st') ->
  Z.land (flags (vma st')) I915_VMA_PIN_MASK
  = Z.land (flags (vma st)) I915_VMA_PIN_MASK
    + (if test_bits flags_ PIN_VALIDATE then 0 else 1)
  /\ Z.land (flags (vma st')) I915_VMA_BIND_MASK
     = Z.lor (Z.land (flags (vma st)) I915_VMA_BIND_MASK)
             (Z.land flags_ I915_VMA_BIND_MASK)
  /\ wakerefs st' = wakerefs st /\ active_count st' = active_count st.
Proof.
  unfold i915_vma_pin_ww. intros Hres H. step H. step H. destruct a as [pinned s0].
  destruct pinned.
  { injection H as <-. apply try_qad_pin_true. exact Hstep. }
  apply try_qad_pin_false in Hstep. subst s0.
  step H. destruct a as [err1 s1].
  destruct (err1 =? 0) eqn:E1; cbn [negb] in H;
    [|injection H as -> _; apply Z.eqb_neq in E1; congruence].
  apply Z.eqb_eq in E1. subst err1.
  apply i915_vma_get_pages_effect in Hstep. destruct Hstep as (_ & _ & Hd1).
  specialize (Hd1 eq_refl).
  destruct (delta_pin_bind _ _ _ _ _ _ Hd1) as [Hp1 Hb1].
  pose proof (d_wake _ _ _ _ _ _ Hd1) as Hw1.
  pose proof (d_active _ _ _ _ _ _ Hd1) as Ha1.
  cbv zeta in H.
  set (s2 := if test_bits flags_ PIN_GLOBAL then intel_runtime_pm_get s1 else s1) in *.
  assert (flags (vma s2) = flags (vma s1)
          /\ wakerefs s2 = wakerefs s1 + (if test_bits flags_ PIN_GLOBAL then 1 else 0)
          /\ active_count s2 = active_count s1) as (F2 & W2 & A2).
  { subst s2. destruct (test_bits flags_ PIN_GLOBAL); simpl; repeat split; lia. }
  clearbody s2.
  assert (forall c, c <> 0 ->
            pin_err_rpm (test_bits flags_ PIN_GLOBAL) c s2 = Ret (0, st') -> False) as Hrpm.
  { intros c Hc Hr. apply pin_err_rpm_effect in Hr. destruct Hr as [Hr _]. congruence. }
  match type of H with match ?p with _ => _ end = _ => destruct p as [err | work] eqn:Eprep end.
  { exfalso. apply (Hrpm err); [|exact H].
    repeat match type of Eprep with
           | (if negb (?x =? 0) then _ else _) = _ =>
               destruct (x =? 0) eqn:?; cbn [negb] in Eprep
           | (if ?c then _ else _) = _ => destruct c
           end; try discriminate; injection Eprep as <-;
      try (apply Z.eqb_neq; assumption); vm_compute; discriminate. }
  assert (pin_locked e vm_ size_ alignment flags_ work (test_bits flags_ PIN_GLOBAL) s2
          = Ret (0, st')) as Hl.
  { destruct (i915_vma_resource_alloc e) as [|err|];
      try (destruct (mutex_lock_interruptible_nested e =? 0) eqn:Em; cbn [negb] in H;
           [exact H | exfalso; apply (Hrpm _ ltac:(apply Z.eqb_neq; exact Em) H)]).
    exfalso. apply (Hrpm err); [|exact H]. intros ->. apply Hres. reflexivity. }
  apply pin_locked_success in Hl. destruct Hl as (P & B & W & A).
  rewrite P, B, F2, Hp1, Hb1.
  repeat split; destruct (test_bits flags_ PIN_GLOBAL); lia.
Qed.

Lemma i915_vma_pin_ww_success_witness :
  exists st',
    i915_vma_pin_ww benv_ok ggtt 0 0 PIN_GLOBAL st_unbound = Ret (0, st')
    /\ Z.land (flags (vma st')) I915_VMA_PIN_MASK = 1
    /\ Z.land (flags (vma st')) I915_VMA_BIND_MASK = I915_VMA_GLOBAL_BIND
    /\ wakerefs st' = wakerefs st_unbound.
Proof.
  eexists.
  match goal with
  | |- i915_vma_pin_ww _ _ _ _ _ _ = Ret (0, ?s) /\ _ =>
      destruct (i915_vma_pin_ww_success benv_ok ggtt 0 0 PIN_GLOBAL st_unbound s)
        as (Hp & Hb & Hw & _)
  end.
  - vm_compute. discriminate.
  - vm_compute. reflexivity.
  - split; [vm_compute; reflexivity|]. split; [exact Hp|]. split; [exact Hb | exact Hw].
Defined.

End PinProofs.

(* ================================================================== *)
(** * Part 8: what a move leaves behind *)
(* ================================================================== *)
Module MoveProofs.
Import Migrate MigrateScenarios MoveScenarios MigrateCopy CopyScenarios MigrateProofs.

(** ** The state after a successful move *)

Lemma run_to_idle_books e st : same_books st (run_to_idle e st).
Proof.
  assert (forall l s, same_books s (fold_left (fun s w => __memcpy_irq_work w s) l s)) as Hi.
  { induction l as [|w l IH]; intros s; [apply same_books_refl|]. simpl.
    eapply same_books_trans; [|apply IH]. repeat split. }
  assert (forall l s, same_books s (fold_left (fun s w => __memcpy_work w s) l s)) as Hw.
  { induction l as [|w l IH]; intros s; [apply same_books_refl|]. simpl.
    eapply same_books_trans; [|apply IH]. repeat split. }
  unfold run_to_idle, run_workqueue, run_irq_work.
  eapply same_books_trans; [|eapply same_books_trans; [|apply Hw]; repeat split].
  eapply same_books_trans; [|eapply same_books_trans; [|apply Hi]; repeat split].
  unfold dma_fence_signal_rq.
  pose proof (gpu_complete_books e st) as Hg.
  destruct (rq_cb (gpu_complete e st)); [|exact Hg].
  eapply same_books_trans; [exact Hg|].
  unfold __memcpy_cb. destruct (_ || _); repeat split.
Qed.

(** The caching of the page vector of a buffer, if it has one. *)
Lemma caching_populated t : caching (ttm_tt_populated t) = caching t.
Proof. reflexivity. Qed.

Lemma land_flag_choice f (b : bool) :
  Z.land (Z.lor (Z.land f (Z.lnot (Z.lor I915_BO_FLAG_STRUCT_PAGE I915_BO_FLAG_IOMEM)))
                (if b then I915_BO_FLAG_IOMEM else I915_BO_FLAG_STRUCT_PAGE))
         (Z.lor I915_BO_FLAG_STRUCT_PAGE I915_BO_FLAG_IOMEM)
  = (if b then I915_BO_FLAG_IOMEM else I915_BO_FLAG_STRUCT_PAGE)
  /\ Z.land (Z.lor (Z.land f (Z.lnot (Z.lor I915_BO_FLAG_STRUCT_PAGE I915_BO_FLAG_IOMEM)))
                   (if b then I915_BO_FLAG_IOMEM else I915_BO_FLAG_STRUCT_PAGE))
            (Z.lnot (Z.lor I915_BO_FLAG_STRUCT_PAGE I915_BO_FLAG_IOMEM))
     = Z.land f (Z.lnot (Z.lor I915_BO_FLAG_STRUCT_PAGE I915_BO_FLAG_IOMEM)).
Proof.
  split; apply Z.bits_inj'; intros n Hn;
    rewrite ?Z.land_spec, ?Z.lor_spec, ?Z.land_spec, ?Z.lnot_spec, ?Z.lor_spec by exact Hn;
    destruct b;
    destruct (Z.testbit f n), (Z.testbit I915_BO_FLAG_STRUCT_PAGE n) eqn:E1,
      (Z.testbit I915_BO_FLAG_IOMEM n) eqn:E2; try reflexivity; exfalso;
    (destruct (Z.eq_dec n 0) as [->|]; [vm_compute in E1; vm_compute in E2; congruence|]);
    (destruct (Z.eq_dec n 1) as [->|]; [vm_compute in E1; vm_compute in E2; congruence|]);
    (assert (Z.testbit 1 n = false) as H1
       by (change 1 with (2 ^ 0); apply Z.pow2_bits_false; lia));
    (assert (Z.testbit 2 n = false) as H2
       by (change 2 with (2 ^ 1); apply Z.pow2_bits_false; lia));
    unfold I915_BO_FLAG_STRUCT_PAGE, I915_BO_FLAG_IOMEM in *; congruence.
Qed.

Lemma placement_for_some o ty mr :
  placement_for o ty = Some mr ->
  In mr (mm_placements o) /\ intel_region_to_ttm_type mr = ty.
Proof.
  unfold placement_for. intros H. apply find_some in H. destruct H as [Hin Hb].
  apply andb_true_iff in Hb. destruct Hb as [Hb _]. apply Z.eqb_eq in Hb.
  split; assumption.
Qed.

Lemma placement_for_none o ty mr :
  placement_for o ty = None ->
  intel_region_to_ttm_type (mm_region o) <> ty ->
  In mr (mm_placements o) -> intel_region_to_ttm_type mr <> ty.
Proof.
  unfold placement_for. intros H Hcur Hin Hty.
  pose proof (find_none _ _ H mr Hin) as Hb. cbv beta in Hb.
  rewrite Hty, Z.eqb_refl in Hb. cbn [andb] in Hb.
  apply negb_false_iff in Hb. unfold region_eqb in Hb.
  apply andb_true_iff in Hb. destruct Hb as [H1 H2].
  apply Z.eqb_eq in H1, H2. apply Hcur. rewrite <- Hty.
  unfold intel_region_to_ttm_type. rewrite H1, H2. reflexivity.
Qed.

(** The epilogue of i915_ttm_move, from the state in which the buffer has
    been given its new resource. *)
Lemma move_epilogue e dst_mem rs s2 :
  resource (bo s2) = dst_mem ->
  let io := i915_ttm_cpu_maps_iomem dst_mem in
  let cached := match ttm (bo s2) with
                | Some t => ttm_caching_eqb (caching t) ttm_cached
                | None => false
                end in
  let o := obj s2 in
  let s3 := i915_ttm_free_cached_io_rsgt (i915_ttm_adjust_domains_after_move s2) in
  let s4 := if i915_ttm_gtt_binds_lmem dst_mem || i915_ttm_cpu_maps_iomem dst_mem
            then set_cached_io_rsgt s3 (Some rs) 0 else s3 in
  let st' := i915_ttm_adjust_gem_after_move e s4 in
  bo st' = bo s2
  /\ Z.land (mem_flags (obj st')) (Z.lor I915_BO_FLAG_STRUCT_PAGE I915_BO_FLAG_IOMEM)
     = (if io then I915_BO_FLAG_IOMEM else I915_BO_FLAG_STRUCT_PAGE)
  /\ Z.land (mem_flags (obj st')) (Z.lnot (Z.lor I915_BO_FLAG_STRUCT_PAGE I915_BO_FLAG_IOMEM))
     = Z.land (mem_flags o) (Z.lnot (Z.lor I915_BO_FLAG_STRUCT_PAGE I915_BO_FLAG_IOMEM))
  /\ read_domains (obj st')
     = (if io || negb cached then I915_GEM_DOMAIN_WC else I915_GEM_DOMAIN_CPU)
  /\ write_domain (obj st') = read_domains (obj st')
  /\ cache_level (obj st')
     = (if (HAS_LLC e || HAS_SNOOP e) && negb io && cached
        then I915_CACHE_LLC else I915_CACHE_NONE)
  /\ cached_io_rsgt (obj st') = (if io then Some rs else None)
  /\ (mm_region (obj st') = mm_region o \/ In (mm_region (obj st')) (mm_placements o))
  /\ (intel_region_to_ttm_type (mm_region o) = mem_type dst_mem
      \/ (exists mr, In mr (mm_placements o)
                     /\ intel_region_to_ttm_type mr = mem_type dst_mem) ->
      intel_region_to_ttm_type (mm_region (obj st')) = mem_type dst_mem)
  /\ mm_madv (obj st') = mm_madv o
  /\ mm_placements (obj st') = mm_placements o.
Proof.
  intros Hres io cached o s3 s4 st'.
  assert (obj s4 = {| mm_region := mm_region o; mm_placements := mm_placements o;
                      mm_madv := mm_madv o; mem_flags := mem_flags o;
                      cache_level := cache_level o;
                      read_domains := (if io || negb cached then I915_GEM_DOMAIN_WC
                                       else I915_GEM_DOMAIN_CPU);
                      write_domain := (if io || negb cached then I915_GEM_DOMAIN_WC
                                       else I915_GEM_DOMAIN_CPU);
                      cached_io_rsgt := (if io then Some rs else None);
                      get_io_page_sg_idx := (if io then 0 else get_io_page_sg_idx o) |}
          /\ bo s4 = bo s2) as [Ho4 Hb4].
  { subst s4 s3 io cached o. unfold i915_ttm_gtt_binds_lmem, i915_ttm_cpu_maps_iomem.
    rewrite orb_diag.
    destruct (negb (mem_type dst_mem =? I915_PL_SYSTEM)) eqn:Eio;
      unfold i915_ttm_free_cached_io_rsgt, set_cached_io_rsgt,
        i915_ttm_adjust_domains_after_move, i915_ttm_cpu_maps_iomem;
      cbn [obj bo set_obj mm_region mm_placements mm_madv mem_flags cache_level
             read_domains write_domain cached_io_rsgt get_io_page_sg_idx];
      rewrite Hres, Eio; split; reflexivity. }
  subst st'. unfold i915_ttm_adjust_gem_after_move.
  cbn [obj bo set_obj mm_region mm_placements mm_madv mem_flags cache_level
         read_domains write_domain cached_io_rsgt get_io_page_sg_idx].
  rewrite Hb4, Hres, Ho4.
  cbn [obj bo set_obj mm_region mm_placements mm_madv mem_flags cache_level
         read_domains write_domain cached_io_rsgt get_io_page_sg_idx].
  fold io.
  destruct (land_flag_choice (mem_flags o) io) as [Hf1 Hf2].
  split; [reflexivity|]. split; [exact Hf1|]. split; [exact Hf2|].
  split; [reflexivity|]. split; [reflexivity|].
  split.
  { unfold i915_ttm_cache_level, i915_ttm_gtt_binds_lmem. fold (i915_ttm_cpu_maps_iomem dst_mem).
    fold io. fold cached. reflexivity. }
  split; [reflexivity|].
  unfold placement_for.
  cbn [obj bo set_obj mm_region mm_placements mm_madv mem_flags cache_level
         read_domains write_domain cached_io_rsgt get_io_page_sg_idx].
  fold (placement_for o (mem_type dst_mem)).
  destruct (intel_region_to_ttm_type (mm_region o) =? mem_type dst_mem) eqn:Ecur;
    cbn [negb].
  { apply Z.eqb_eq in Ecur. split; [left; reflexivity|]. split; [intros _; exact Ecur|].
    split; reflexivity. }
  apply Z.eqb_neq in Ecur.
  destruct (placement_for o (mem_type dst_mem)) as [mr|] eqn:Ep.
  - destruct (placement_for_some _ _ _ Ep) as [Hin Hty].
    split; [right; exact Hin|]. split; [intros _; exact Hty|]. split; reflexivity.
  - split; [left; reflexivity|]. split; [|split; reflexivity].
    intros [Hc | (mr & Hin & Hty)]; [contradiction|].
    exfalso. exact (placement_for_none _ _ _ Ep Ecur Hin Hty).
Qed.

Lemma ERR_PTR_not_zero (A : Type) (x : Z) : @ERR_PTR A x <> ERR 0.
Proof.
  unfold ERR_PTR. destruct (x =? 0) eqn:E; [discriminate|].
  apply Z.eqb_neq in E. congruence.
Qed.

Lemma __i915_ttm_move_error e c dm dt dr accel deps st f s1 :
  __i915_ttm_move e c dm dt dr accel deps st = (f, s1) ->
  f <> ERR 0.
Proof.
  intros H. unfold __i915_ttm_move in H.
  assert (forall w s, fst (cpu_copy_now w c dm dt dr s) <> ERR (A := dma_fence) 0) as Hcpu
    by (intros; discriminate).
  assert (forall w s, fst (i915_ttm_memcpy_work_arm e w s) <> ERR 0) as Harm.
  { intros w s. unfold i915_ttm_memcpy_work_arm.
    destruct (negb (dma_fence_add_callback e =? 0)); cbn [fst];
      [apply ERR_PTR_not_zero | discriminate]. }
  destruct accel.
  - destruct (i915_ttm_accel_move e c dm dt dr st) as [f0 s0] eqn:Ea.
    destruct (IS_ERR f0) eqn:Eerr; cbn [negb andb] in H.
    + destruct deps.
      * destruct (negb (i915_deps_sync e =? 0)).
        -- injection H as <- _. apply ERR_PTR_not_zero.
        -- intros ->. eapply Hcpu. rewrite H. reflexivity.
      * intros ->. eapply Hcpu. rewrite H. reflexivity.
    + match type of H with (if ?c then _ else _) = _ => destruct c end.
      { injection H as <- _. intros ->. discriminate. }
      match type of H with (if ?c then _ else _) = _ => destruct c end.
      * pose proof (Harm {| arg := i915_ttm_memcpy_init (log ev_kzalloc_work s0) c dm dt dr |}
                      (log ev_kzalloc_work s0)) as Hw.
        destruct (i915_ttm_memcpy_work_arm e _ (log ev_kzalloc_work s0)) as [f2 s2].
        cbn [fst] in Hw.
        destruct (negb (IS_ERR f2)); [injection H as <- _; exact Hw|].
        intros ->. eapply Hcpu. rewrite H. reflexivity.
      * match type of H with (if ?c then _ else _) = _ => destruct c end.
        -- injection H as <- _. apply ERR_PTR_not_zero.
        -- intros ->. eapply Hcpu. rewrite H. reflexivity.
  - cbn [andb IS_ERR ERR_PTR negb] in H.
    change (IS_ERR (@ERR_PTR dma_fence (- EINVAL))) with true in H. cbn [negb] in H.
    destruct deps.
    + destruct (negb (i915_deps_sync e =? 0)).
      * injection H as <- _. apply ERR_PTR_not_zero.
      * intros ->. eapply Hcpu. rewrite H. reflexivity.
    + intros ->. eapply Hcpu. rewrite H. reflexivity.
Qed.

(** X14. What a successful move leaves behind. When i915_ttm_move returns
    0 for an object that is still needed, the buffer sits in the
    destination resource and the GEM object agrees with it: of the two
    mem_flags bits exactly IOMEM is set for device memory and exactly
    STRUCT_PAGE for system memory, all other flag bits are kept; read and
    write domain are both WC for device memory or pages that are not
    cached, and both CPU otherwise; the cache level is LLC only for cached
    system pages on a device with LLC or snooping; the cached io table is
    the one of the destination for device memory and none for system
    memory; the region is the old one or one of the object's placements,
    and has the type of the destination whenever the old region or a
    placement has it. The error pointer of the destination table is taken
    to carry an errno other than 0. *)
Theorem i915_ttm_move_success_state e evict dst_mem st st' :
  gem_obj_present e = true ->
  mm_madv (obj st) = I915_MADV_WILLNEED ->
  dst_get_st e <> ERR 0 ->
  i915_ttm_move e evict dst_mem st = (0, st') ->
  let io := i915_ttm_cpu_maps_iomem dst_mem in
  let cached := match ttm (bo st) with
                | Some t => ttm_caching_eqb (caching t) ttm_cached
                | None => false
                end in
  resource (bo st') = dst_mem
  /\ Z.land (mem_flags (obj st')) (Z.lor I915_BO_FLAG_STRUCT_PAGE I915_BO_FLAG_IOMEM)
     = (if io then I915_BO_FLAG_IOMEM else I915_BO_FLAG_STRUCT_PAGE)
  /\ Z.land (mem_flags (obj st')) (Z.lnot (Z.lor I915_BO_FLAG_STRUCT_PAGE I915_BO_FLAG_IOMEM))
     = Z.land (mem_flags (obj st))
         (Z.lnot (Z.lor I915_BO_FLAG_STRUCT_PAGE I915_BO_FLAG_IOMEM))
  /\ read_domains (obj st')
     = (if io || negb cached then I915_GEM_DOMAIN_WC else I915_GEM_DOMAIN_CPU)
  /\ write_domain (obj st') = read_domains (obj st')
  /\ cache_level (obj st')
     = (if (HAS_LLC e || HAS_SNOOP e) && negb io && cached
        then I915_CACHE_LLC else I915_CACHE_NONE)
  /\ cached_io_rsgt (obj st')
     = (if io then Some (match dst_get_st e with PTR r => r | _ => 0 end) else None)
  /\ (mm_region (obj st') = mm_region (obj st)
      \/ In (mm_region (obj st')) (mm_placements (obj st)))
  /\ (intel_region_to_ttm_type (mm_region (obj st)) = mem_type dst_mem
      \/ (exists mr, In mr (mm_placements (obj st))
                     /\ intel_region_to_ttm_type mr = mem_type dst_mem) ->
      intel_region_to_ttm_type (mm_region (obj st')) = mem_type dst_mem)
  /\ mm_madv (obj st') = mm_madv (obj st)
  /\ mm_placements (obj st') = mm_placements (obj st).
Proof.
  intros Hobj Hmadv Hdst Hmove io cached.
  unfold i915_ttm_move in Hmove. rewrite Hobj, Hmadv in Hmove.
  cbn [negb] in Hmove. rewrite Z.eqb_refl in Hmove. cbn [negb] in Hmove.
  destruct (negb (i915_ttm_move_notify e =? 0)) eqn:En.
  { injection Hmove as Hz _. rewrite Hz in En. discriminate. }
  (* the copy and the epilogue, from any state with the same books *)
  assert (forall s1 rs,
            obj s1 = obj st -> resource (bo s1) = resource (bo st) ->
            match ttm (bo s1) with
            | Some t => ttm_caching_eqb (caching t) ttm_cached
            | None => false
            end = cached ->
            i915_ttm_move_copy e evict dst_mem rs s1 = (0, st') ->
            exists s2, obj s2 = obj st /\ resource (bo s2) = dst_mem
                       /\ ttm (bo s2) = ttm (bo s1)
                       /\ st' = i915_ttm_adjust_gem_after_move e
                                  (if i915_ttm_gtt_binds_lmem dst_mem
                                      || i915_ttm_cpu_maps_iomem dst_mem
                                   then set_cached_io_rsgt
                                          (i915_ttm_free_cached_io_rsgt
                                             (i915_ttm_adjust_domains_after_move s2))
                                          (Some rs) 0
                                   else i915_ttm_free_cached_io_rsgt
                                          (i915_ttm_adjust_domains_after_move s2)))
    as Hcopy.
  { intros s1 rs Ho1 Hr1 Hc1 Hc. unfold i915_ttm_move_copy in Hc.
    set (clr := negb (i915_ttm_cpu_maps_iomem (resource (bo s1))) && _) in Hc.
    assert (forall (f : ptr dma_fence) s, same_books s1 s -> f <> ERR 0 ->
              (if IS_ERR f then (PTR_ERR f, s)
               else (0, i915_ttm_adjust_gem_after_move e
                          (if i915_ttm_gtt_binds_lmem dst_mem
                              || i915_ttm_cpu_maps_iomem dst_mem
                           then set_cached_io_rsgt
                                  (i915_ttm_free_cached_io_rsgt
                                     (i915_ttm_adjust_domains_after_move
                                        match f with
                                        | PTR _ =>
                                            if negb (ttm_bo_move_accel_cleanup e =? 0)
                                            then ttm_bo_move_sync_cleanup dst_mem
                                                   (run_to_idle e (log ev_accel_cleanup s))
                                            else ttm_bo_assign_mem dst_mem
                                                   (log ev_accel_cleanup s)
                                        | _ => ttm_bo_move_sync_cleanup dst_mem s
                                        end))
                                  (Some rs) 0
                           else i915_ttm_free_cached_io_rsgt
                                  (i915_ttm_adjust_domains_after_move
                                     match f with
                                     | PTR _ =>
                                         if negb (ttm_bo_move_accel_cleanup e =? 0)
                                         then ttm_bo_move_sync_cleanup dst_mem
                                                (run_to_idle e (log ev_accel_cleanup s))
                                         else ttm_bo_assign_mem dst_mem
                                                (log ev_accel_cleanup s)
                                     | _ => ttm_bo_move_sync_cleanup dst_mem s
                                     end)))) = (0, st') ->
              exists s2, obj s2 = obj st /\ resource (bo s2) = dst_mem
                         /\ ttm (bo s2) = ttm (bo s1)
                         /\ st' = i915_ttm_adjust_gem_after_move e
                                    (if i915_ttm_gtt_binds_lmem dst_mem
                                        || i915_ttm_cpu_maps_iomem dst_mem
                                     then set_cached_io_rsgt
                                            (i915_ttm_free_cached_io_rsgt
                                               (i915_ttm_adjust_domains_after_move s2))
                                            (Some rs) 0
                                     else i915_ttm_free_cached_io_rsgt
                                            (i915_ttm_adjust_domains_after_move s2))) as Htail.
    { intros f s (Hso & Hsb & _) Hf Ht.
      destruct f as [|err|fence]; cbn [IS_ERR PTR_ERR] in Ht.
      - injection Ht as <-. eexists. split; [|split; [|split; [|reflexivity]]].
        + simpl. congruence.
        + reflexivity.
        + simpl. rewrite Hsb. reflexivity.
      - injection Ht as -> _. contradiction.
      - injection Ht as <-.
        pose proof (run_to_idle_books e (log ev_accel_cleanup s)) as (Hro & Hrb & _).
        destruct (negb (ttm_bo_move_accel_cleanup e =? 0));
          (eexists; split; [|split; [|split; [|reflexivity]]]);
          try reflexivity; simpl; try rewrite Hro; try rewrite Hrb; simpl; congruence. }
    destruct (negb (clr && _)).
    - destruct (negb (prev_deps e =? 0)) eqn:Ed.
      + injection Hc as Hz _. rewrite Hz in Ed. discriminate.
      + destruct (__i915_ttm_move e clr dst_mem (ttm (bo s1)) rs true true s1)
          as [f s] eqn:Em.
        pose proof (__i915_ttm_move_books e clr dst_mem (ttm (bo s1)) rs true true s1) as Hb.
        rewrite Em in Hb. cbn [snd] in Hb.
        eapply Htail; [exact Hb | | exact Hc].
        eapply __i915_ttm_move_error. exact Em.
    - eapply (Htail NULL s1); [apply same_books_refl | discriminate | exact Hc]. }
  assert (forall s1 rs,
            obj s1 = obj st -> resource (bo s1) = resource (bo st) ->
            match ttm (bo s1) with
            | Some t => ttm_caching_eqb (caching t) ttm_cached
            | None => false
            end = cached ->
            i915_ttm_move_copy e evict dst_mem rs s1 = (0, st') ->
            rs = match dst_get_st e with PTR r => r | _ => 0 end ->
            resource (bo st') = dst_mem
            /\ Z.land (mem_flags (obj st')) (Z.lor I915_BO_FLAG_STRUCT_PAGE I915_BO_FLAG_IOMEM)
               = (if io then I915_BO_FLAG_IOMEM else I915_BO_FLAG_STRUCT_PAGE)
            /\ Z.land (mem_flags (obj st'))
                 (Z.lnot (Z.lor I915_BO_FLAG_STRUCT_PAGE I915_BO_FLAG_IOMEM))
               = Z.land (mem_flags (obj st))
                   (Z.lnot (Z.lor I915_BO_FLAG_STRUCT_PAGE I915_BO_FLAG_IOMEM))
            /\ read_domains (obj st')
               = (if io || negb cached then I915_GEM_DOMAIN_WC else I915_GEM_DOMAIN_CPU)
            /\ write_domain (obj st') = read_domains (obj st')
            /\ cache_level (obj st')
               = (if (HAS_LLC e || HAS_SNOOP e) && negb io && cached
                  then I915_CACHE_LLC else I915_CACHE_NONE)
            /\ cached_io_rsgt (obj st')
               = (if io then Some (match dst_get_st e with PTR r => r | _ => 0 end)
                  else None)
            /\ (mm_region (obj st') = mm_region (obj st)
                \/ In (mm_region (obj st')) (mm_placements (obj st)))
            /\ (intel_region_to_ttm_type (mm_region (obj st)) = mem_type dst_mem
                \/ (exists mr, In mr (mm_placements (obj st))
                               /\ intel_region_to_ttm_type mr = mem_type dst_mem) ->
                intel_region_to_ttm_type (mm_region (obj st')) = mem_type dst_mem)
            /\ mm_madv (obj st') = mm_madv (obj st)
            /\ mm_placements (obj st') = mm_placements (obj st)) as Hall.
  { intros s1 rs Ho1 Hr1 Hc1 Hc Hrs.
    destruct (Hcopy s1 rs Ho1 Hr1 Hc1 Hc) as (s2 & Ho2 & Hr2 & Ht2 & ->).
    pose proof (move_epilogue e dst_mem rs s2 Hr2) as Hep. cbv zeta in Hep.
    destruct Hep as (Hb & Hrest). split; [rewrite Hb; exact Hr2|].
    rewrite Ht2, Hc1, Ho2 in Hrest. rewrite <- Hrs. exact Hrest. }
  destruct (ttm (bo st)) as [t|] eqn:Ht.
  - destruct (dst_man_use_tt e || _).
    + destruct (negb (ttm_tt_populate e =? 0)) eqn:Epop.
      * injection Hmove as Hz _. rewrite Hz in Epop. discriminate.
      * destruct (dst_get_st e) as [|err|r] eqn:Eg.
        -- eapply Hall; [| | |exact Hmove|]; try reflexivity.
        -- injection Hmove as -> _. contradiction.
        -- eapply Hall; [| | |exact Hmove|]; try reflexivity.
    + destruct (dst_get_st e) as [|err|r] eqn:Eg.
      * eapply Hall; [| | |exact Hmove|]; try reflexivity. rewrite Ht. reflexivity.
      * injection Hmove as -> _. contradiction.
      * eapply Hall; [| | |exact Hmove|]; try reflexivity. rewrite Ht. reflexivity.
  - destruct (dst_get_st e) as [|err|r] eqn:Eg.
    + eapply Hall; [| | |exact Hmove|]; try reflexivity. rewrite Ht. reflexivity.
    + injection Hmove as -> _. contradiction.
    + eapply Hall; [| | |exact Hmove|]; try reflexivity. rewrite Ht. reflexivity.
Qed.

(** A buffer in cached system pages moves to local memory. *)
Lemma i915_ttm_move_success_state_witness :
  fst (i915_ttm_move env_ok false lmem0 (sys_state false false)) = 0
  /\ resource (bo (snd (i915_ttm_move env_ok false lmem0 (sys_state false false)))) = lmem0
  /\ read_domains (obj (snd (i915_ttm_move env_ok false lmem0 (sys_state false false))))
     = I915_GEM_DOMAIN_WC
  /\ cached_io_rsgt (obj (snd (i915_ttm_move env_ok false lmem0 (sys_state false false))))
     = Some 7.
Proof.
  assert (fst (i915_ttm_move env_ok false lmem0 (sys_state false false)) = 0) as Hz
    by (vm_compute; reflexivity).
  split; [exact Hz|].
  destruct (i915_ttm_move_success_state env_ok false lmem0 (sys_state false false)
              (snd (i915_ttm_move env_ok false lmem0 (sys_state false false))))
    as (Hr & _ & _ & Hd & _ & _ & Hc & _).
  - reflexivity.
  - reflexivity.
  - vm_compute. discriminate.
  - rewrite <- Hz. destruct (i915_ttm_move env_ok false lmem0 (sys_state false false)).
    reflexivity.
  - split; [exact Hr|]. split; [exact Hd | exact Hc].
Defined.

(** ** Moves that never reach the GPU *)

Lemma accel_move_unavailable e c dm dt dr st :
  migrate_context e = false \/ intel_gt_is_wedged e = true ->
  i915_ttm_accel_move e c dm dt dr st = (ERR (- EINVAL), st).
Proof.
  intros H. unfold i915_ttm_accel_move.
  assert (negb (migrate_context e) || intel_gt_is_wedged e = true) as ->.
  { destruct H as [-> | ->]; [reflexivity | apply orb_true_r]. }
  reflexivity.
Qed.

Lemma __i915_ttm_move_without_gpu_cases e clear_ dst_mem dst_ttm dst_rsgt
    allow_accel move_deps st f st' :
  allow_accel = false \/ migrate_context e = false \/ intel_gt_is_wedged e = true ->
  __i915_ttm_move e clear_ dst_mem dst_ttm dst_rsgt allow_accel move_deps st = (f, st') ->
  same_books st st'
  /\ blit st' = blit st /\ rq_cb st' = rq_cb st
  /\ system_unbound_wq st' = system_unbound_wq st
  /\ irq_work_list st' = irq_work_list st
  /\ (if move_deps && negb (i915_deps_sync e =? 0)
      then f = ERR (i915_deps_sync e)
           /\ mem st' = mem st
           /\ new_events st st' = [ev_deps_sync]
      else f = NULL
           /\ mem st'
              = ttm_move_memcpy clear_ (Z.shiftr (base_size (bo st)) PAGE_SHIFT)
                  (backing dst_mem dst_ttm dst_rsgt)
                  (backing (resource (bo st)) (ttm (bo st))
                     (rsgt_ptr (cached_io_rsgt (obj st))))
                  (mem st)
           /\ new_events st st'
              = (if move_deps then [ev_deps_sync] else [])
                ++ [ev_memcpy in_caller clear_]).
Proof.
  intros Hno H. unfold __i915_ttm_move in H.
  assert ((if allow_accel then i915_ttm_accel_move e clear_ dst_mem dst_ttm dst_rsgt st
           else (ERR_PTR (- EINVAL), st)) = (ERR (- EINVAL), st)) as Hacc.
  { destruct allow_accel; [|reflexivity].
    apply accel_move_unavailable. destruct Hno as [Hf | Hno]; [discriminate | exact Hno]. }
  rewrite Hacc in H. cbn [IS_ERR negb andb] in H.
  rewrite !andb_false_r in H. cbn [andb] in H.
  destruct move_deps; cbn [andb].
  - destruct (i915_deps_sync e =? 0) eqn:Es; cbn [negb] in H |- *.
    + injection H as <- <-.
      repeat split; cbn; try reflexivity.
      apply new_events_app. cbn. rewrite <- app_assoc. reflexivity.
    + injection H as <- <-. unfold ERR_PTR. rewrite Es.
      repeat split; cbn; try reflexivity.
      apply new_events_app. reflexivity.
  - injection H as <- <-.
    repeat split; cbn; try reflexivity.
    apply new_events_app. reflexivity.
Qed.

(** X15. Without the blitter the copy is done by the CPU before
    __i915_ttm_move returns. When acceleration is not allowed, or the GT has
    no migration context or is wedged, no blit is submitted and no worker
    or callback is armed. If dependencies were passed and syncing to them
    fails, that error comes back and the memory is untouched; otherwise the
    function returns NULL after one memcpy in the caller over the whole
    buffer, from the backing of the current resource to that of the
    destination. *)
Theorem __i915_ttm_move_without_gpu e clear_ dst_mem dst_ttm dst_rsgt
    allow_accel move_deps st f st' :
  allow_accel = false \/ migrate_context e = false \/ intel_gt_is_wedged e = true ->
  __i915_ttm_move e clear_ dst_mem dst_ttm dst_rsgt allow_accel move_deps st = (f, st') ->
  same_books st st'
  /\ blit st' = blit st /\ rq_cb st' = rq_cb st
  /\ system_unbound_wq st' = system_unbound_wq st
  /\ irq_work_list st' = irq_work_list st
  /\ (if move_deps && negb (i915_deps_sync e =? 0)
      then f = ERR (i915_deps_sync e)
           /\ mem st' = mem st
           /\ new_events st st' = [ev_deps_sync]
      else f = NULL
           /\ mem st'
              = ttm_move_memcpy clear_ (Z.shiftr (base_size (bo st)) PAGE_SHIFT)
                  (backing dst_mem dst_ttm dst_rsgt)
                  (backing (resource (bo st)) (ttm (bo st))
                     (rsgt_ptr (cached_io_rsgt (obj st))))
                  (mem st)
           /\ new_events st st'
              = (if move_deps then [ev_deps_sync] else [])
                ++ [ev_memcpy in_caller clear_]).
Proof. apply __i915_ttm_move_without_gpu_cases. Qed.

(** Acceleration is not allowed: the pages are copied in the caller. *)
Lemma __i915_ttm_move_without_gpu_witness :
  fst (__i915_ttm_move env_ok false lmem0 (Some tt100) 7 false true (sys_state false false))
  = NULL
  /\ blit (snd (__i915_ttm_move env_ok false lmem0 (Some tt100) 7 false true
                  (sys_state false false))) = None
  /\ new_events (sys_state false false)
       (snd (__i915_ttm_move env_ok false lmem0 (Some tt100) 7 false true
               (sys_state false false)))
     = [ev_deps_sync; ev_memcpy in_caller false].
Proof.
  destruct (__i915_ttm_move_without_gpu env_ok false lmem0 (Some tt100) 7 false true
              (sys_state false false)
              (fst (__i915_ttm_move env_ok false lmem0 (Some tt100) 7 false true
                      (sys_state false false)))
              (snd (__i915_ttm_move env_ok false lmem0 (Some tt100) 7 false true
                      (sys_state false false))))
    as (_ & Hb & _ & _ & _ & Hr).
  - left. reflexivity.
  - destruct (__i915_ttm_move env_ok false lmem0 (Some tt100) 7 false true
                (sys_state false false)). reflexivity.
  - destruct Hr as (Hf & _ & Hev). split; [exact Hf|]. split; [exact Hb | exact Hev].
Defined.



(** ** i915_gem_obj_copy_ttm *)

(** The only error that __i915_ttm_move hands back is the one of syncing
    to the dependencies; nothing has been copied or submitted then. *)
Lemma __i915_ttm_move_err e c dm dt dr accel deps st x st' :
  __i915_ttm_move e c dm dt dr accel deps st = (ERR x, st') ->
  x <> 0 /\ x = i915_deps_sync e
  /\ mem st' = mem st /\ blit st' = blit st /\ rq_cb st' = rq_cb st
  /\ system_unbound_wq st' = system_unbound_wq st
  /\ irq_work_list st' = irq_work_list st
  /\ new_events st st' = [ev_deps_sync].
Proof.
  intros H. unfold __i915_ttm_move in H.
  assert (forall w s, cpu_copy_now w c dm dt dr s <> (ERR x, st')) as Hcpu
    by (intros w s Hc; discriminate).
  assert (forall s, (if negb (i915_deps_sync e =? 0)
                     then (ERR_PTR (i915_deps_sync e), log ev_deps_sync s)
                     else cpu_copy_now None c dm dt dr (log ev_deps_sync s)) = (ERR x, st') ->
            x <> 0 /\ x = i915_deps_sync e /\ st' = log ev_deps_sync s) as Hsync.
  { intros s Hs. destruct (i915_deps_sync e =? 0) eqn:E; cbn [negb] in Hs.
    - exfalso. exact (Hcpu _ _ Hs).
    - unfold ERR_PTR in Hs. rewrite E in Hs. injection Hs as <- <-.
      apply Z.eqb_neq in E. repeat split. exact E. }
  destruct accel.
  - destruct (i915_ttm_accel_move e c dm dt dr st) as [f0 s0] eqn:Ea.
    destruct (IS_ERR f0) eqn:Eerr; cbn [negb andb] in H.
    + assert (s0 = st) as ->.
      { unfold i915_ttm_accel_move in Ea.
        assert (forall b, IS_ERR (fst (submit_blit e b st)) = true ->
                  snd (submit_blit e b st) = st) as Hsub.
        { intros b. unfold submit_blit.
          destruct (negb (intel_context_migrate e =? 0)); [reflexivity | discriminate]. }
        destruct (negb (migrate_context e) || intel_gt_is_wedged e);
          [injection Ea as _ <-; reflexivity|].
        destruct (if fail_gpu_migration (modes st) then true else c).
        - destruct (_ && _); [injection Ea as _ <-; reflexivity|].
          rewrite <- (Hsub _ ltac:(rewrite Ea; exact Eerr)), Ea. reflexivity.
        - destruct (src_get_st e).
          + rewrite <- (Hsub _ ltac:(rewrite Ea; exact Eerr)), Ea. reflexivity.
          + injection Ea as _ <-. reflexivity.
          + rewrite <- (Hsub _ ltac:(rewrite Ea; exact Eerr)), Ea. reflexivity. }
      destruct deps; [|exfalso; exact (Hcpu _ _ H)].
      destruct (Hsync _ H) as (Hx & Hx' & ->).
      repeat split; try assumption. apply new_events_app. reflexivity.
    + exfalso.
      match type of H with (if ?c then _ else _) = _ => destruct c end.
      { injection H as -> _. discriminate. }
      match type of H with (if ?c then _ else _) = _ => destruct c end.
      * destruct (i915_ttm_memcpy_work_arm e _ (log ev_kzalloc_work s0)) as [f2 s2].
        destruct (IS_ERR f2) eqn:E2; cbn [negb] in H.
        -- exact (Hcpu _ _ H).
        -- injection H as -> _. discriminate.
      * match type of H with (if negb (IS_ERR ?p) then _ else _) = _ =>
          destruct (IS_ERR p) eqn:E2 end; cbn [negb] in H.
        -- exact (Hcpu _ _ H).
        -- apply (f_equal fst) in H. cbn [fst] in H. rewrite H in E2. discriminate.
  - cbn [andb] in H.
    change (IS_ERR (@ERR_PTR dma_fence (- EINVAL))) with true in H. cbn [negb] in H.
    destruct deps; [|exfalso; exact (Hcpu _ _ H)].
    destruct (Hsync _ H) as (Hx & Hx' & ->).
    repeat split; try assumption. apply new_events_app. reflexivity.
Qed.



End MoveProofs.

(* ================================================================== *)
(** * Part 9: the pages of rotated and partial views *)
(* ================================================================== *)
Module ViewProofs.
Import Vma ViewPages ViewScenarios.

(** ** The table *)

Lemma sg_fill_eq len addr t :
  sg_fill len addr (nents_inc t)
  = if Z.of_nat (length (sgl t)) + 1 <=? orig_nents t
    then Ret {| sgl := sgl t ++ [{| sg_length := len; sg_dma_address := addr;
                                   sg_dma_len := len |}];
                nents := u32 (nents t + 1); orig_nents := orig_nents t |}
    else BUG.
Proof.
  unfold sg_fill, nents_inc. cbn [sgl nents orig_nents].
  destruct (orig_nents t <=? Z.of_nat (length (sgl t))) eqn:E1;
    destruct (Z.of_nat (length (sgl t)) + 1 <=? orig_nents t) eqn:E2;
    try reflexivity; exfalso;
    rewrite ?Z.leb_le, ?Z.leb_gt in E1, E2; lia.
Qed.

Lemma u32_sub_l x y : u32 (u32 x - y) = u32 (x - y).
Proof. unfold u32. rewrite Zminus_mod_idemp_l. reflexivity. Qed.

Lemma u32_add_l x y : u32 (u32 x + y) = u32 (x + y).
Proof. unfold u32. rewrite Zplus_mod_idemp_l. reflexivity. Qed.

Lemma u32_small x : 0 <= x < 2 ^ 32 -> u32 x = x.
Proof. intros H. unfold u32. apply Z.mod_small. exact H. Qed.

Lemma u32_range x : 0 <= u32 x < 2 ^ 32.
Proof. unfold u32. apply Z.mod_pos_bound. lia. Qed.

(** ** rotate_pages *)

(** The row loop in closed form: it appends one page entry per row, and
    does not return when the table is too short. *)
Lemma rotate_rows_eq get_dma src_stride rows : forall base t,
  Z.of_nat (length (sgl t)) <= orig_nents t ->
  0 <= nents t < 2 ^ 32 ->
  rotate_rows get_dma src_stride rows (u32 base) t
  = if Z.of_nat (length (sgl t)) + Z.of_nat rows <=? orig_nents t
    then Ret {| sgl := sgl t
                       ++ map (fun r => page_entry
                                          (get_dma (u32 (base - Z.of_nat r * src_stride))))
                              (seq 0 rows);
                nents := u32 (nents t + Z.of_nat rows);
                orig_nents := orig_nents t |}
    else BUG.
Proof.
  induction rows as [|rows IH]; intros base t Hlen Hn.
  - cbn [rotate_rows seq map]. rewrite app_nil_r, Z.add_0_r, Z.add_0_r.
    apply Z.leb_le in Hlen. rewrite Hlen. rewrite u32_small by exact Hn.
    destruct t; reflexivity.
  - cbn [rotate_rows]. rewrite sg_fill_eq.
    destruct (Z.of_nat (length (sgl t)) + 1 <=? orig_nents t) eqn:E1.
    + cbn [bind]. rewrite u32_sub_l. rewrite IH.
      * cbn [sgl nents orig_nents]. rewrite length_app. cbn [length].
        replace (Z.of_nat (length (sgl t) + 1) + Z.of_nat rows)
          with (Z.of_nat (length (sgl t)) + Z.of_nat (S rows)) by lia.
        destruct (Z.of_nat (length (sgl t)) + Z.of_nat (S rows) <=? orig_nents t);
          [|reflexivity].
        f_equal. f_equal.
        -- rewrite <- app_assoc. f_equal. cbn [seq map app].
           f_equal.
           ++ unfold page_entry. do 2 f_equal. f_equal. lia.
           ++ rewrite <- seq_shift, map_map. apply map_ext. intros r.
              unfold page_entry. do 3 f_equal. lia.
        -- rewrite u32_add_l. f_equal. lia.
      * cbn [sgl orig_nents]. rewrite length_app. cbn [length].
        apply Z.leb_le in E1. lia.
      * cbn [nents]. apply u32_range.
    + cbn [bind].
      destruct (Z.of_nat (length (sgl t)) + Z.of_nat (S rows) <=? orig_nents t) eqn:E2;
        [|reflexivity].
      exfalso. apply Z.leb_gt in E1. apply Z.leb_le in E2. lia.
Qed.

Lemma rotated_column_length get_dma offset height src_stride dst_stride column :
  length (rotated_column get_dma offset height src_stride dst_stride column)
  = (Z.to_nat height
     + (if (u32 ((dst_stride - height) * I915_GTT_PAGE_SIZE) =? 0)%Z then 0 else 1))%nat.
Proof.
  unfold rotated_column. rewrite length_app, length_map, length_seq. cbv zeta.
  destruct (u32 ((dst_stride - height) * I915_GTT_PAGE_SIZE) =? 0); reflexivity.
Qed.

(** One turn of the column loop. *)
Lemma rotate_column_step get_dma offset height src_stride dst_stride column t :
  0 <= height ->
  Z.of_nat (length (sgl t)) <= orig_nents t ->
  0 <= nents t < 2 ^ 32 ->
  let col := rotated_column get_dma offset height src_stride dst_stride column in
  (t <- rotate_rows get_dma src_stride (Z.to_nat height)
          (u32 (src_stride * (height - 1) + column + offset)) t ;;
   (if u32 ((dst_stride - height) * I915_GTT_PAGE_SIZE) =? 0 then Ret t
    else sg_fill (u32 ((dst_stride - height) * I915_GTT_PAGE_SIZE)) 0 (nents_inc t)))
  = if Z.of_nat (length (sgl t)) + Z.of_nat (length col) <=? orig_nents t
    then Ret {| sgl := sgl t ++ col;
                nents := u32 (nents t + Z.of_nat (length col));
                orig_nents := orig_nents t |}
    else BUG.
Proof.
  intros Hh Hlen Hn col. subst col. rewrite rotated_column_length.
  rewrite rotate_rows_eq by assumption.
  unfold rotated_column. cbv zeta.
  assert (map (fun r => page_entry
                          (get_dma (u32 (src_stride * (height - 1) + column + offset
                                         - Z.of_nat r * src_stride))))
              (seq 0 (Z.to_nat height))
          = map (fun r => page_entry
                            (get_dma (u32 (src_stride * (height - 1 - Z.of_nat r)
                                           + column + offset))))
                (seq 0 (Z.to_nat height))) as ->.
  { apply map_ext. intros r. do 3 f_equal. lia. }
  destruct (u32 ((dst_stride - height) * I915_GTT_PAGE_SIZE) =? 0) eqn:El.
  - rewrite Nat.add_0_r, app_nil_r.
    destruct (Z.of_nat (length (sgl t)) + Z.of_nat (Z.to_nat height) <=? orig_nents t);
      reflexivity.
  - destruct (Z.of_nat (length (sgl t)) + Z.of_nat (Z.to_nat height) <=? orig_nents t)
      eqn:E1; cbn [bind].
    + rewrite sg_fill_eq. cbn [sgl nents orig_nents].
      rewrite length_app, length_map, length_seq.
      replace (Z.of_nat (length (sgl t) + Z.to_nat height) + 1)
        with (Z.of_nat (length (sgl t)) + Z.of_nat (Z.to_nat height + 1)) by lia.
      destruct (Z.of_nat (length (sgl t)) + Z.of_nat (Z.to_nat height + 1)
                <=? orig_nents t); [|reflexivity].
      f_equal. f_equal.
      * rewrite <- app_assoc. reflexivity.
      * rewrite u32_add_l. f_equal. lia.
    + destruct (Z.of_nat (length (sgl t)) + Z.of_nat (Z.to_nat height + 1)
                <=? orig_nents t) eqn:E2; [|reflexivity].
      exfalso. apply Z.leb_gt in E1. apply Z.leb_le in E2. lia.
Qed.

Lemma length_flat_map_const {A B : Type} (f : A -> list B) (n : nat) (l : list A) :
  (forall a, length (f a) = n) -> length (flat_map f l) = (length l * n)%nat.
Proof.
  intros H. induction l as [|a l IH]; [reflexivity|].
  cbn [flat_map length]. rewrite length_app, H, IH. lia.
Qed.

Lemma flat_map_map {A B C : Type} (g : A -> B) (f : B -> list C) (l : list A) :
  flat_map f (map g l) = flat_map (fun x => f (g x)) l.
Proof.
  induction l as [|a l IH]; [reflexivity|]. cbn [map flat_map]. rewrite IH. reflexivity.
Qed.

(** The column loop in closed form. *)
Lemma rotate_columns_eq get_dma offset height src_stride dst_stride cols :
  forall column t,
  0 <= height ->
  Z.of_nat (length (sgl t)) <= orig_nents t ->
  0 <= nents t < 2 ^ 32 ->
  let per_column :=
    (Z.to_nat height
     + (if (u32 ((dst_stride - height) * I915_GTT_PAGE_SIZE) =? 0)%Z then 0 else 1))%nat in
  rotate_columns get_dma offset height src_stride dst_stride cols column t
  = if Z.of_nat (length (sgl t)) + Z.of_nat (cols * per_column) <=? orig_nents t
    then Ret {| sgl := sgl t
                       ++ flat_map (fun i => rotated_column get_dma offset height
                                               src_stride dst_stride (column + Z.of_nat i))
                                   (seq 0 cols);
                nents := u32 (nents t + Z.of_nat (cols * per_column));
                orig_nents := orig_nents t |}
    else BUG.
Proof.
  induction cols as [|cols IH]; intros column t Hh Hlen Hn per_column.
  - cbn [rotate_columns seq flat_map]. rewrite app_nil_r. cbn [Nat.mul].
    rewrite Z.add_0_r, Z.add_0_r. apply Z.leb_le in Hlen. rewrite Hlen.
    rewrite u32_small by exact Hn. destruct t; reflexivity.
  - cbn [rotate_columns]. cbv zeta.
    pose proof (rotate_column_step get_dma offset height src_stride dst_stride column t
                  Hh Hlen Hn) as Hstep. cbv zeta in Hstep.
    rewrite rotated_column_length in Hstep. fold per_column in Hstep.
    transitivity
      (bind
         (t <- rotate_rows get_dma src_stride (Z.to_nat height)
                 (u32 (src_stride * (height - 1) + column + offset)) t ;;
          (if u32 ((dst_stride - height) * I915_GTT_PAGE_SIZE) =? 0 then Ret t
           else sg_fill (u32 ((dst_stride - height) * I915_GTT_PAGE_SIZE)) 0
                  (nents_inc t)))
         (fun t => rotate_columns get_dma offset height src_stride dst_stride
                     cols (column + 1) t)).
    { destruct (rotate_rows get_dma src_stride (Z.to_nat height)
                  (u32 (src_stride * (height - 1) + column + offset)) t); reflexivity. }
    rewrite Hstep.
    destruct (Z.of_nat (length (sgl t)) + Z.of_nat per_column <=? orig_nents t) eqn:E1;
      cbn [bind].
    + rewrite IH; cbn [sgl nents orig_nents]; try assumption.
      * fold per_column. rewrite length_app, rotated_column_length. fold per_column.
        replace (Z.of_nat (length (sgl t) + per_column) + Z.of_nat (cols * per_column))
          with (Z.of_nat (length (sgl t)) + Z.of_nat (S cols * per_column)) by lia.
        destruct (Z.of_nat (length (sgl t)) + Z.of_nat (S cols * per_column)
                  <=? orig_nents t); [|reflexivity].
        f_equal. f_equal.
        -- rewrite <- app_assoc. f_equal. cbn [seq flat_map]. f_equal.
           ++ f_equal. lia.
           ++ rewrite <- seq_shift, flat_map_map.
              apply flat_map_ext. intros i. f_equal. lia.
        -- rewrite u32_add_l. f_equal. lia.
      * rewrite length_app, rotated_column_length. fold per_column.
        apply Z.leb_le in E1. lia.
      * apply u32_range.
    + destruct (Z.of_nat (length (sgl t)) + Z.of_nat (S cols * per_column)
                <=? orig_nents t) eqn:E2; [|reflexivity].
      exfalso. apply Z.leb_gt in E1. apply Z.leb_le in E2. lia.
Qed.

Lemma nth_error_flat_map_const {B : Type} (f : nat -> list B) (n : nat) :
  (forall i, length (f i) = n) ->
  forall cols s c r, (c < cols)%nat -> (r < n)%nat ->
    nth_error (flat_map f (seq s cols)) (c * n + r) = nth_error (f (s + c)%nat) r.
Proof.
  intros Hf. induction cols as [|cols IH]; intros s c r Hc Hr; [lia|].
  cbn [seq flat_map]. destruct c as [|c].
  - cbn [Nat.mul Nat.add]. rewrite nth_error_app1 by (rewrite Hf; exact Hr).
    rewrite Nat.add_0_r. reflexivity.
  - rewrite nth_error_app2 by (rewrite Hf; lia). rewrite Hf.
    replace (S c * n + r - n)%nat with (c * n + r)%nat by lia.
    rewrite IH by lia. f_equal. f_equal. lia.
Qed.

Lemma dma_total_app a b : dma_total (a ++ b) = dma_total a + dma_total b.
Proof.
  induction a as [|x a IH]; [reflexivity|].
  cbn [app dma_total fold_right]. fold (dma_total (a ++ b)). fold (dma_total a).
  rewrite IH. lia.
Qed.

Lemma dma_total_pages {A : Type} (g : A -> Z) (l : list A) :
  dma_total (map (fun r => page_entry (g r)) l) = Z.of_nat (length l) * I915_GTT_PAGE_SIZE.
Proof.
  induction l as [|x l IH]; [reflexivity|].
  cbn [map dma_total fold_right length].
  fold (dma_total (map (fun r => page_entry (g r)) l)). rewrite IH.
  cbn [page_entry sg_dma_len]. lia.
Qed.

Lemma dma_total_column get_dma offset height src_stride dst_stride column :
  0 <= height ->
  dma_total (rotated_column get_dma offset height src_stride dst_stride column)
  = height * I915_GTT_PAGE_SIZE + u32 ((dst_stride - height) * I915_GTT_PAGE_SIZE).
Proof.
  intros Hh. unfold rotated_column. rewrite dma_total_app, dma_total_pages, length_seq.
  cbv zeta. rewrite Z2Nat.id by exact Hh.
  destruct (u32 ((dst_stride - height) * I915_GTT_PAGE_SIZE) =? 0) eqn:E.
  - apply Z.eqb_eq in E. rewrite E. reflexivity.
  - cbn [dma_total fold_right sg_dma_len]. lia.
Qed.

Lemma dma_total_flat_map {A : Type} (f : A -> list scatterlist) (k : Z) (l : list A) :
  (forall a, dma_total (f a) = k) ->
  dma_total (flat_map f l) = Z.of_nat (length l) * k.
Proof.
  intros H. induction l as [|a l IH]; [reflexivity|].
  cbn [flat_map length]. rewrite dma_total_app, H, IH. lia.
Qed.

(** The whole of rotate_pages. *)
Lemma rotate_pages_eq get_dma offset width height src_stride dst_stride t :
  0 <= height ->
  Z.of_nat (length (sgl t)) <= orig_nents t ->
  0 <= nents t < 2 ^ 32 ->
  let per_column :=
    (Z.to_nat height
     + (if (u32 ((dst_stride - height) * I915_GTT_PAGE_SIZE) =? 0)%Z then 0 else 1))%nat in
  rotate_pages get_dma offset width height src_stride dst_stride t
  = if Z.of_nat (length (sgl t)) + Z.of_nat (Z.to_nat width * per_column) <=? orig_nents t
    then Ret {| sgl := sgl t
                       ++ flat_map (fun i => rotated_column get_dma offset height
                                               src_stride dst_stride (Z.of_nat i))
                                   (seq 0 (Z.to_nat width));
                nents := u32 (nents t + Z.of_nat (Z.to_nat width * per_column));
                orig_nents := orig_nents t |}
    else BUG.
Proof.
  intros Hh Hlen Hn per_column. unfold rotate_pages.
  rewrite rotate_columns_eq by assumption. reflexivity.
Qed.

(** X18. rotate_pages lays a plane out column by column, each column from
    the bottom row up. With room for them in the table it appends, for
    every column, one page entry per row and then one padding entry if
    dst_stride leaves a gap: the entry of row r in column c is the page of
    the object at index src_stride * (height - 1 - r) + c + offset, taken
    modulo 2^32, and the padding entry has DMA address 0 and the length of
    the gap. The entries already in the table are kept and nents grows by
    the number of entries written. Without room the function runs off the
    end of the table and does not return. *)
Theorem rotate_pages_layout get_dma offset width height src_stride dst_stride t :
  0 <= height ->
  Z.of_nat (length (sgl t)) <= orig_nents t ->
  0 <= nents t < 2 ^ 32 ->
  let left := u32 ((dst_stride - height) * I915_GTT_PAGE_SIZE) in
  let per_column := (Z.to_nat height + (if (left =? 0)%Z then 0 else 1))%nat in
  let written := (Z.to_nat width * per_column)%nat in
  if Z.of_nat (length (sgl t)) + Z.of_nat written <=? orig_nents t
  then exists t',
      rotate_pages get_dma offset width height src_stride dst_stride t = Ret t'
      /\ length (sgl t') = (length (sgl t) + written)%nat
      /\ firstn (length (sgl t)) (sgl t') = sgl t
      /\ nents t' = u32 (nents t + Z.of_nat written)
      /\ orig_nents t' = orig_nents t
      /\ (forall c r, (c < Z.to_nat width)%nat -> (r < Z.to_nat height)%nat ->
            nth_error (sgl t') (length (sgl t) + (c * per_column + r))
            = Some (page_entry
                      (get_dma (u32 (src_stride * (height - 1 - Z.of_nat r)
                                     + Z.of_nat c + offset)))))
      /\ (forall c, (c < Z.to_nat width)%nat -> left <> 0 ->
            nth_error (sgl t') (length (sgl t) + (c * per_column + Z.to_nat height))
            = Some {| sg_length := left; sg_dma_address := 0; sg_dma_len := left |})
  else rotate_pages get_dma offset width height src_stride dst_stride t = BUG.
Proof.
  intros Hh Hlen Hn left per_column written.
  rewrite rotate_pages_eq by assumption. fold left. fold per_column. fold written.
  destruct (Z.of_nat (length (sgl t)) + Z.of_nat written <=? orig_nents t);
    [|reflexivity].
  assert (forall i, length (rotated_column get_dma offset height src_stride dst_stride
                              (Z.of_nat i)) = per_column) as Hcol
    by (intros i; apply rotated_column_length).
  eexists. split; [reflexivity|]. cbn [sgl nents orig_nents].
  split.
  { rewrite length_app. f_equal.
    rewrite (length_flat_map_const _ per_column) by exact Hcol.
    rewrite length_seq. reflexivity. }
  split.
  { rewrite firstn_app, Nat.sub_diag, firstn_all. cbn [firstn]. apply app_nil_r. }
  split; [reflexivity|]. split; [reflexivity|].
  split.
  - intros c r Hc Hr. rewrite nth_error_app2 by lia.
    replace (length (sgl t) + (c * per_column + r) - length (sgl t))%nat
      with (c * per_column + r)%nat by lia.
    rewrite (nth_error_flat_map_const _ per_column Hcol) by (subst per_column; lia).
    cbn [Nat.add]. unfold rotated_column.
    rewrite nth_error_app1 by (rewrite length_map, length_seq; exact Hr).
    rewrite nth_error_map, nth_error_seq.
    destruct (Nat.ltb_spec r (Z.to_nat height)) as [_|Hge]; [|lia].
    reflexivity.
  - intros c Hc Hl. rewrite nth_error_app2 by lia.
    replace (length (sgl t) + (c * per_column + Z.to_nat height) - length (sgl t))%nat
      with (c * per_column + Z.to_nat height)%nat by lia.
    assert ((left =? 0) = false) as El by (apply Z.eqb_neq; exact Hl).
    rewrite (nth_error_flat_map_const _ per_column Hcol)
      by (subst per_column; rewrite ?El; lia).
    cbn [Nat.add]. unfold rotated_column.
    rewrite nth_error_app2 by (rewrite length_map, length_seq; lia).
    rewrite length_map, length_seq, Nat.sub_diag. cbv zeta. fold left. rewrite El.
    reflexivity.
Qed.

(** Two columns of two rows: the first entry is the page of the bottom
    row of column 0. *)
Lemma rotate_pages_layout_witness :
  exists t',
    rotate_pages linear_dma 0 2 2 3 3 (empty_table 6) = Ret t'
    /\ nth_error (sgl t') 0 = Some (page_entry (3 * I915_GTT_PAGE_SIZE))
    /\ nth_error (sgl t') 2
       = Some {| sg_length := I915_GTT_PAGE_SIZE; sg_dma_address := 0;
                 sg_dma_len := I915_GTT_PAGE_SIZE |}.
Proof.
  pose proof (rotate_pages_layout linear_dma 0 2 2 3 3 (empty_table 6)
                ltac:(lia) ltac:(simpl; lia) ltac:(simpl; lia)) as H.
  cbv zeta in H.
  match type of H with
  | (if ?c then _ else _) => change c with true in H
  end.
  cbv iota in H.
  destruct H as (t' & Hrun & _ & _ & _ & _ & Hpage & Hpad).
  exists t'. split; [exact Hrun|]. split.
  - exact (Hpage 0%nat 0%nat ltac:(simpl; lia) ltac:(simpl; lia)).
  - exact (Hpad 0%nat ltac:(simpl; lia) ltac:(vm_compute; discriminate)).
Defined.

Lemma rotate_pages_room get_dma offset width height src_stride dst_stride t :
  0 <= width ->
  0 <= height <= dst_stride ->
  (dst_stride - height) * I915_GTT_PAGE_SIZE < 2 ^ 32 ->
  nents t = Z.of_nat (length (sgl t)) ->
  Z.of_nat (length (sgl t)) + width * dst_stride <= orig_nents t ->
  orig_nents t < 2 ^ 32 ->
  exists t',
    rotate_pages get_dma offset width height src_stride dst_stride t = Ret t'
    /\ dma_total (sgl t')
       = dma_total (sgl t) + width * dst_stride * I915_GTT_PAGE_SIZE
    /\ nents t' = Z.of_nat (length (sgl t'))
    /\ Z.of_nat (length (sgl t')) <= Z.of_nat (length (sgl t)) + width * dst_stride
    /\ orig_nents t' = orig_nents t.
Proof.
  intros Hw Hh Hleft Hn Hroom Hcap.
  assert (0 <= width * dst_stride) as Hwd by nia.
  pose proof (rotate_pages_eq get_dma offset width height src_stride dst_stride t
                ltac:(lia) ltac:(lia) ltac:(lia)) as Heq.
  cbv zeta in Heq.
  assert (u32 ((dst_stride - height) * I915_GTT_PAGE_SIZE)
          = (dst_stride - height) * I915_GTT_PAGE_SIZE) as Hu.
  { apply u32_small. unfold I915_GTT_PAGE_SIZE in *. lia. }
  rewrite Hu in Heq.
  set (per_column := (Z.to_nat height
                      + (if ((dst_stride - height) * I915_GTT_PAGE_SIZE =? 0)%Z
                         then 0 else 1))%nat) in *.
  assert (Z.of_nat per_column <= dst_stride) as Hper.
  { subst per_column.
    destruct ((dst_stride - height) * I915_GTT_PAGE_SIZE =? 0) eqn:E.
    - lia.
    - apply Z.eqb_neq in E. unfold I915_GTT_PAGE_SIZE in E. lia. }
  assert (Z.of_nat (Z.to_nat width * per_column) <= width * dst_stride) as Hwritten.
  { rewrite Nat2Z.inj_mul, Z2Nat.id by exact Hw. nia. }
  assert ((Z.of_nat (length (sgl t)) + Z.of_nat (Z.to_nat width * per_column)
           <=? orig_nents t) = true) as Hfits by (apply Z.leb_le; lia).
  rewrite Hfits in Heq.
  eexists. split; [exact Heq|]. cbn [sgl nents orig_nents].
  assert (forall i, length (rotated_column get_dma offset height src_stride dst_stride
                              (Z.of_nat i)) = per_column) as Hcol.
  { intros i. rewrite rotated_column_length, Hu. reflexivity. }
  split.
  { rewrite dma_total_app. f_equal.
    rewrite (dma_total_flat_map _ (dst_stride * I915_GTT_PAGE_SIZE)).
    - rewrite length_seq, Z2Nat.id by exact Hw. lia.
    - intros i. rewrite dma_total_column by lia. rewrite Hu. lia. }
  rewrite length_app, (length_flat_map_const _ per_column) by exact Hcol.
  rewrite length_seq.
  split.
  { rewrite Hn, u32_small by lia. lia. }
  split; [lia | reflexivity].
Qed.

(** X19. A plane never needs more than dst_stride entries per column, and
    covers exactly that many pages. If the rows fit below dst_stride and
    the table has room for width * dst_stride further entries, then
    rotate_pages returns, the DMA lengths of the entries it has written add
    up to width * dst_stride GTT pages, and nents still counts the entries
    of the table. *)
Theorem rotate_pages_total get_dma offset width height src_stride dst_stride t :
  0 <= width ->
  0 <= height <= dst_stride ->
  (dst_stride - height) * I915_GTT_PAGE_SIZE < 2 ^ 32 ->
  nents t = Z.of_nat (length (sgl t)) ->
  Z.of_nat (length (sgl t)) + width * dst_stride <= orig_nents t ->
  orig_nents t < 2 ^ 32 ->
  exists t',
    rotate_pages get_dma offset width height src_stride dst_stride t = Ret t'
    /\ dma_total (sgl t')
       = dma_total (sgl t) + width * dst_stride * I915_GTT_PAGE_SIZE
    /\ nents t' = Z.of_nat (length (sgl t'))
    /\ Z.of_nat (length (sgl t')) <= Z.of_nat (length (sgl t)) + width * dst_stride
    /\ orig_nents t' = orig_nents t.
Proof. apply rotate_pages_room. Qed.

Lemma rotate_pages_total_witness :
  exists t',
    rotate_pages linear_dma 0 2 2 3 3 (empty_table 6) = Ret t'
    /\ dma_total (sgl t') = 6 * I915_GTT_PAGE_SIZE
    /\ nents t' = Z.of_nat (length (sgl t')).
Proof.
  destruct (rotate_pages_total linear_dma 0 2 2 3 3 (empty_table 6))
    as (t' & Hrun & Htot & Hn & _);
    try (simpl; lia); try (vm_compute; reflexivity).
  exists t'. split; [exact Hrun|]. split; [exact Htot | exact Hn].
Defined.

(** ** intel_rotate_pages *)

Lemma rotate_planes_total get_dma (plane : list intel_rotation_plane) : forall t,
  Forall (fun p => 0 <= plane_width p
                   /\ 0 <= plane_height p <= plane_dst_stride p
                   /\ (plane_dst_stride p - plane_height p) * I915_GTT_PAGE_SIZE < 2 ^ 32)
         plane ->
  nents t = Z.of_nat (length (sgl t)) ->
  Z.of_nat (length (sgl t)) + planes_pages plane <= orig_nents t ->
  orig_nents t < 2 ^ 32 ->
  exists t',
    fold_left
      (fun acc p =>
         st <- acc ;;
         rotate_pages get_dma (plane_offset p) (plane_width p)
           (plane_height p) (plane_src_stride p) (plane_dst_stride p) st)
      plane (Ret t) = Ret t'
    /\ dma_total (sgl t') = dma_total (sgl t) + planes_pages plane * I915_GTT_PAGE_SIZE
    /\ nents t' = Z.of_nat (length (sgl t'))
    /\ Z.of_nat (length (sgl t')) <= Z.of_nat (length (sgl t)) + planes_pages plane
    /\ orig_nents t' = orig_nents t.
Proof.
  induction plane as [|p plane IH]; intros t Hwf Hn Hroom Hcap.
  - exists t. cbn [fold_left planes_pages fold_right].
    repeat split; try lia; exact Hn.
  - inversion Hwf as [|? ? (Hw & Hh & Hl) Hwf']; subst.
    assert (0 <= planes_pages plane) as Hpos.
    { clear - Hwf'. induction Hwf' as [|q l (Hw & Hh & _) _ IHl];
        cbn [planes_pages fold_right]; [lia|]. fold (planes_pages l). nia. }
    cbn [planes_pages fold_right] in Hroom |- *. fold (planes_pages plane) in Hroom |- *.
    destruct (rotate_pages_room get_dma (plane_offset p) (plane_width p) (plane_height p)
                (plane_src_stride p) (plane_dst_stride p) t Hw Hh Hl Hn
                ltac:(lia) Hcap) as (t1 & Hrun & Htot & Hn1 & Hlen1 & Ho1).
    cbn [fold_left bind]. rewrite Hrun.
    destruct (IH t1 Hwf' Hn1 ltac:(lia) ltac:(lia))
      as (t' & Hfold & Htot' & Hn' & Hlen' & Ho').
    exists t'. split; [exact Hfold|].
    split; [lia|]. split; [exact Hn'|]. split; [lia | congruence].
Qed.

(** X20. intel_rotate_pages always returns, and never runs off the table
    it has allocated, when that table has one entry for every page the
    planes cover. It returns -ENOMEM when the table header cannot be
    allocated and the error of sg_alloc_table when the entries cannot;
    otherwise the table it returns covers exactly dst_stride pages for
    every column of every plane, and nents is the number of its entries. *)
Theorem intel_rotate_pages_result e plane :
  Forall (fun p => 0 <= plane_width p
                   /\ 0 <= plane_height p <= plane_dst_stride p
                   /\ (plane_dst_stride p - plane_height p) * I915_GTT_PAGE_SIZE < 2 ^ 32)
         plane ->
  planes_pages plane <= rotation_info_size e < 2 ^ 32 ->
  exists r,
    intel_rotate_pages e plane = Ret r
    /\ (if negb (kmalloc_st e) then r = ERR (- ENOMEM)
        else if sg_alloc_table e =? 0 then
          exists st, r = PTR st
                     /\ dma_total (sgl st) = planes_pages plane * I915_GTT_PAGE_SIZE
                     /\ nents st = Z.of_nat (length (sgl st))
                     /\ Z.of_nat (length (sgl st)) <= planes_pages plane
        else r = ERR (sg_alloc_table e)).
Proof.
  intros Hwf Hsize. unfold intel_rotate_pages. cbv zeta.
  destruct (kmalloc_st e); cbn [negb].
  2:{ eexists. split; reflexivity. }
  destruct (sg_alloc_table e =? 0) eqn:Ea; cbn [negb].
  2:{ eexists. split; [reflexivity|]. unfold ERR_PTR. rewrite Ea. reflexivity. }
  destruct (rotate_planes_total (get_dma_address e) plane
              {| sgl := []; nents := 0; orig_nents := rotation_info_size e |} Hwf
              eq_refl ltac:(cbn [sgl orig_nents length]; lia)
              ltac:(cbn [orig_nents]; lia))
    as (st & Hfold & Htot & Hn & Hlen & _).
  rewrite Hfold. cbn [bind]. eexists. split; [reflexivity|].
  exists st. split; [reflexivity|]. cbn [sgl length dma_total fold_right] in Htot, Hlen.
  split; [lia|]. split; [exact Hn | lia].
Qed.

Lemma intel_rotate_pages_result_witness :
  exists st,
    intel_rotate_pages venv_ok [plane_2x2] = Ret (PTR st)
    /\ dma_total (sgl st) = 6 * I915_GTT_PAGE_SIZE.
Proof.
  destruct (intel_rotate_pages_result venv_ok [plane_2x2]) as (r & Hrun & Hr).
  - constructor; [|constructor]. vm_compute. repeat split; discriminate.
  - vm_compute. split; [discriminate | reflexivity].
  - cbn [venv_ok kmalloc_st sg_alloc_table negb Z.eqb] in Hr.
    destruct Hr as (st & -> & Htot & _).
    exists st. split; [exact Hrun | exact Htot].
Defined.

(** ** intel_partial_pages *)

Lemma shiftl_page x : Z.shiftl x PAGE_SHIFT = x * 4096.
Proof. unfold PAGE_SHIFT. rewrite Z.shiftl_mul_pow2 by lia. reflexivity. Qed.

Lemma shiftr_page x : Z.shiftr x PAGE_SHIFT = x / 4096.
Proof. unfold PAGE_SHIFT. rewrite Z.shiftr_div_pow2 by lia. reflexivity. Qed.

Lemma dma_pages_nonneg src :
  Forall (fun s => 0 < snd s < 2 ^ 32 /\ snd s mod PAGE_SIZE = 0) src ->
  0 <= dma_pages src.
Proof.
  induction 1 as [|s l (Hs & _) _ IH]; cbn [dma_pages fold_right]; [lia|].
  fold (dma_pages l). rewrite shiftr_page.
  assert (0 <= snd s / 4096) by (apply Z.div_pos; lia). lia.
Qed.

(** The loop of intel_partial_pages. *)
Lemma partial_loop_total trim src : forall offset count t,
  Forall (fun s => 0 < snd s < 2 ^ 32 /\ snd s mod PAGE_SIZE = 0) src ->
  0 <= offset ->
  (forall s rest, src = s :: rest -> offset * PAGE_SIZE < snd s) ->
  0 < count -> count * PAGE_SIZE < 2 ^ 32 ->
  count <= dma_pages src - offset ->
  nents t = Z.of_nat (length (sgl t)) ->
  Z.of_nat (length (sgl t)) + count <= orig_nents t ->
  orig_nents t < 2 ^ 32 ->
  exists t1,
    partial_loop trim src offset count t = Ret (trim t1)
    /\ dma_total (sgl t1) = dma_total (sgl t) + count * PAGE_SIZE
    /\ nents t1 = Z.of_nat (length (sgl t1))
    /\ Z.of_nat (length (sgl t)) < Z.of_nat (length (sgl t1))
       <= Z.of_nat (length (sgl t)) + count
    /\ orig_nents t1 = orig_nents t
    /\ firstn (length (sgl t)) (sgl t1) = sgl t
    /\ option_map sg_dma_address (nth_error (sgl t1) (length (sgl t)))
       = option_map (fun s => u64 (fst s + offset * PAGE_SIZE)) (hd_error src).
Proof.
  unfold PAGE_SIZE.
  induction src as [|[a l] src IH];
    intros offset count t Hwf Hoff Hfirst Hc Hc4 Havail Hn Hroom Hcap.
  - cbn [dma_pages fold_right] in Havail. lia.
  - inversion Hwf as [|? ? (Hl & Hmod) Hwf']; subst. cbn [snd] in Hl, Hmod.
    specialize (Hfirst _ _ eq_refl). cbn [snd] in Hfirst.
    cbn [dma_pages fold_right snd] in Havail. fold (dma_pages src) in Havail.
    rewrite shiftr_page in Havail.
    pose proof (dma_pages_nonneg _ Hwf') as Hpos.
    pose proof (Z.div_mod l 4096 ltac:(lia)) as Hdiv. rewrite Hmod, Z.add_0_r in Hdiv.
    remember (l / 4096) as q eqn:Eq. clear Eq Hmod. subst l.
    cbn [partial_loop]. cbv zeta. rewrite !shiftl_page.
    rewrite (u32_small (offset * 4096)) by lia.
    rewrite (u32_small (4096 * q - offset * 4096)) by lia.
    rewrite (u32_small (count * 4096)) by lia.
    assert (Z.min (4096 * q - offset * 4096) (count * 4096)
            = 4096 * Z.min (q - offset) count) as Hlen by lia.
    rewrite Hlen.
    assert (Z.shiftr (4096 * Z.min (q - offset) count) PAGE_SHIFT
            = Z.min (q - offset) count) as Hsh.
    { rewrite shiftr_page, Z.mul_comm, Z.div_mul by lia. reflexivity. }
    rewrite Hsh.
    unfold sg_fill.
    assert ((orig_nents t <=? Z.of_nat (length (sgl t))) = false) as ->
      by (apply Z.leb_gt; lia).
    cbn [bind]. unfold nents_inc. cbn [sgl nents orig_nents].
    rewrite (u32_small (count - Z.min (q - offset) count)) by lia.
    destruct (count - Z.min (q - offset) count =? 0) eqn:Ez.
    + apply Z.eqb_eq in Ez. eexists. split; [reflexivity|].
      cbn [sgl nents orig_nents].
      rewrite dma_total_app, length_app. cbn [dma_total fold_right sg_dma_len length].
      split; [lia|]. split; [rewrite Hn, u32_small by lia; lia|].
      split; [lia|]. split; [reflexivity|].
      split; [rewrite firstn_app, Nat.sub_diag, firstn_all; apply app_nil_r|].
      rewrite nth_error_app2, Nat.sub_diag by lia. reflexivity.
    + apply Z.eqb_neq in Ez.
      assert (Z.min (q - offset) count = q - offset) as Hmin by lia.
      rewrite Hmin in *.
      destruct (IH 0 (count - (q - offset))
                  {| sgl := sgl t ++ [{| sg_length := 4096 * (q - offset);
                                         sg_dma_address := u64 (a + offset * 4096);
                                         sg_dma_len := 4096 * (q - offset) |}];
                     nents := u32 (nents t + 1); orig_nents := orig_nents t |})
        as (t1 & Hrun & Htot & Hn1 & Hlen1 & Ho1 & Hkeep & _).
      * exact Hwf'.
      * lia.
      * intros s rest ->. inversion Hwf' as [|? ? (Hs & _) _]; subst. lia.
      * lia.
      * lia.
      * lia.
      * cbn [sgl nents]. rewrite length_app. cbn [length].
        rewrite Hn, u32_small by lia. lia.
      * cbn [sgl orig_nents]. rewrite length_app. cbn [length]. lia.
      * exact Hcap.
      * exists t1. split; [exact Hrun|].
        cbn [sgl nents orig_nents] in Htot, Hlen1, Ho1, Hkeep.
        rewrite dma_total_app, length_app in *.
        cbn [dma_total fold_right sg_dma_len length] in *.
        split; [lia|]. split; [exact Hn1|]. split; [lia|]. split; [exact Ho1|].
        split.
        -- apply (f_equal (firstn (length (sgl t)))) in Hkeep.
           rewrite firstn_firstn, Nat.min_l in Hkeep by lia.
           rewrite Hkeep, firstn_app, Nat.sub_diag, firstn_all. apply app_nil_r.
        -- apply (f_equal (fun x => nth_error x (length (sgl t)))) in Hkeep.
           rewrite nth_error_firstn in Hkeep.
           destruct (Nat.ltb_spec (length (sgl t)) (length (sgl t) + 1)) as [_|Hge];
             [|lia].
           rewrite Hkeep, nth_error_app2, Nat.sub_diag by lia. reflexivity.
Qed.




End ViewProofs.
